(** * Meter readings, physical quantities and RFC 3339 timestamps

    A shallow embedding of [units.py], [rfc3339.py] and the [Meter] class of
    [google_meter.py], with the properties of the written specification
    stated and settled against it.
    Further properties of the same code follow them, with the helpers of
    [google_meter.py] for text, paths and batches of events and the loop of
    the main program in [sqlite2googlepowermeter.py].

    Numbers.  Python's [float] and [int] values are modelled by the canonical
    rationals [Qc]: arithmetic is exact, and two numbers are equal exactly
    when Python's [==] on them would be under real-number arithmetic.
    Division by zero raises, as in Python, and so does the conversion to a
    float of an integer beyond the range of floats; the rounding of floats
    is not modelled.  Assertions are executed (the interpreter is not run
    with [-O]).

    Objects.  A [Unit] is a mutable Python object compared by identity
    ([is], and dictionary keys hashed by identity).  Units therefore live in
    a heap and are named by references; building a unit with factorizations
    updates the [products] tables of the units it is built from. *)

From Stdlib Require Import QArith Qcanon Qround ZArith Lia Ascii String.
From stdpp Require Import base decidable option numbers list gmap strings.

Local Open Scope Qc_scope.

(** ** Exceptions and results *)

Inductive exn : Set :=
  | AssertionError
  | ZeroDivisionError
  | AttributeError
  | TypeError
  | ValueError
  | RuntimeError      (* maximum recursion depth exceeded *)
  | KeyError
  | IOError
  | IndexError
  | OverflowError     (* long int too large to convert to float *)
  | Dangling.         (* a reference outside the heap; no Python counterpart *)

Inductive result (A : Type) : Type :=
  | Ok (a : A)
  | Raise (e : exn).

Arguments Ok {A} a.
Arguments Raise {A} e.

Definition rbind {A B} (r : result A) (k : A -> result B) : result B :=
  match r with
  | Ok a => k a
  | Raise e => Raise e
  end.

Declare Scope result_scope.
Delimit Scope result_scope with result.
Notation "'let!' x ':=' r 'in' k" := (rbind r (fun x => k))
  (at level 10, x name, r at level 100, k at level 200) : result_scope.
Notation "'let!' ' p ':=' r 'in' k" :=
  (rbind r (fun x => match x with p => k end))
  (at level 10, p pattern, r at level 100, k at level 200) : result_scope.
Notation "'assert!' b 'in' k" := (if b then k else Raise AssertionError)
  (at level 10, b at level 100, k at level 200) : result_scope.

#[global] Instance exn_eq_dec : EqDecision exn.
Proof. solve_decision. Defined.

#[global] Instance result_eq_dec `{EqDecision A} : EqDecision (result A).
Proof. solve_decision. Defined.

(** Python's true division on numbers. *)
Definition pydiv (x y : Qc) : result Qc :=
  if decide (y = 0) then Raise ZeroDivisionError else Ok (x / y).

(** ** units.py *)

Module units.

Local Open Scope result_scope.

(** The identity of a [Unit] object. *)
Definition uref := nat.

Record Unit : Type := mkUnit {
  symbol : string;
  factor : Qc;
  base : uref;
  products : gmap nat nat;
  quotients : gmap nat nat
}.

(** The unit objects allocated so far, and the module-level dictionary
    [units_by_symbol]. *)
Record heap : Type := mkHeap {
  objs : list Unit;
  units_by_symbol : gmap string nat
}.

Definition empty_heap : heap := mkHeap [] ∅.

Definition deref (h : heap) (u : uref) : result Unit :=
  match objs h !! u with
  | Some o => Ok o
  | None => Raise Dangling
  end.

Definition set_quotient (k v : uref) (o : Unit) : Unit :=
  mkUnit (symbol o) (factor o) (base o) (products o) (<[k := v]> (quotients o)).

Definition set_product (k v : uref) (o : Unit) : Unit :=
  mkUnit (symbol o) (factor o) (base o) (<[k := v]> (products o)) (quotients o).

(** One round of the loop over [factorizations] in [Unit.__init__]. *)
Definition register_factorization (self : uref) (os : list Unit)
    (lr : uref * uref) : list Unit :=
  let '(left_, right_) := lr in
  let os := alter (set_quotient left_ right_) self os in
  let os := alter (set_quotient right_ left_) self os in
  let os := alter (set_product right_ self) left_ os in
  alter (set_product left_ self) right_ os.

(** [Unit.__init__(symbol, factor=1, base=None, factorizations=())]:
    returns the new heap and the reference of the unit created. *)
Definition Unit__init__ (h : heap) (symbol : string) (factor : Qc)
    (base : option uref) (factorizations : list (uref * uref))
    : result (heap * uref) :=
  let self := length (objs h) in
  let base := default self base in
  assert! (if decide (base = self) then bool_decide (factor = 1) else true) in
  let os := objs h ++ [mkUnit symbol factor base ∅ ∅] in
  let os := foldl (register_factorization self) os factorizations in
  Ok (mkHeap os (<[symbol := self]> (units_by_symbol h)), self).

(** [Unit.IsConvertibleTo]: [unit.base is self.base]. *)
Definition Unit_IsConvertibleTo (h : heap) (self unit : uref) : result bool :=
  let! s := deref h self in
  let! u := deref h unit in
  Ok (bool_decide (base u = base s)).

(** [d[k]] on a dictionary of units. *)
Definition getitem (d : gmap nat nat) (k : uref) : result uref :=
  match d !! k with
  | Some v => Ok v
  | None => Raise KeyError
  end.

(** [k in d]. *)
Definition contains (d : gmap nat nat) (k : uref) : bool :=
  bool_decide (is_Some (d !! k)).

(** [Unit.__div__]: [self.quotients[other]]. *)
Definition Unit__div__ (h : heap) (self other : uref) : result uref :=
  let! s := deref h self in
  getitem (quotients s) other.

Record Quantity : Type := mkQuantity {
  value : Qc;
  unit : uref
}.

(** [Quantity.__init__]: [float(value)] is the identity on numbers. *)
Definition Quantity__init__ (value : Qc) (unit : uref) : Quantity :=
  mkQuantity value unit.

(** The Python values that reach the arithmetic operators as operands,
    or come out of them. *)
Inductive pyval : Type :=
  | PNone
  | PNum (x : Qc)
  | PUnit (u : uref)
  | PQuantity (q : Quantity).

(** [Unit.__rmul__]: [Quantity(other, self)]. *)
Definition Unit__rmul__ (self : uref) (other : Qc) : Quantity :=
  Quantity__init__ other self.

(** [Quantity.__eq__]: a comparison for quantities, [None] otherwise. *)
Definition Quantity__eq__ (self : Quantity) (other : pyval) : option bool :=
  match other with
  | PQuantity o =>
      Some (bool_decide (value self = value o) && bool_decide (unit self = unit o))
  | _ => None
  end.

Definition Quantity__neg__ (self : Quantity) : Quantity :=
  Quantity__init__ (- value self) (unit self).

(** [Quantity.IsConvertibleTo]. *)
Definition IsConvertibleTo (h : heap) (self : Quantity) (unit_ : uref)
    : result bool :=
  Unit_IsConvertibleTo h (unit self) unit_.

(** [Quantity.ConvertTo]. *)
Definition ConvertTo (h : heap) (self : Quantity) (unit_ : uref)
    : result Quantity :=
  let! ok := Unit_IsConvertibleTo h (unit self) unit_ in
  assert! ok in
  let! s := deref h (unit self) in
  let! u := deref h unit_ in
  let! x := pydiv (value self * factor s) (factor u) in
  Ok (Quantity__init__ x unit_).

(** [other.ConvertTo(unit)] on an arbitrary operand: only a [Quantity] has
    the attribute. *)
Definition getattr_ConvertTo (h : heap) (other : pyval) (unit_ : uref)
    : result Quantity :=
  match other with
  | PQuantity o => ConvertTo h o unit_
  | _ => Raise AttributeError
  end.

Definition Quantity__add__ (h : heap) (self : Quantity) (other : pyval)
    : result Quantity :=
  let! other := getattr_ConvertTo h other (unit self) in
  Ok (Quantity__init__ (value self + value other) (unit self)).

Definition Quantity__sub__ (h : heap) (self : Quantity) (other : pyval)
    : result Quantity :=
  let! other := getattr_ConvertTo h other (unit self) in
  Ok (Quantity__init__ (value self - value other) (unit self)).

(** [Quantity.__mul__].  A branch whose inner [if] fails falls off the end
    of the function, which returns [None]. *)
Definition Quantity__mul__ (h : heap) (self : Quantity) (other : pyval)
    : result pyval :=
  match other with
  | PNum x =>
      Ok (PQuantity (Quantity__init__ (value self * x) (unit self)))
  | PUnit o =>
      let! s := deref h (unit self) in
      if contains (products s) o then
        let! u := getitem (products s) o in
        Ok (PQuantity (Quantity__init__ (value self) u))
      else Ok PNone
  | PQuantity o =>
      let! s := deref h (unit self) in
      if contains (products s) (unit o) then
        let! u := getitem (products s) (unit o) in
        Ok (PQuantity (Quantity__init__ (value self * value o) u))
      else Ok PNone
  | PNone => Ok PNone
  end.

(** [Quantity.__rmul__]. *)
Definition Quantity__rmul__ (h : heap) (self : Quantity) (other : pyval)
    : result pyval :=
  Quantity__mul__ h self other.

(** [Unit.__mul__]: [self.products[other]] for a unit, [other*self]
    otherwise. *)
Definition Unit__mul__ (h : heap) (self : uref) (other : pyval)
    : result pyval :=
  match other with
  | PUnit o =>
      let! s := deref h self in
      let! u := getitem (products s) o in
      Ok (PUnit u)
  | PNum x => Ok (PQuantity (Unit__rmul__ self x))
  | PQuantity q => Quantity__mul__ h q (PUnit self)
  | PNone => Raise TypeError
  end.

(** [Quantity.__div__].  The last line calls [__div__] again on the
    quantity converted to its base unit; [depth] is the number of nested
    calls the interpreter still allows before it raises [RuntimeError]. *)
Fixpoint Quantity__div__ (depth : nat) (h : heap) (self : Quantity)
    (other : pyval) : result pyval :=
  match depth with
  | O => Raise RuntimeError
  | S depth =>
      let! s := deref h (unit self) in
      let retry :=
        let! b := ConvertTo h self (base s) in
        Quantity__div__ depth h b other in
      match other with
      | PUnit o =>
          if contains (quotients s) o then
            let! u := Unit__div__ h (unit self) o in
            Ok (PQuantity (Quantity__init__ (value self) u))
          else retry
      | PQuantity o =>
          if contains (quotients s) (unit o) then
            let! x := pydiv (value self) (value o) in
            let! u := Unit__div__ h (unit self) (unit o) in
            Ok (PQuantity (Quantity__init__ x u))
          else if decide (unit o = unit self) then
            let! x := pydiv (value self) (value o) in
            Ok (PNum x)
          else retry
      | _ => retry
      end
  end.

(** *** The module's units *)

Definition SECOND : uref := 0%nat.
Definition WATT : uref := 1%nat.
Definition JOULE : uref := 2%nat.
Definition KILOWATT_HOUR : uref := 3%nat.

(** The four [Unit(...)] calls at the end of the module, in order. *)
Definition load : result heap :=
  let! '(h, second) := Unit__init__ empty_heap "s" 1 None [] in
  let! '(h, watt) := Unit__init__ h "W" 1 None [] in
  let! '(h, joule) := Unit__init__ h "J" 1 None [(watt, second)] in
  let! '(h, _) := Unit__init__ h "kW h" (Qc_of_Z (3600 * 1000)) (Some joule) [] in
  Ok h.

(** The heap once the module is loaded. *)
Definition loaded : heap :=
  match load with
  | Ok h => h
  | Raise _ => empty_heap
  end.

(** [MINUTE = 60*SECOND] and the like are quantities, not units:
    [int * Unit] is [Unit.__rmul__], [int * Quantity] is
    [Quantity.__rmul__]. *)
Definition MINUTE : Quantity := Unit__rmul__ SECOND (Qc_of_Z 60).
Definition HOUR : Quantity :=
  Quantity__init__ (value MINUTE * Qc_of_Z 60) (unit MINUTE).
Definition KILOWATT : Quantity := Unit__rmul__ WATT (Qc_of_Z 1000).
Definition MEGAWATT : Quantity :=
  Quantity__init__ (value KILOWATT * Qc_of_Z 1000) (unit KILOWATT).

End units.

(** ** The [Meter] class of google_meter.py, with the events it posts *)

Module google_meter.

Import units.

(** An entity path, or an [Entity] object carrying one. *)
Inductive entity_or_path : Type :=
  | Path (path : string)
  | Entity (path : string).

Definition GetEntityPath (e : entity_or_path) : string :=
  match e with
  | Path p => p
  | Entity p => p
  end.

(** The measurement events.  The [id] attribute of an event is
    [rfc3339.ToTimestamp] of its first time with colons replaced, a
    function of a field kept here, and is left out. *)
Inductive Event : Type :=
  | InstMeasurement (subject_path : string) (occur_time : Qc)
      (quantity : pyval) (occur_time_uncertainty : Qc)
      (quantity_uncertainty : pyval) (initial : bool)
  | DurMeasurement (subject_path : string) (start_time end_time : Qc)
      (quantity : pyval) (start_time_uncertainty end_time_uncertainty : Qc)
      (quantity_uncertainty : pyval).

(** [rfc3339.ToTimestamp(t)] computes [int(t * 1000)], which raises
    [TypeError] when [t] is [None]; every number is taken to be in the
    platform's range for [time.gmtime]. *)
Definition timestamp_arg (t : option Qc) : result Qc :=
  match t with
  | Some t => Ok t
  | None => Raise TypeError
  end.

Local Open Scope result_scope.

(** [InstMeasurement.__init__]. *)
Definition InstMeasurement__init__ (subject : entity_or_path)
    (occur_time : option Qc) (quantity : pyval) (occur_time_uncertainty : Qc)
    (quantity_uncertainty : pyval) (initial : bool) : result Event :=
  let! t := timestamp_arg occur_time in
  Ok (InstMeasurement (GetEntityPath subject) t quantity
        occur_time_uncertainty quantity_uncertainty initial).

(** [DurMeasurement.__init__]. *)
Definition DurMeasurement__init__ (subject : entity_or_path)
    (start_time : option Qc) (end_time : Qc) (quantity : pyval)
    (start_time_uncertainty end_time_uncertainty : Qc)
    (quantity_uncertainty : pyval) : result Event :=
  let! t := timestamp_arg start_time in
  Ok (DurMeasurement (GetEntityPath subject) t end_time quantity
        start_time_uncertainty end_time_uncertainty quantity_uncertainty).

(** What a meter needs of its [service]: a [PostEvent] method, which may
    raise. *)
Class Poster (S : Type) : Type :=
  PostEvent : S -> Event -> result S.

(** [BatchAdapter]: [PostEvent] queues the event. *)
Record BatchAdapter : Type := mkBatchAdapter {
  events : list Event
}.

#[global] Instance BatchAdapter_Poster : Poster BatchAdapter :=
  fun b e => Ok (mkBatchAdapter (events b ++ [e])).

(** [Service]: [PostEvent] serializes the event and sends it over HTTP;
    either step may raise, the request with [IOError] unless the reply has
    a 2xx status.  Serialization and transport are represented by what
    becomes of the call for each event, and the events delivered. *)
Record Service : Type := mkService {
  failure : Event -> option exn;
  received : list Event
}.

#[global] Instance Service_Poster : Poster Service :=
  fun s e =>
    match failure s e with
    | None => Ok (mkService (failure s) (received s ++ [e]))
    | Some x => Raise x
    end.

Record Meter (S : Type) : Type := mkMeter {
  service : S;
  variable : entity_or_path;
  uncertainty : Quantity;
  time_uncertainty : Qc;
  durational : bool;
  register : Quantity;
  last_read_time : option Qc
}.

Arguments mkMeter {S}.
Arguments service {S}.
Arguments variable {S}.
Arguments uncertainty {S}.
Arguments time_uncertainty {S}.
Arguments durational {S}.
Arguments register {S}.
Arguments last_read_time {S}.

Definition with_service {S} (m : Meter S) (s : S) : Meter S :=
  mkMeter s (variable m) (uncertainty m) (time_uncertainty m)
    (durational m) (register m) (last_read_time m).

Definition with_register {S} (m : Meter S) (r : Quantity) : Meter S :=
  mkMeter (service m) (variable m) (uncertainty m) (time_uncertainty m)
    (durational m) r (last_read_time m).

Definition with_last_read_time {S} (m : Meter S) (t : option Qc) : Meter S :=
  mkMeter (service m) (variable m) (uncertainty m) (time_uncertainty m)
    (durational m) (register m) t.

(** *** Methods

    A method runs on the meter object and leaves it in some state whether
    it returns or raises; [posted] lists the events its [PostEvent] calls
    delivered, in order. *)
Record outcome (S A : Type) : Type := mkOutcome {
  returned : result A;
  self_after : Meter S;
  posted : list Event
}.

Arguments mkOutcome {S A}.
Arguments returned {S A}.
Arguments self_after {S A}.
Arguments posted {S A}.

Definition method (S A : Type) : Type := Meter S -> outcome S A.

Definition ret {S A} (a : A) : method S A :=
  fun self => mkOutcome (Ok a) self [].

Definition bind {S A B} (c : method S A) (k : A -> method S B) : method S B :=
  fun self =>
    match c self with
    | mkOutcome (Ok a) self p =>
        match k a self with
        | mkOutcome r self p' => mkOutcome r self (p ++ p')
        end
    | mkOutcome (Raise e) self p => mkOutcome (Raise e) self p
    end.

(** A computation of the units module, run inside a method. *)
Definition lift {S A} (r : result A) : method S A :=
  fun self => mkOutcome r self [].

(** Reading and assigning the attributes of [self]. *)
Definition getattr {S A} (f : Meter S -> A) : method S A :=
  fun self => mkOutcome (Ok (f self)) self [].

Definition setattr {S} (f : Meter S -> Meter S) : method S () :=
  fun self => mkOutcome (Ok ()) (f self) [].

Declare Scope method_scope.
Delimit Scope method_scope with method.
Notation "'do!' x ':=' c 'in' k" := (bind c (fun x => k))
  (at level 10, x name, c at level 100, k at level 200) : method_scope.
Notation "'do!' ' p ':=' c 'in' k" :=
  (bind c (fun x => match x with p => k end))
  (at level 10, p pattern, c at level 100, k at level 200) : method_scope.
Notation "c ';;;' k" := (bind c (fun _ => k))
  (at level 100, k at level 200, right associativity) : method_scope.

Local Open Scope method_scope.

(** Truth value of a time argument: [None] and zero are false. *)
Definition truthy (t : option Qc) : bool :=
  match t with
  | None => false
  | Some t => negb (bool_decide (t = 0))
  end.

Section Meter.

Context {S : Type} `{Poster S}.

(** The heap of units the program runs with, and the reading of the clock
    ([time.time()]) during the call. *)
Variable h : heap.
Variable now : Qc.

(** [Meter.__init__]. *)
Definition Meter__init__ (service : S) (variable : entity_or_path)
    (uncertainty : Quantity) (time_uncertainty : Qc) (durational : bool)
    (last_read_time : option Qc) : Meter S :=
  mkMeter service variable uncertainty time_uncertainty durational
    (Unit__rmul__ KILOWATT_HOUR 0) last_read_time.

(** [Meter.Reset]. *)
Definition Reset : method S () :=
  setattr (fun self => with_last_read_time self None).

(** [self.service.PostEvent(event)]. *)
Definition service_PostEvent (event : Event) : method S () :=
  fun self =>
    match PostEvent (service self) event with
    | Ok s => mkOutcome (Ok ()) (with_service self s) [event]
    | Raise e => mkOutcome (Raise e) self []
    end.

(** [Meter.PostDur]. *)
Definition PostDur (start_time : option Qc) (end_time : Qc)
    (quantity uncertainty : pyval) : method S () :=
  do! variable := getattr variable in
  do! tu := getattr time_uncertainty in
  do! event := lift (DurMeasurement__init__ variable start_time end_time
                       quantity tu tu uncertainty) in
  service_PostEvent event.

(** [Meter.PostInst]. *)
Definition PostInst (occur_time : option Qc) (quantity uncertainty : pyval)
    (initial : bool) : method S () :=
  do! variable := getattr variable in
  do! tu := getattr time_uncertainty in
  do! event := lift (InstMeasurement__init__ variable occur_time quantity
                       tu uncertainty initial) in
  service_PostEvent event.

(** [Meter.PostRegisterReading]. *)
Definition PostRegisterReading (quantity : Quantity)
    (uncertainty_ : option Quantity) (read_time : option Qc) : method S () :=
  (* Fill in default values for arguments. *)
  let read_time := default now read_time in
  do! default_uncertainty := getattr uncertainty in
  let uncertainty_ := default default_uncertainty uncertainty_ in
  (* Compute the new register value. *)
  do! new_register := lift (ConvertTo h quantity KILOWATT_HOUR) in
  (* Generate durational or instantaneous events. *)
  do! durational := getattr durational in
  do! last := getattr last_read_time in
  (if durational then
     match last with
     | Some _ =>
         do! old := getattr register in
         do! delta := lift (Quantity__sub__ h new_register (PQuantity old)) in
         do! doubled := lift (Quantity__mul__ h uncertainty_ (PNum 2)) in
         PostDur last read_time (PQuantity delta) doubled
     | None => ret ()
     end
   else
     let initial := bool_decide (last = None) in
     PostInst (Some read_time) (PQuantity new_register)
       (PQuantity uncertainty_) initial) ;;;
  (* Advance the register. *)
  setattr (fun self => with_register self new_register) ;;;
  setattr (fun self => with_last_read_time self (Some read_time)).

(** The block of [PostIntervalReading] under "Compute the new register
    value": the quantity as it leaves the block, and the new register.
    [start_time] is a number wherever it is subtracted, being true. *)
Definition new_register_value (quantity : Quantity)
    (start_time : option Qc) (end_time : Qc) (register : Quantity)
    : result (pyval * Quantity) :=
  (if negb (truthy start_time) then
     (* When the first interval has no start time, we can't record a
        reading. *)
     Ok (PQuantity quantity, register)
   else
     let! power := IsConvertibleTo h quantity WATT in
     let! quantity :=
       (if power then
          (* Convert power to energy. *)
          Quantity__mul__ h quantity
            (PQuantity (Unit__rmul__ SECOND (end_time - default 0 start_time)))
        else Ok (PQuantity quantity)) in
     let! new_register := Quantity__add__ h register quantity in
     Ok (quantity, new_register))%result.

(** [Meter.PostIntervalReading]. *)
Definition PostIntervalReading (quantity : Quantity)
    (uncertainty_ : option Quantity) (start_time end_time : option Qc)
    : method S () :=
  (* Fill in default values for arguments. *)
  do! last := getattr last_read_time in
  let start_time :=
    match start_time with
    | None => last
    | Some _ => start_time
    end in
  let end_time := default now end_time in
  do! default_uncertainty := getattr uncertainty in
  let uncertainty_ := default default_uncertainty uncertainty_ in
  (* Compute the new register value. *)
  do! register_ := getattr register in
  do! '(quantity, new_register) :=
    lift (new_register_value quantity start_time end_time register_) in
  (* Generate durational or instantaneous events. *)
  do! durational := getattr durational in
  (if durational then
     PostDur start_time end_time quantity (PQuantity uncertainty_)
   else
     do! last := getattr last_read_time in
     match last with
     | None =>
         match start_time with
         | None =>
             do! old := getattr register in
             PostInst (Some end_time) (PQuantity old)
               (PQuantity uncertainty_) true
         | Some _ =>
             do! old := getattr register in
             PostInst start_time (PQuantity old)
               (PQuantity uncertainty_) true ;;;
             PostInst (Some end_time) (PQuantity new_register)
               (PQuantity uncertainty_) false
         end
     | Some _ =>
         (if negb (bool_decide (start_time = last)) then
            do! old := getattr register in
            PostInst start_time (PQuantity old) (PQuantity uncertainty_) true
          else ret ()) ;;;
         PostInst (Some end_time) (PQuantity new_register)
           (PQuantity uncertainty_) false
     end) ;;;
  (* Advance the register. *)
  setattr (fun self => with_register self new_register) ;;;
  setattr (fun self => with_last_read_time self (Some end_time)).

End Meter.

End google_meter.

(** ** rfc3339.py *)

Module rfc3339.

Local Open Scope result_scope.
Local Open Scope char_scope.

(** A Python [str], as the list of its characters. *)
Definition str := list ascii.

Definition is_digit (c : ascii) : bool :=
  (48 <=? nat_of_ascii c)%nat && (nat_of_ascii c <=? 57)%nat.

(** The characters [str.split()] splits on. *)
Definition is_space (c : ascii) : bool :=
  let n := nat_of_ascii c in
  (n =? 32)%nat || ((9 <=? n)%nat && (n <=? 13)%nat).

(** [s.split()]: the maximal runs of characters that are not whitespace;
    [cur] is the run being read, last character first. *)
Fixpoint split_whitespace (cur : str) (s : str) : list str :=
  match s with
  | [] => match cur with [] => [] | _ => [rev cur] end
  | c :: s =>
      if is_space c then
        match cur with
        | [] => split_whitespace [] s
        | _ => rev cur :: split_whitespace [] s
        end
      else split_whitespace (c :: cur) s
  end.

(** [s.split(sep)] for a separator of one character. *)
Fixpoint split_on (sep : ascii) (s : str) : list str :=
  match s with
  | [] => [[]]
  | c :: s =>
      if Ascii.eqb c sep then [] :: split_on sep s
      else
        match split_on sep s with
        | p :: ps => (c :: p) :: ps
        | [] => [[c]]
        end
  end.

(** [l[i]]. *)
Definition item {A} (l : list A) (i : nat) : result A :=
  match l !! i with
  | Some x => Ok x
  | None => Raise IndexError
  end.

(** [int(s)] on a string: the decimal digits are read from the left;
    anything else, and the empty string, raise. *)
Definition digit_value (c : ascii) : Z := Z.of_nat (nat_of_ascii c) - 48.

Definition decimal (s : str) : Z :=
  foldl (fun acc c => acc * 10 + digit_value c)%Z 0%Z s.

Definition int (s : str) : result Z :=
  match s with
  | [] => Raise ValueError
  | _ => if forallb is_digit s then Ok (decimal s) else Raise ValueError
  end.

(** *** The regular expression

    The pattern is the date and time to the minute,
    [(\d\d\d\d)-(\d\d)-(\d\d)T(\d\d):(\d\d)], then an optional group for the
    seconds, a colon and [\d\d\.?] followed by any number of digits, then
    the zone, [Z] or a sign and [\d+:?(\d\d)?].  It is matched at the start
    of the string.  Every repetition is greedy and
    what follows a repetition never starts with a character the repetition
    could have taken, so the first attempt of the matcher is the only one
    that can succeed: the functions below read the string from left to
    right and return the text matched with the rest of the string. *)

(** [\d] repeated [n] times. *)
Fixpoint digits (n : nat) (s : str) : option (str * str) :=
  match n with
  | O => Some ([], s)
  | S n =>
      match s with
      | c :: s =>
          if is_digit c then
            match digits n s with
            | Some (d, r) => Some (c :: d, r)
            | None => None
            end
          else None
      | [] => None
      end
  end.

(** [\d*]. *)
Fixpoint many_digits (s : str) : str * str :=
  match s with
  | c :: s' =>
      if is_digit c then let '(d, r) := many_digits s' in (c :: d, r)
      else ([], s)
  | [] => ([], [])
  end.

(** A literal character. *)
Definition lit (c : ascii) (s : str) : option str :=
  match s with
  | c' :: s => if Ascii.eqb c' c then Some s else None
  | [] => None
  end.

(** A literal character followed by [?]. *)
Definition optional (c : ascii) (s : str) : str * str :=
  match lit c s with
  | Some r => ([c], r)
  | None => ([], s)
  end.

(** The groups of a match, in the order of [match.groups()]. *)
Record groups : Type := mkGroups {
  year : str;
  month : str;
  day : str;
  hour : str;
  minute : str;
  second : option str;
  zone : str;
  zone_minutes : option str
}.

(** The optional group for the seconds: the group [second] and the
    rest. *)
Definition match_second (s : str) : option str * str :=
  match
    (s1 ← lit ":" s ;
     '(dd, s2) ← digits 2 s1 ;
     let '(point, s3) := optional "." s2 in
     let '(ds, s4) := many_digits s3 in
     Some (dd ++ point ++ ds, s4))
  with
  | Some (sec, r) => (Some sec, r)
  | None => (None, s)
  end.

(** [(Z|[-+]\d+:?(\d\d)?)]: the groups [zone] and [zone_minutes]. *)
Definition match_zone (s : str) : option (str * option str) :=
  match s with
  | c :: s1 =>
      if Ascii.eqb c "Z" then Some (["Z"], None)
      else if Ascii.eqb c "-" || Ascii.eqb c "+" then
        let '(ds, s2) := many_digits s1 in
        match ds with
        | [] => None
        | _ =>
            let '(colon, s3) := optional ":" s2 in
            match digits 2 s3 with
            | Some (mm, _) => Some (c :: ds ++ colon ++ mm, Some mm)
            | None => Some (c :: ds ++ colon, None)
            end
        end
      else None
  | [] => None
  end.

(** [re.match(pattern, s)]. *)
Definition re_match (s : str) : option groups :=
  '(year, s) ← digits 4 s ;
  s ← lit "-" s ;
  '(month, s) ← digits 2 s ;
  s ← lit "-" s ;
  '(day, s) ← digits 2 s ;
  s ← lit "T" s ;
  '(hour, s) ← digits 2 s ;
  s ← lit ":" s ;
  '(minute, s) ← digits 2 s ;
  let '(second, s) := match_second s in
  '(zone, zone_minutes) ← match_zone s ;
  Some (mkGroups year month day hour minute second zone zone_minutes).

(** [x or y] on an optional string: [None] and the empty string are
    false. *)
Definition str_or (x : option str) (y : str) : str :=
  match x with
  | Some (c :: s) => c :: s
  | _ => y
  end.

Definition truthy_str (x : option str) : bool :=
  match x with
  | Some (_ :: _) => true
  | _ => false
  end.

(** [int(zone_minutes or 0)]. *)
Definition int_or_0 (x : option str) : result Z :=
  match x with
  | Some (c :: s) => int (c :: s)
  | _ => Ok 0%Z
  end.

(** [x in s]. *)
Definition contains_char (x : ascii) (s : str) : bool :=
  existsb (Ascii.eqb x) s.

(** [map(int, l)]. *)
Fixpoint map_int (l : list str) : result (list Z) :=
  match l with
  | [] => Ok []
  | s :: l =>
      let! n := int s in
      let! ns := map_int l in
      Ok (n :: ns)
  end.

(** [''.join(timestamp.split())]. *)
Definition remove_whitespace (timestamp : string) : str :=
  concat (split_whitespace [] (list_ascii_of_string timestamp)).

(** The two statements that set [milliseconds]. *)
Definition milliseconds_of (second : option str) : result Z :=
  if truthy_str second && contains_char "." (default [] second) then
    let! fraction := item (split_on "." (default [] second)) 1 in
    int (take 3 (fraction ++ ["0"; "0"; "0"]))
  else Ok 0%Z.

(** The statements under "Parse the time zone offset". *)
Definition zone_offset_of (zone : str) (zone_minutes : option str)
    : result Z :=
  let! zone0 := item zone 0 in
  if Ascii.eqb zone0 "Z" then Ok 0%Z
  else
    let! zone_hours := item (split_on ":" (drop 1 zone)) 0 in
    let! hours := int zone_hours in
    let! minutes := int_or_0 zone_minutes in
    let zone_offset := (hours * 3600 + minutes * 60)%Z in
    Ok (if Ascii.eqb zone0 "-" then (- zone_offset)%Z else zone_offset).

(** The float [0.001], exactly. *)
Definition milli : Qc := Q2Qc (1 # 1000).

(** The product of an integer and a float starts by converting the integer
    to a float.  From [2^1024 - 2^970] on, in absolute value, an integer
    rounds to no float and the conversion raises [OverflowError]; below,
    it gives the nearest float, taken here to be the integer itself. *)
Definition FLOAT_LIMIT : Z := 2 ^ 1024 - 2 ^ 970.

Definition float_of_long (n : Z) : result Qc :=
  if (Z.abs n <? FLOAT_LIMIT)%Z then Ok (Qc_of_Z n)
  else Raise OverflowError.

Section FromTimestamp.

(** [calendar.timegm], of the standard library, on the first six fields of
    a time tuple. *)
Variable timegm : list Z -> result Z.

(** [FromTimestamp]. *)
Definition FromTimestamp (timestamp : string) : result Qc :=
  (* Remove any whitespace in the timestamp. *)
  let timestamp := remove_whitespace timestamp in
  match re_match timestamp with
  | None => Raise ValueError
  | Some (mkGroups year month day hour minute second zone zone_minutes) =>
      (* Parse the fractional seconds separately. *)
      let! int_second := item (split_on "." (str_or second ["0"])) 0 in
      let! milliseconds := milliseconds_of second in
      let! time_tuple := map_int [year; month; day; hour; minute; int_second] in
      (* Parse the time zone offset. *)
      let! zone_offset := zone_offset_of zone zone_minutes in
      let! seconds := timegm time_tuple in
      let integer_time := (seconds - zone_offset)%Z in
      let! number := float_of_long (integer_time * 1000 + milliseconds) in
      Ok (number * milli)
  end.

End FromTimestamp.

(** *** calendar.timegm

    The function of the standard library (CPython 2.6 and 2.7), with
    [datetime.date(year, month, 1).toordinal()] written out; the date
    constructor raises [ValueError] outside years 1 to 9999 and months 1 to
    12. *)

Definition is_leap (y : Z) : bool :=
  ((y mod 4 =? 0) && (negb (y mod 100 =? 0) || (y mod 400 =? 0)))%Z.

Definition days_before_year (y : Z) : Z :=
  let y := (y - 1)%Z in
  (y * 365 + y / 4 - y / 100 + y / 400)%Z.

Definition days_before_month (y m : Z) : Z :=
  (nth (Z.to_nat (m - 1))
     [0; 31; 59; 90; 120; 151; 181; 212; 243; 273; 304; 334] 0
   + (if (2 <? m) && is_leap y then 1 else 0))%Z.

Definition toordinal (y m d : Z) : Z :=
  (days_before_year y + days_before_month y m + d)%Z.

Definition EPOCH_ORD : Z := toordinal 1970 1 1.

Definition timegm (t : list Z) : result Z :=
  match t with
  | year :: month :: day :: hour :: minute :: second :: _ =>
      if ((1 <=? year) && (year <=? 9999) && (1 <=? month) && (month <=? 12))%Z
      then
        let days := (toordinal year month 1 - EPOCH_ORD + day - 1)%Z in
        let hours := (days * 24 + hour)%Z in
        let minutes := (hours * 60 + minute)%Z in
        Ok (minutes * 60 + second)%Z
      else Raise ValueError
  | _ => Raise ValueError
  end.

(** *** Formatting

    [int(x)] on a number is its integer part, towards zero. *)
Definition int_of_number (x : Qc) : Z := Z.quot (Qnum x) (Z.pos (Qden x)).

Definition digit_char (d : Z) : ascii := ascii_of_nat (Z.to_nat (48 + d)).

(** The decimal digits of a natural number, the most significant first;
    [fuel] bounds their number. *)
Fixpoint decimal_digits (fuel : nat) (n : Z) : str :=
  match fuel with
  | O => []
  | S fuel =>
      (if (n <? 10)%Z then [] else decimal_digits fuel (n / 10))
      ++ [digit_char (n mod 10)]
  end.

(** [str(n)] for [n] not negative: it has no more decimal digits than
    binary ones. *)
Definition str_of_nat (n : Z) : str :=
  decimal_digits (S (Z.to_nat (Z.log2 n))) n.

(** ['%0<width>d' % n]: the sign, if any, then zeros up to the width, then
    the digits. *)
Definition format_d (width : nat) (n : Z) : str :=
  let body := str_of_nat (Z.abs n) in
  if (n <? 0)%Z then "-" :: repeat "0" (width - 1 - length body) ++ body
  else repeat "0" (width - length body) ++ body.

(** [s.replace(old, new)] for [old] of one character. *)
Definition replace_char (old : ascii) (new : str) (s : str) : str :=
  flat_map (fun c => if Ascii.eqb c old then new else [c]) s.

(** [abs(x)] on a number. *)
Definition abs (x : Qc) : Qc := if bool_decide (x < 0) then - x else x.

(** [x % y] on numbers not negative, [y] not zero: what is left of [x]
    after the multiples of [y] it holds. *)
Definition pymod (x y : Qc) : Qc := x - y * Qc_of_Z (Qfloor (x / y)).

Section ToTimestamp.

(** [time.gmtime], of the standard library: the fields of the time
    tuple. *)
Variable gmtime : Qc -> result (list Z).

(** [ToTimestamp]. *)
Definition ToTimestamp (unix_time : Qc) : result string :=
  let! tm := gmtime unix_time in
  match take 6 tm with
  | [year; month; day; hour; minute; second] =>
      let milliseconds :=
        (int_of_number (unix_time * Qc_of_Z 1000)
         - int_of_number unix_time * 1000)%Z in
      Ok (string_of_list_ascii
            (format_d 4 year ++ "-" :: format_d 2 month ++ "-"
             :: format_d 2 day ++ "T" :: format_d 2 hour ++ ":"
             :: format_d 2 minute ++ ":" :: format_d 2 second ++ "."
             :: format_d 3 milliseconds ++ ["Z"]))
  | _ => Raise ValueError
  end.

(** [ToTimestampWithZone].  A ['%02d'] takes the integer part of a
    float. *)
Definition ToTimestampWithZone (unix_time offset_hours : Qc)
    : result string :=
  let offset_time := unix_time + offset_hours * Qc_of_Z 3600 in
  let zone_sign := if bool_decide (offset_hours < 0) then "-" else "+" in
  let zone_minutes := abs offset_hours * Qc_of_Z 60 in
  let! timestamp := ToTimestamp offset_time in
  Ok (string_of_list_ascii
        (replace_char "Z"
           (zone_sign
            :: format_d 2 (int_of_number (zone_minutes / Qc_of_Z 60))
            ++ ":"
            :: format_d 2 (int_of_number (pymod zone_minutes (Qc_of_Z 60))))
           (list_ascii_of_string timestamp))).

End ToTimestamp.

End rfc3339.


(** ** Equality tests, used to evaluate the definitions on examples *)

Import units google_meter rfc3339.

#[global] Instance Unit_eq_dec : EqDecision Unit.
Proof. solve_decision. Defined.
#[global] Instance Quantity_eq_dec : EqDecision Quantity.
Proof. solve_decision. Defined.
#[global] Instance pyval_eq_dec : EqDecision pyval.
Proof. solve_decision. Defined.
#[global] Instance entity_or_path_eq_dec : EqDecision entity_or_path.
Proof. solve_decision. Defined.
#[global] Instance Event_eq_dec : EqDecision Event.
Proof. solve_decision. Defined.
#[global] Instance BatchAdapter_eq_dec : EqDecision BatchAdapter.
Proof. solve_decision. Defined.
#[global] Instance Meter_eq_dec {T} `{EqDecision T} : EqDecision (Meter T).
Proof. solve_decision. Defined.
#[global] Instance outcome_eq_dec {T A} `{EqDecision T, EqDecision A} :
  EqDecision (outcome T A).
Proof. solve_decision. Defined.

#[global] Instance groups_eq_dec : EqDecision groups.
Proof. solve_decision. Defined.

(** Decides a closed proposition by evaluating its decision procedure. *)
Ltac by_compute :=
  lazymatch goal with
  | |- ?P => refine (@bool_decide_unpack P _ _); vm_compute; exact I
  end.


(** ** Examples *)

(** The module's heap with one more unit: a kilowatt, or a unit of factor
    zero in the energy family. *)
Definition with_kilowatt : result (heap * uref) :=
  Unit__init__ loaded "kW" (Qc_of_Z 1000) (Some WATT) [].

Definition with_null : result (heap * uref) :=
  Unit__init__ loaded "null" 0 (Some JOULE) [].

Definition heap_with_kilowatt : heap :=
  match with_kilowatt with
  | Ok (h, _) => h
  | Raise _ => loaded
  end.

Definition heap_with_null : heap :=
  match with_null with
  | Ok (h, _) => h
  | Raise _ => loaded
  end.

(** The reference either call returns. *)
Definition KW : uref := 4%nat.
Definition NULL : uref := 4%nat.

(** The unit object a reference of the heap stands for. *)
Definition unit_at (h : heap) (u : uref) : Unit :=
  default (mkUnit "" 0 u ∅ ∅) (objs h !! u).

Definition kWh (x : Z) : Quantity := Unit__rmul__ KILOWATT_HOUR (Qc_of_Z x).
Definition watts (x : Z) : Quantity := Unit__rmul__ WATT (Qc_of_Z x).
Definition joules (x : Z) : Quantity := Unit__rmul__ JOULE (Qc_of_Z x).
Definition seconds (x : Z) : Quantity := Unit__rmul__ SECOND (Qc_of_Z x).
Definition at_time (x : Z) : option Qc := Some (Qc_of_Z x).

(** A meter on a batch adapter, with five kilowatt-hours on its register
    and a default uncertainty of one. *)
Definition example_meter (durational : bool) (last_read_time : option Qc)
    : Meter BatchAdapter :=
  with_register
    (Meter__init__ (mkBatchAdapter []) (Path "/user/1/example.com/variable/v")
       (kWh 1) 1 durational last_read_time)
    (kWh 5).

(** The same meter on a service whose server refuses every event. *)
Definition refused_meter (durational : bool) (last_read_time : option Qc)
    : Meter Service :=
  with_register
    (Meter__init__ (mkService (fun _ => Some IOError) [])
       (Path "/user/1/example.com/variable/v")
       (kWh 1) 1 durational last_read_time)
    (kWh 5).

(** ** Predicates on methods *)

(** The register of a meter is kept in kilowatt-hours. *)
Definition register_in_kWh {S} (m : Meter S) : Prop :=
  unit (register m) = KILOWATT_HOUR.

Section Frames.

Context {S : Type} `{Poster S}.

(** A computation that never touches the register or the time of the last
    reading, whether it returns or raises. *)
Definition keeps {A} (c : method S A) : Prop :=
  forall m, register (self_after (c m)) = register m /\
            last_read_time (self_after (c m)) = last_read_time m.

(** A computation that leaves them as they were whenever it raises. *)
Definition all_or_nothing {A} (c : method S A) : Prop :=
  forall m e, returned (c m) = Raise e ->
    register (self_after (c m)) = register m /\
    last_read_time (self_after (c m)) = last_read_time m.

Definition never_raises {A} (c : method S A) : Prop :=
  forall m, exists a, returned (c m) = Ok a.

End Frames.

(** ** The formats of a timestamp *)

Section Formats.

Local Open Scope char_scope.

(** A string of [n] decimal digits; a string of decimal digits. *)
Definition digits_only (s : str) : Prop := forallb is_digit s = true.

Definition n_digits (n : nat) (s : str) : Prop :=
  length s = n /\ digits_only s.



(** What it takes for the zone: [Z], or a sign and one digit or more,
    then possibly a colon, then possibly two digits. *)
Definition zone_format (s : str) : Prop :=
  s = ["Z"] \/
  exists sign ds colon mm,
    s = sign :: ds ++ colon ++ mm /\ (sign = "-" \/ sign = "+") /\
    ds <> [] /\ digits_only ds /\ (colon = [] \/ colon = [":"]) /\
    (mm = [] \/ n_digits 2 mm).


(** The digits [\d*] takes stop where the text goes on with something
    else than a digit. *)
Definition no_digit_first (r : str) : Prop :=
  match r with
  | [] => True
  | c :: _ => is_digit c = false
  end.

(** What the groups of a match are made of. *)
Definition second_wf (second : option str) : Prop :=
  second = None \/
  exists dd point ds,
    second = Some (dd ++ point ++ ds) /\ n_digits 2 dd /\
    (point = [] \/ point = ["."]) /\ digits_only ds.

Definition zone_wf (zone : str) (zone_minutes : option str) : Prop :=
  (zone = ["Z"] /\ zone_minutes = None) \/
  exists sign ds colon mm,
    zone = sign :: ds ++ colon ++ mm /\ (sign = "-" \/ sign = "+") /\
    ds <> [] /\ digits_only ds /\ (colon = [] \/ colon = [":"]) /\
    ((mm = [] /\ zone_minutes = None) \/
     (n_digits 2 mm /\ zone_minutes = Some mm)).





(** The text the pattern has matched. *)
Definition matched_text (g : groups) : str :=
  year g ++ "-" :: month g ++ "-" :: day g ++ "T" :: hour g ++ ":"
  :: minute g
  ++ match second g with
     | Some sec => ":" :: sec
     | None => []
     end
  ++ zone g.

End Formats.

(** ** More examples and predicates *)

#[global] Instance heap_eq_dec : EqDecision heap.
Proof. solve_decision. Defined.

(** A second unit for the product of watt and second, created on the
    loaded module. *)
Definition with_watt_second : result (heap * uref) :=
  Unit__init__ loaded "W s" 1 None [(WATT, SECOND)].

Definition heap_with_watt_second : heap :=
  match with_watt_second with
  | Ok (h, _) => h
  | Raise _ => loaded
  end.

(** The reference the call returns. *)
Definition WATT_SECOND : uref := 4%nat.

(** In the objects [os], the product table of [l] sends [r] to [self]. *)
Definition product_is (self l r : nat) (os : list Unit) : Prop :=
  exists sl, os !! l = Some sl /\ products sl !! r = Some self.

(** A computation on a meter whose service is a [BatchAdapter] leaves on
    the queue what was there, then the events it posted. *)
Definition queues {A} (c : method BatchAdapter A) : Prop :=
  forall m, events (service (self_after (c m)))
            = events (service m) ++ posted (c m).

(** A string without whitespace. *)
Definition no_space (s : str) : Prop :=
  forallb (fun c => negb (is_space c)) s = true.

(** [time.gmtime] on the first second of 2009, a Thursday. *)
Definition gmtime_2009 (t : Qc) : result (list Z) :=
  if bool_decide (Qc_of_Z 1230768000 <= t)
     && bool_decide (t < Qc_of_Z 1230768001)
  then Ok [2009; 1; 1; 0; 0; 0; 3; 1; 0]%Z
  else Raise ValueError.

(** ** google_meter.py: text, paths and batches of events *)

Module feeds.

Local Open Scope char_scope.
Local Open Scope result_scope.

(** The double quote. *)
Definition quote : ascii := "034".

Definition DEFAULT_URI_PREFIX : str :=
  list_ascii_of_string "https://www.google.com/powermeter/feeds".

Definition MAX_BATCH_POST_COUNT : nat := 100.

Definition XMLNS_ATTRIBUTES : str :=
  list_ascii_of_string " xmlns=" ++ quote
  :: list_ascii_of_string "http://www.w3.org/2005/Atom" ++ quote
  :: list_ascii_of_string " xmlns:meter=" ++ quote
  :: list_ascii_of_string "http://schemas.google.com/meter/2008" ++ [quote].

(** [HtmlEscape]: three calls of [str.replace], one after the other. *)
Definition HtmlEscape (text : str) : str :=
  replace_char quote (list_ascii_of_string "&quot;")
    (replace_char "<" (list_ascii_of_string "&lt;")
       (replace_char "&" (list_ascii_of_string "&amp;") text)).

(** [IncludeIfTrue]. *)
Definition IncludeIfTrue (flag : bool) (string : str) : str :=
  if flag then string else [].

(** [s.startswith(prefix)], [s.lstrip(c)] for one character and
    [sep.join(l)]. *)
Definition startswith (prefix s : str) : bool :=
  bool_decide (take (length prefix) s = prefix).

Fixpoint lstrip (c : ascii) (s : str) : str :=
  match s with
  | c' :: s' => if Ascii.eqb c' c then lstrip c s' else s
  | [] => []
  end.

Fixpoint join (sep : str) (l : list str) : str :=
  match l with
  | [] => []
  | [x] => x
  | x :: l => x ++ sep ++ join sep l
  end.

(** [GetAtomId]. *)
Definition GetAtomId (entity_or_path : entity_or_path) : str :=
  DEFAULT_URI_PREFIX ++ list_ascii_of_string (GetEntityPath entity_or_path).

(** [GetPathComponents]. *)
Definition GetPathComponents (uri_or_path : str) : list str :=
  let path :=
    if startswith DEFAULT_URI_PREFIX uri_or_path
    then drop (length DEFAULT_URI_PREFIX) uri_or_path
    else uri_or_path in
  split_on "/" (lstrip "/" path).

(** The text [HtmlEscape] writes for one character, were the three
    replacements made at once. *)
Definition escape_char (c : ascii) : str :=
  if Ascii.eqb c "&" then list_ascii_of_string "&amp;"
  else if Ascii.eqb c "<" then list_ascii_of_string "&lt;"
  else if Ascii.eqb c quote then list_ascii_of_string "&quot;"
  else [c].

Section Service.

(** The state of a [Service] with the server behind it; [event.ToXml()],
    which raises when a quantity does not convert to kilowatt-hours; and
    [Service.PostXml], which raises [IOError] unless the reply has a 2xx
    status.  Logging is left out. *)
Variable S : Type.
Variable ToXml : Event -> result str.
Variable PostXml : S -> str -> str -> result S.

(** [''.join(event.ToXml() for event in sublist)]. *)
Fixpoint entries_of (sublist : list Event) : result str :=
  match sublist with
  | [] => Ok []
  | event :: sublist =>
      let! entry := ToXml event in
      let! entries := entries_of sublist in
      Ok (entry ++ entries)
  end.

(** The body of the loop of [BatchPostEvents]: one batch. *)
Definition post_batch (self : S) (sublist : list Event) : result S :=
  let! entries := entries_of sublist in
  let feed :=
    list_ascii_of_string "<feed" ++ XMLNS_ATTRIBUTES ++ ">" :: entries
    ++ list_ascii_of_string "</feed>" in
  PostXml self (list_ascii_of_string "/event") feed.

(** The loop [while event_list:]; each round takes an event off the list
    at least, so that [fuel], at least the length of the list, is never
    used up. *)
Fixpoint BatchPostEvents_while (fuel : nat) (self : S)
    (event_list : list Event) : result S :=
  match event_list, fuel with
  | [], _ => Ok self
  | _, O => Ok self
  | _, Datatypes.S fuel =>
      let sublist := take MAX_BATCH_POST_COUNT event_list in
      let event_list := drop MAX_BATCH_POST_COUNT event_list in
      let! self := post_batch self sublist in
      BatchPostEvents_while fuel self event_list
  end.

(** [Service.BatchPostEvents]. *)
Definition BatchPostEvents (self : S) (events : list Event) : result S :=
  let event_list := events in
  BatchPostEvents_while (length event_list) self event_list.

(** [BatchAdapter.Flush], on the adapter and the service it stands for. *)
Definition Flush (service : S) (self : BatchAdapter)
    : result (S * BatchAdapter) :=
  let! service := BatchPostEvents service (events self) in
  Ok (service, mkBatchAdapter []).

End Service.

End feeds.

(** ** sqlite2googlepowermeter.py *)

Module sqlite2googlepowermeter.

Local Open Scope result_scope.

(** A row of the table [consumption]: its columns [date] and [kwatt],
    both numbers. *)
Record row : Type := mkRow {
  date : Qc;
  kwatt : Qc
}.

(** The loop over the rows of the main program, which fills
    [measures]. *)
Fixpoint measures_loop (variable : string) (time_uncertainty uncertainty : Qc)
    (start : option Qc) (rows : list row) (measures : list Event)
    : result (list Event) :=
  match rows with
  | [] => Ok measures
  | row :: rows =>
      match start with
      | None =>
          (* skip first record *)
          measures_loop variable time_uncertainty uncertainty
            (Some (date row)) rows measures
      | Some _ =>
          let! measure :=
            DurMeasurement__init__ (Path variable) start (date row)
              (PQuantity (Unit__rmul__ KILOWATT_HOUR (kwatt row)))
              time_uncertainty time_uncertainty
              (PQuantity (Unit__rmul__ KILOWATT_HOUR uncertainty)) in
          measures_loop variable time_uncertainty uncertainty
            (Some (date row)) rows (measures ++ [measure])
      end
  end.

(** The events the main program uploads, for the rows in the order of
    the query. *)
Definition measures (variable : string) (time_uncertainty uncertainty : Qc)
    (rows : list row) : result (list Event) :=
  measures_loop variable time_uncertainty uncertainty None rows [].

(** The event for two successive rows. *)
Definition measure_between (variable : string)
    (time_uncertainty uncertainty : Qc) (r0 r1 : row) : Event :=
  DurMeasurement variable (date r0) (date r1)
    (PQuantity (mkQuantity (kwatt r1) KILOWATT_HOUR))
    time_uncertainty time_uncertainty
    (PQuantity (mkQuantity uncertainty KILOWATT_HOUR)).

End sqlite2googlepowermeter.

Import feeds sqlite2googlepowermeter.

(** A service that keeps the feeds it is sent, and events that all
    serialize to nothing. *)
Definition recorded_ToXml (event : Event) : result str := Ok [].

Definition recorded_PostXml (self : list str) (path element : str)
    : result (list str) :=
  Ok (self ++ [element]).

(** * Properties *)
(** ** Conversion and addition of quantities *)

Section Conversion.

Local Open Scope result_scope.

Variable h : heap.

Lemma pydiv_ok x y : y <> 0 -> pydiv x y = Ok (x / y).
Proof. intros Hy. unfold pydiv. by rewrite decide_False. Qed.

Lemma pydiv_zero x : pydiv x 0 = Raise ZeroDivisionError.
Proof. unfold pydiv. by rewrite decide_True. Qed.

Lemma deref_Some u o : objs h !! u = Some o -> deref h u = Ok o.
Proof. intros Hu. unfold deref. by rewrite Hu. Qed.

(** What [ConvertTo] does on units of the heap, case by case. *)
Lemma ConvertTo_unfold q u s t :
  objs h !! unit q = Some s -> objs h !! u = Some t ->
  ConvertTo h q u =
    if decide (base t = base s) then
      if decide (factor t = 0) then Raise ZeroDivisionError
      else Ok (mkQuantity (value q * factor s / factor t) u)
    else Raise AssertionError.
Proof.
  intros Hs Ht. unfold ConvertTo, Unit_IsConvertibleTo.
  rewrite !(deref_Some _ _ Hs), !(deref_Some _ _ Ht). simpl.
  destruct (decide (base t = base s)) as [Hb|Hb].
  - rewrite bool_decide_eq_true_2 by done. simpl.
    unfold pydiv. by destruct (decide (factor t = 0)).
  - by rewrite bool_decide_eq_false_2.
Qed.

(** A successful conversion, read backwards. *)
Lemma ConvertTo_Ok_inv q u r :
  ConvertTo h q u = Ok r ->
  exists s t, objs h !! unit q = Some s /\ objs h !! u = Some t /\
    base t = base s /\ factor t <> 0 /\
    r = mkQuantity (value q * factor s / factor t) u.
Proof.
  unfold ConvertTo, Unit_IsConvertibleTo, deref.
  destruct (objs h !! unit q) as [s|] eqn:Hs; [|done].
  destruct (objs h !! u) as [t|] eqn:Ht; [|done]. simpl.
  case_bool_decide as Hb; [|done]. simpl.
  unfold pydiv. destruct (decide (factor t = 0)); [done|]. simpl.
  intros [= <-]. by exists s, t.
Qed.

(** Converting to the unit a quantity already has changes nothing. *)
Lemma ConvertTo_same q s :
  objs h !! unit q = Some s -> factor s <> 0 ->
  ConvertTo h q (unit q) = Ok q.
Proof.
  intros Hs Hf. rewrite (ConvertTo_unfold q (unit q) s s Hs Hs).
  rewrite decide_True by done. rewrite decide_False by done.
  rewrite Qcdiv_mult_l by done. by destruct q.
Qed.

End Conversion.

Section Quantities.

Variable h : heap.

(** C6, as amended.  For a quantity [q] and a unit [u] of the heap,
    [ConvertTo] raises the unit-mismatch error ([AssertionError]) exactly
    when the base of [u] is not the base of [q]'s unit; when the bases agree
    and the factor of [u] is not zero it returns the quantity of unit [u] and
    value [q.value * q.unit.factor / u.factor]; when the bases agree and the
    factor of [u] is zero it raises [ZeroDivisionError]. *)
Theorem ConvertTo_correct (q : Quantity) (u : uref) (s t : Unit) :
  objs h !! unit q = Some s -> objs h !! u = Some t ->
  (ConvertTo h q u = Raise AssertionError <-> base t <> base s) /\
  (base t = base s -> factor t <> 0 ->
   ConvertTo h q u = Ok (mkQuantity (value q * factor s / factor t) u)) /\
  (base t = base s -> factor t = 0 ->
   ConvertTo h q u = Raise ZeroDivisionError).
Proof.
  intros Hs Ht. rewrite (ConvertTo_unfold h q u s t Hs Ht).
  destruct (decide (base t = base s)) as [Hb|Hb];
    destruct (decide (factor t = 0)) as [Hf|Hf]; naive_solver.
Qed.

(** The value of a sum, whichever operand comes first, in a third unit. *)
Lemma sum_in_common_unit (x y fs ft fw : Qc) :
  fs <> 0 -> ft <> 0 -> fw <> 0 ->
  (x + y * ft / fs) * fs / fw = (y + x * fs / ft) * ft / fw.
Proof. intros. field. auto. Qed.

(** C7, as amended.  For quantities [a] and [b] whose units are in the
    heap, [a + b] raises the unit-mismatch error exactly when the bases of
    their units differ.  When the bases agree and neither unit has factor
    zero, [a + b] succeeds and carries [a]'s unit, [b + a] succeeds and
    carries [b]'s unit, and the two sums are the same quantity once converted
    to any unit [c] of that base with a factor that is not zero. *)
Theorem add_commutes_up_to_unit (a b : Quantity) (s t : Unit) :
  objs h !! unit a = Some s -> objs h !! unit b = Some t ->
  (Quantity__add__ h a (PQuantity b) = Raise AssertionError
   <-> base s <> base t) /\
  (base s = base t -> factor s <> 0 -> factor t <> 0 ->
   exists r1 r2,
     Quantity__add__ h a (PQuantity b) = Ok r1 /\ unit r1 = unit a /\
     Quantity__add__ h b (PQuantity a) = Ok r2 /\ unit r2 = unit b /\
     forall c w, objs h !! c = Some w -> base w = base s -> factor w <> 0 ->
       exists r, ConvertTo h r1 c = Ok r /\ ConvertTo h r2 c = Ok r).
Proof.
  intros Hs Ht. unfold Quantity__add__, getattr_ConvertTo.
  rewrite (ConvertTo_unfold h b (unit a) t s Ht Hs).
  rewrite (ConvertTo_unfold h a (unit b) s t Hs Ht).
  split.
  - destruct (decide (base s = base t)) as [Hb|Hb];
      [destruct (decide (factor s = 0))|]; naive_solver.
  - intros Hb Hfs Hft.
    destruct (decide (base s = base t)); [|done].
    destruct (decide (base t = base s)); [|congruence].
    destruct (decide (factor s = 0)); [done|].
    destruct (decide (factor t = 0)); [done|].
    simpl. eexists _, _. split; [reflexivity|]. split; [reflexivity|].
    split; [reflexivity|]. split; [reflexivity|].
    intros c w Hw Hbw Hfw.
    rewrite (ConvertTo_unfold h (Quantity__init__ _ (unit a)) c s w Hs Hw).
    rewrite (ConvertTo_unfold h (Quantity__init__ _ (unit b)) c t w Ht Hw).
    destruct (decide (base w = base s)); [|done].
    destruct (decide (base w = base t)); [|congruence].
    destruct (decide (factor w = 0)); [done|].
    simpl. eexists. split; [reflexivity|].
    by rewrite (sum_in_common_unit (value a) (value b)).
Qed.

End Quantities.

(** C6: with the unit of factor zero, whose base is [JOULE], the bases
    agree and yet converting one joule to it returns no quantity. *)
Lemma ConvertTo_zero_factor_raises :
  with_null = Ok (heap_with_null, NULL) /\
  Unit_IsConvertibleTo heap_with_null JOULE NULL = Ok true /\
  ConvertTo heap_with_null (mkQuantity 1 JOULE) NULL
    = Raise ZeroDivisionError.
Proof. repeat split; by_compute. Qed.

Lemma ConvertTo_correct_witness :
  ConvertTo loaded (mkQuantity 1 KILOWATT_HOUR) JOULE
    = Ok (mkQuantity (1 * factor (unit_at loaded KILOWATT_HOUR)
                        / factor (unit_at loaded JOULE)) JOULE).
Proof.
  refine (proj1 (proj2 (ConvertTo_correct loaded (mkQuantity 1 KILOWATT_HOUR)
    JOULE (unit_at loaded KILOWATT_HOUR) (unit_at loaded JOULE) _ _)) _ _);
    by_compute.
Defined.

(** C7: a quantity in the unit of factor zero and one joule have units of
    the same base, and yet their sum raises. *)
Lemma add_zero_factor_raises :
  Unit_IsConvertibleTo heap_with_null NULL JOULE = Ok true /\
  Quantity__add__ heap_with_null (mkQuantity 1 NULL)
    (PQuantity (mkQuantity 1 JOULE)) = Raise ZeroDivisionError.
Proof. split; by_compute. Qed.

Lemma add_commutes_up_to_unit_witness :
  exists r1 r2,
    Quantity__add__ loaded (mkQuantity 1 KILOWATT_HOUR)
      (PQuantity (mkQuantity (Qc_of_Z 1800000) JOULE)) = Ok r1 /\
    unit r1 = KILOWATT_HOUR /\
    Quantity__add__ loaded (mkQuantity (Qc_of_Z 1800000) JOULE)
      (PQuantity (mkQuantity 1 KILOWATT_HOUR)) = Ok r2 /\
    unit r2 = JOULE /\
    exists r, ConvertTo loaded r1 JOULE = Ok r /\ ConvertTo loaded r2 JOULE = Ok r.
Proof.
  destruct (proj2 (add_commutes_up_to_unit loaded
    (mkQuantity 1 KILOWATT_HOUR) (mkQuantity (Qc_of_Z 1800000) JOULE)
    (unit_at loaded KILOWATT_HOUR) (unit_at loaded JOULE)
    ltac:(by_compute) ltac:(by_compute))
    ltac:(by_compute) ltac:(by_compute) ltac:(by_compute))
    as (r1 & r2 & H1 & U1 & H2 & U2 & Hc).
  exists r1, r2. repeat (split; [assumption|]).
  exact (Hc JOULE (unit_at loaded JOULE) ltac:(by_compute) ltac:(by_compute)
           ltac:(by_compute)).
Defined.


(** ** Failed readings *)

Section Atomicity.

Context {S : Type} `{Poster S}.

Lemma keeps_ret {A} (a : A) : keeps (S:=S) (ret a).
Proof. by intros m. Qed.

Lemma keeps_lift {A} (r : result A) : keeps (S:=S) (lift r).
Proof. by intros m. Qed.

Lemma keeps_getattr {A} (f : Meter S -> A) : keeps (getattr f).
Proof. by intros m. Qed.

Lemma keeps_service_PostEvent (e : Event) : keeps (service_PostEvent e).
Proof.
  intros m. unfold service_PostEvent.
  by destruct (PostEvent (service m) e).
Qed.

Lemma keeps_bind {A B} (c : method S A) (k : A -> method S B) :
  keeps c -> (forall a, keeps (k a)) -> keeps (bind c k).
Proof.
  intros Hc Hk m. unfold bind. destruct (Hc m) as [Hr Ht].
  destruct (c m) as [[a|e] m1 p]; simpl in *; [|done].
  destruct (Hk a m1) as [Hr' Ht'].
  destruct (k a m1) as [r m2 p']; simpl in *. split; congruence.
Qed.

Ltac keeps_step :=
  first
    [ apply keeps_ret | apply keeps_lift | apply keeps_getattr
    | apply keeps_service_PostEvent
    | apply keeps_bind; [|intros ?]
    | match goal with
      | |- keeps (match ?x with _ => _ end) => destruct x
      end ].

Lemma keeps_PostDur s e q u : keeps (PostDur s e q u).
Proof. unfold PostDur. repeat keeps_step. Qed.

Lemma keeps_PostInst t q u i : keeps (PostInst t q u i).
Proof. unfold PostInst. repeat keeps_step. Qed.

Lemma keeps_all_or_nothing {A} (c : method S A) : keeps c -> all_or_nothing c.
Proof. intros Hc m e _. apply Hc. Qed.

Lemma all_or_nothing_bind {A B} (c : method S A) (k : A -> method S B) :
  keeps c -> (forall a, all_or_nothing (k a)) -> all_or_nothing (bind c k).
Proof.
  intros Hc Hk m e. unfold bind. destruct (Hc m) as [Hr Ht].
  destruct (c m) as [[a|e'] m1 p]; simpl in *; [|done].
  specialize (Hk a m1 e).
  destruct (k a m1) as [r m2 p']; simpl in *.
  intros He. destruct (Hk He). split; congruence.
Qed.

Lemma never_raises_all_or_nothing {A} (c : method S A) :
  never_raises c -> all_or_nothing c.
Proof. intros Hc m e He. destruct (Hc m) as [a Ha]. congruence. Qed.

(** The two assignments that end both reading methods. *)
Lemma commit_never_raises (r : Quantity) (t : option Qc) :
  never_raises
    (bind (setattr (fun self : Meter S => with_register self r))
       (fun _ => setattr (fun self => with_last_read_time self t))).
Proof. intros m. by exists (). Qed.

Ltac atomic_step :=
  first
    [ apply never_raises_all_or_nothing, commit_never_raises
    | apply all_or_nothing_bind;
        [ repeat first [ apply keeps_PostDur | apply keeps_PostInst
                       | keeps_step ]
        | intros ? ]
    | match goal with
      | |- all_or_nothing (match ?x with _ => _ end) => destruct x
      end ].

Variable h : heap.
Variable now : Qc.

Lemma PostRegisterReading_all_or_nothing q u t :
  all_or_nothing (PostRegisterReading h now q u t).
Proof. unfold PostRegisterReading. repeat atomic_step. Qed.

Lemma PostIntervalReading_all_or_nothing q u s e :
  all_or_nothing (PostIntervalReading h now q u s e).
Proof. unfold PostIntervalReading. repeat atomic_step. Qed.

(** C4.  A call to [PostRegisterReading] or [PostIntervalReading] that
    raises, whatever raised (a conversion, the arithmetic of quantities,
    the construction of an event or the service), leaves the meter's
    register and the time of its last reading as they were. *)
Theorem failed_reading_keeps_state (m : Meter S) (q : Quantity)
    (u : option Quantity) (t s e : option Qc) (x : exn) :
  (returned (PostRegisterReading h now q u t m) = Raise x ->
   register (self_after (PostRegisterReading h now q u t m)) = register m /\
   last_read_time (self_after (PostRegisterReading h now q u t m))
     = last_read_time m) /\
  (returned (PostIntervalReading h now q u s e m) = Raise x ->
   register (self_after (PostIntervalReading h now q u s e m)) = register m /\
   last_read_time (self_after (PostIntervalReading h now q u s e m))
     = last_read_time m).
Proof.
  split.
  - apply PostRegisterReading_all_or_nothing.
  - apply PostIntervalReading_all_or_nothing.
Qed.

End Atomicity.

Lemma failed_reading_keeps_state_witness :
  returned (PostRegisterReading loaded 0 (kWh 8) None (at_time 60)
              (refused_meter false None)) = Raise IOError /\
  register (self_after (PostRegisterReading loaded 0 (kWh 8) None (at_time 60)
                          (refused_meter false None))) = kWh 5 /\
  last_read_time
    (self_after (PostRegisterReading loaded 0 (kWh 8) None (at_time 60)
                   (refused_meter false None))) = None.
Proof.
  assert (Hraise :
    returned (PostRegisterReading loaded 0 (kWh 8) None (at_time 60)
                (refused_meter false None)) = Raise IOError)
    by (vm_compute; reflexivity).
  split; [exact Hraise|].
  exact (proj1 (failed_reading_keeps_state loaded 0 (refused_meter false None)
                  (kWh 8) None (at_time 60) None None IOError) Hraise).
Defined.

(** ** Running a method by hand *)

Ltac run_method :=
  cbv beta iota zeta delta
    [PostRegisterReading PostIntervalReading Reset PostDur PostInst
     service_PostEvent bind getattr setattr lift ret
     returned self_after posted].

Ltac step := cbv beta iota zeta delta [returned self_after posted].

Ltac crunch :=
  repeat
    (cbv beta iota zeta delta
       [InstMeasurement__init__ DurMeasurement__init__ timestamp_arg rbind
        returned self_after posted negb];
     try match goal with
       | |- context [@bool_decide ?P ?d] => destruct (@bool_decide_reflect P d)
       | |- context [PostEvent ?s ?e] => destruct (PostEvent s e) eqn:?
       end).

(** ** Register readings *)

Section RegisterReadings.

Context {S : Type} `{Poster S}.
Variable h : heap.
Variable now : Qc.

(** The old register, brought to the unit of the new one. *)
Lemma register_in_kilowatt_hours (q nr old : Quantity) :
  ConvertTo h q KILOWATT_HOUR = Ok nr ->
  unit old = KILOWATT_HOUR ->
  unit nr = KILOWATT_HOUR /\ ConvertTo h old (unit nr) = Ok old.
Proof.
  intros Hq Hold.
  apply ConvertTo_Ok_inv in Hq as (s & k & Hs & Hk & _ & Hf & ->).
  split; [done|]. cbn [unit]. rewrite <- Hold in *.
  by apply ConvertTo_same with k.
Qed.

(** C3.  On a durational meter, for a reading [q] that converts to
    kilowatt-hours: the first register reading (no time of a last reading)
    posts no event; a later reading that raises the register by [d] posts,
    when the service takes it, exactly one [DurMeasurement], from the time
    of the last reading to the time of this one, with quantity [d]
    kilowatt-hours and twice the uncertainty supplied (or the meter's own
    when none is).  Both leave the register at the new value and the time
    of the last reading at the time of this one.  The register is in
    kilowatt-hours, as [Meter.__init__] sets it and every method keeps
    it. *)
Theorem durational_register_readings (m : Meter S) (q : Quantity)
    (u : option Quantity) (t : option Qc) (nr : Quantity) :
  durational m = true ->
  ConvertTo h q KILOWATT_HOUR = Ok nr ->
  let read_time := default now t in
  let unc := default (uncertainty m) u in
  (last_read_time m = None ->
   PostRegisterReading h now q u t m =
     mkOutcome (Ok ())
       (with_last_read_time (with_register m nr) (Some read_time)) []) /\
  (forall (t0 d : Qc) (s' : S),
     last_read_time m = Some t0 ->
     register_in_kWh m ->
     value nr = value (register m) + d ->
     let ev :=
       DurMeasurement (GetEntityPath (variable m)) t0 read_time
         (PQuantity (mkQuantity d KILOWATT_HOUR))
         (time_uncertainty m) (time_uncertainty m)
         (PQuantity (mkQuantity (value unc * 2) (unit unc))) in
     PostEvent (service m) ev = Ok s' ->
     PostRegisterReading h now q u t m =
       mkOutcome (Ok ())
         (with_last_read_time (with_register (with_service m s') nr)
            (Some read_time)) [ev]).
Proof.
  intros Hd Hq read_time unc. split.
  - intros Hl. run_method. rewrite Hq, Hd, Hl. by step.
  - intros t0 d s' Hl Hu Hv ev Hpost.
    destruct (register_in_kilowatt_hours q nr (register m) Hq Hu) as [Hn Hc].
    assert (Hdelta : value nr - value (register m) = d).
    { rewrite Hv. ring. }
    run_method. rewrite Hq, Hd, Hl. step.
    unfold Quantity__sub__, getattr_ConvertTo. rewrite Hc.
    cbv beta iota zeta delta [rbind returned self_after posted Quantity__mul__
      DurMeasurement__init__ timestamp_arg Quantity__init__].
    rewrite Hn, Hdelta. fold unc. fold read_time. fold ev. rewrite Hpost.
    by step.
Qed.

End RegisterReadings.

Lemma durational_register_readings_witness :
  PostRegisterReading loaded 0 (kWh 5) None (at_time 60)
    (example_meter true None) =
    mkOutcome (Ok ())
      (with_last_read_time (with_register (example_meter true None) (kWh 5))
         (at_time 60)) [] /\
  PostRegisterReading loaded 0 (kWh 8) None (at_time 60)
    (example_meter true (at_time 0)) =
    mkOutcome (Ok ())
      (with_last_read_time
         (with_register
            (with_service (example_meter true (at_time 0))
               (mkBatchAdapter
                  [DurMeasurement "/user/1/example.com/variable/v"
                     (Qc_of_Z 0) (Qc_of_Z 60) (PQuantity (kWh 3)) 1 1
                     (PQuantity (mkQuantity (Qc_of_Z 1 * 2) KILOWATT_HOUR))]))
            (kWh 8))
         (at_time 60))
      [DurMeasurement "/user/1/example.com/variable/v"
         (Qc_of_Z 0) (Qc_of_Z 60) (PQuantity (kWh 3)) 1 1
         (PQuantity (mkQuantity (Qc_of_Z 1 * 2) KILOWATT_HOUR))].
Proof.
  split.
  - refine (proj1 (durational_register_readings loaded 0
      (example_meter true None) (kWh 5) None (at_time 60) (kWh 5) _ _) _).
    + reflexivity.
    + by_compute.
    + reflexivity.
  - refine (proj2 (durational_register_readings loaded 0
      (example_meter true (at_time 0)) (kWh 8) None (at_time 60) (kWh 8) _ _)
      (Qc_of_Z 0) (Qc_of_Z 3) _ _ _ _ _).
    + reflexivity.
    + by_compute.
    + reflexivity.
    + reflexivity.
    + by_compute.
    + reflexivity.
Defined.

(** ** Reset *)

Section ResetMeter.

Context {S : Type} `{Poster S}.
Variable h : heap.
Variable now : Qc.

(** C8.  [Reset] returns, posts nothing, and leaves the meter with no time
    of a last reading and every other attribute as it was: the meter is then
    the one [Meter.__init__] builds from the same service, variable,
    uncertainties and mode, given the current register.  The next
    [PostRegisterReading] of a reading that converts to kilowatt-hours posts
    no event on a durational meter, and on an instantaneous meter, when the
    service takes it, exactly one event, marked initial, which carries the
    new register. *)
Theorem reset_then_register_reading (m : Meter S) (q : Quantity)
    (u : option Quantity) (t : option Qc) (nr : Quantity) :
  let fresh :=
    with_register
      (Meter__init__ (service m) (variable m) (uncertainty m)
         (time_uncertainty m) (durational m) None)
      (register m) in
  let read_time := default now t in
  let unc := default (uncertainty m) u in
  Reset m = mkOutcome (Ok ()) fresh [] /\
  service fresh = service m /\ variable fresh = variable m /\
  uncertainty fresh = uncertainty m /\
  time_uncertainty fresh = time_uncertainty m /\
  durational fresh = durational m /\ register fresh = register m /\
  last_read_time fresh = None /\
  (ConvertTo h q KILOWATT_HOUR = Ok nr ->
   (durational m = true ->
    PostRegisterReading h now q u t (self_after (Reset m)) =
      mkOutcome (Ok ())
        (with_last_read_time (with_register fresh nr) (Some read_time)) []) /\
   (forall s' : S,
      durational m = false ->
      let ev :=
        InstMeasurement (GetEntityPath (variable m)) read_time (PQuantity nr)
          (time_uncertainty m) (PQuantity unc) true in
      PostEvent (service m) ev = Ok s' ->
      PostRegisterReading h now q u t (self_after (Reset m)) =
        mkOutcome (Ok ())
          (with_last_read_time (with_register (with_service fresh s') nr)
             (Some read_time)) [ev])).
Proof.
  intros fresh read_time unc. repeat (split; [reflexivity|]).
  intros Hq.
  change (self_after (Reset m)) with fresh.
  assert (Hfd : durational fresh = durational m) by reflexivity.
  assert (Hfl : last_read_time fresh = None) by reflexivity.
  assert (Hfu : uncertainty fresh = uncertainty m) by reflexivity.
  assert (Hfv : variable fresh = variable m) by reflexivity.
  assert (Hft : time_uncertainty fresh = time_uncertainty m) by reflexivity.
  assert (Hfs : service fresh = service m) by reflexivity.
  clearbody fresh. split.
  - intros Hd. run_method. rewrite Hq, Hfd, Hd, Hfl. by step.
  - intros s' Hd ev Hpost. run_method. rewrite Hq, Hfd, Hd, Hfl. step.
    cbv beta iota zeta delta [InstMeasurement__init__ timestamp_arg rbind].
    rewrite Hfu, Hfv, Hft, Hfs. rewrite bool_decide_eq_true_2 by done.
    fold unc. fold read_time. fold ev. rewrite Hpost. by step.
Qed.

End ResetMeter.

Lemma reset_then_register_reading_witness :
  posted (PostRegisterReading loaded 0 (kWh 8) None (at_time 60)
            (self_after (Reset (example_meter true (at_time 0))))) = [] /\
  posted (PostRegisterReading loaded 0 (kWh 8) None (at_time 60)
            (self_after (Reset (example_meter false (at_time 0))))) =
    [InstMeasurement "/user/1/example.com/variable/v" (Qc_of_Z 60)
       (PQuantity (kWh 8)) 1 (PQuantity (kWh 1)) true].
Proof.
  pose proof (reset_then_register_reading loaded 0
    (example_meter true (at_time 0)) (kWh 8) None (at_time 60) (kWh 8)) as Hd.
  pose proof (reset_then_register_reading loaded 0
    (example_meter false (at_time 0)) (kWh 8) None (at_time 60) (kWh 8)) as Hi.
  cbv zeta in Hd, Hi.
  destruct Hd as (_ & _ & _ & _ & _ & _ & _ & _ & Hd).
  destruct Hi as (_ & _ & _ & _ & _ & _ & _ & _ & Hi).
  specialize (Hd ltac:(by_compute)). specialize (Hi ltac:(by_compute)).
  split.
  - rewrite (proj1 Hd eq_refl). reflexivity.
  - rewrite (proj2 Hi _ eq_refl eq_refl). reflexivity.
Defined.

(** ** Interval readings *)

Section IntervalReadings.

Context {S : Type} `{Poster S}.
Variable h : heap.
Variable now : Qc.

(** C2.  On an instantaneous meter, for a call of [PostIntervalReading]
    that returns, with [E] its end time.  On the first reading ever (no time
    of a last reading) with an explicit start time [S0], exactly two events
    are posted: one at [S0] with the old register, marked initial, and one
    at [E] with the new register, not marked initial.  On a later reading
    whose start time is the time of the last reading (given, or left out),
    exactly one event is posted, the one at [E]; when the start time
    differs, the two events are posted. *)
Theorem instantaneous_interval_readings (m : Meter S) (q : Quantity)
    (u : option Quantity) (start_time end_time : option Qc) :
  let o := PostIntervalReading h now q u start_time end_time m in
  let unc := default (uncertainty m) u in
  let E := default now end_time in
  let inst t r i :=
    InstMeasurement (GetEntityPath (variable m)) t (PQuantity r)
      (time_uncertainty m) (PQuantity unc) i in
  durational m = false ->
  returned o = Ok () ->
  (forall S0, last_read_time m = None -> start_time = Some S0 ->
     posted o = [inst S0 (register m) true;
                 inst E (register (self_after o)) false]) /\
  (forall t0, last_read_time m = Some t0 ->
     start_time = None \/ start_time = Some t0 ->
     posted o = [inst E (register (self_after o)) false]) /\
  (forall t0 s, last_read_time m = Some t0 ->
     start_time = Some s -> s <> t0 ->
     posted o = [inst s (register m) true;
                 inst E (register (self_after o)) false]).
Proof.
  intros o unc E inst Hd. subst o inst.
  run_method. fold unc E.
  destruct (last_read_time m) as [t0|] eqn:Hl;
    destruct start_time as [s|];
    (destruct (new_register_value h q _ E (register m)) as [[q' nr]|e];
     [|discriminate]);
    step; rewrite Hd, ?Hl; crunch.
  all: intros Hret; try discriminate Hret.
  all: repeat split; intros; simplify_eq; try reflexivity.
  all: intuition congruence.
Qed.

(** C10.  With an explicit start time of zero, [PostIntervalReading] leaves
    the register as it was, as it does when no start time is known, whatever
    the quantity and whether it returns or raises.  On an instantaneous
    meter the events of a call that returns are yet those of a start time
    that is present, with zero as the start: one at zero with the old
    register, marked initial (left out, as for any start, when the last
    reading was at that very time), then one at the end time, not marked
    initial. *)
Theorem epoch_start_time (m : Meter S) (q : Quantity) (u : option Quantity)
    (end_time : option Qc) :
  let o := PostIntervalReading h now q u (Some 0) end_time m in
  let unc := default (uncertainty m) u in
  let E := default now end_time in
  let inst t i :=
    InstMeasurement (GetEntityPath (variable m)) t (PQuantity (register m))
      (time_uncertainty m) (PQuantity unc) i in
  new_register_value h q (Some 0) E (register m)
    = new_register_value h q None E (register m) /\
  register (self_after o) = register m /\
  (durational m = false -> returned o = Ok () ->
   (last_read_time m <> Some 0 -> posted o = [inst 0 true; inst E false]) /\
   (last_read_time m = Some 0 -> posted o = [inst E false])).
Proof.
  intros o unc E inst. subst o inst. split; [reflexivity|].
  run_method. fold unc E.
  change (new_register_value h q (Some 0) E (register m))
    with (Ok (PQuantity q, register m) : result (pyval * Quantity)).
  step. destruct (durational m), (last_read_time m) as [t0|]; crunch.
  all: split; [reflexivity|]; intros Hd Hret; try discriminate.
  all: split; intros; simplify_eq; reflexivity || congruence.
Qed.

End IntervalReadings.

Lemma instantaneous_interval_readings_witness :
  posted (PostIntervalReading loaded 0 (kWh 2) None (at_time 100)
            (at_time 3700) (example_meter false None)) =
    [InstMeasurement "/user/1/example.com/variable/v" (Qc_of_Z 100)
       (PQuantity (kWh 5)) 1 (PQuantity (kWh 1)) true;
     InstMeasurement "/user/1/example.com/variable/v" (Qc_of_Z 3700)
       (PQuantity
          (register
             (self_after
                (PostIntervalReading loaded 0 (kWh 2) None (at_time 100)
                   (at_time 3700) (example_meter false None)))))
       1 (PQuantity (kWh 1)) false] /\
  posted (PostIntervalReading loaded 0 (kWh 2) None (at_time 3700)
            (at_time 7300) (example_meter false (at_time 3700))) =
    [InstMeasurement "/user/1/example.com/variable/v" (Qc_of_Z 7300)
       (PQuantity
          (register
             (self_after
                (PostIntervalReading loaded 0 (kWh 2) None (at_time 3700)
                   (at_time 7300) (example_meter false (at_time 3700))))))
       1 (PQuantity (kWh 1)) false].
Proof.
  split.
  - exact (proj1 (@instantaneous_interval_readings _ BatchAdapter_Poster loaded 0
      (example_meter false None) (kWh 2) None (at_time 100) (at_time 3700)
      eq_refl ltac:(vm_compute; reflexivity)) (Qc_of_Z 100) eq_refl eq_refl).
  - exact (proj1 (proj2 (@instantaneous_interval_readings _ BatchAdapter_Poster
      loaded 0
      (example_meter false (at_time 3700)) (kWh 2) None (at_time 3700)
      (at_time 7300) eq_refl ltac:(vm_compute; reflexivity)))
      (Qc_of_Z 3700) eq_refl (or_intror eq_refl)).
Defined.

Lemma epoch_start_time_witness :
  posted (PostIntervalReading loaded 0 (watts 2000) None (Some 0)
            (at_time 3600) (example_meter false None)) =
    [InstMeasurement "/user/1/example.com/variable/v" 0
       (PQuantity (kWh 5)) 1 (PQuantity (kWh 1)) true;
     InstMeasurement "/user/1/example.com/variable/v" (Qc_of_Z 3600)
       (PQuantity (kWh 5)) 1 (PQuantity (kWh 1)) false].
Proof.
  refine (proj1 (proj2 (proj2 (@epoch_start_time _ BatchAdapter_Poster loaded 0
    (example_meter false None) (watts 2000) None (at_time 3600)))
    eq_refl ltac:(vm_compute; reflexivity)) _).
  discriminate.
Defined.

(** ** Readings in the module's units *)

Section LoadedHeap.

Lemma loaded_WATT :
  objs loaded !! WATT = Some (mkUnit "W" 1 WATT {[SECOND := JOULE]} ∅).
Proof. by_compute. Qed.

Lemma loaded_JOULE :
  objs loaded !! JOULE =
    Some (mkUnit "J" 1 JOULE ∅ (<[SECOND := WATT]> {[WATT := SECOND]})).
Proof. by_compute. Qed.

Lemma loaded_KILOWATT_HOUR :
  objs loaded !! KILOWATT_HOUR =
    Some (mkUnit "kW h" (Qc_of_Z (3600 * 1000)) JOULE ∅ ∅).
Proof. by_compute. Qed.

Lemma kilowatt_hour_factor : Qc_of_Z (3600 * 1000) <> 0.
Proof. by_compute. Qed.

(** A power reading in watts over an interval that does not start at
    zero: the register gains the energy, in kilowatt-hours. *)
Lemma new_register_value_watts (p s e : Qc) (r : Quantity) :
  s <> 0 -> unit r = KILOWATT_HOUR ->
  new_register_value loaded (mkQuantity p WATT) (Some s) e r =
    Ok (PQuantity (mkQuantity (p * (e - s)) JOULE),
        mkQuantity (value r + p * (e - s) / Qc_of_Z (3600 * 1000))
          KILOWATT_HOUR).
Proof.
  intros Hs Hr. unfold new_register_value, truthy.
  change (default 0 (Some s)) with s.
  rewrite bool_decide_eq_false_2 by done.
  unfold IsConvertibleTo, Unit_IsConvertibleTo. cbn [negb unit rbind].
  rewrite (deref_Some _ _ _ loaded_WATT).
  cbn [rbind base].
  rewrite bool_decide_eq_true_2 by done.
  unfold Quantity__mul__, Unit__rmul__, Quantity__init__.
  cbn [unit value rbind].
  rewrite (deref_Some _ _ _ loaded_WATT).
  cbn [rbind products].
  replace (contains {[SECOND := JOULE]} SECOND) with true by by_compute.
  replace (getitem {[SECOND := JOULE]} SECOND) with (Ok JOULE) by by_compute.
  cbn [rbind].
  unfold Quantity__add__, getattr_ConvertTo.
  rewrite (ConvertTo_unfold loaded (mkQuantity (p * (e - s)) JOULE) (unit r)
             _ _ loaded_JOULE ltac:(rewrite Hr; exact loaded_KILOWATT_HOUR)).
  cbn [base factor value unit].
  rewrite decide_True by done.
  rewrite decide_False by exact kilowatt_hour_factor.
  unfold Quantity__init__. cbn [rbind value].
  rewrite Hr, Qcmult_1_r. reflexivity.
Qed.

(** An energy reading in kilowatt-hours over such an interval: the
    register gains the reading. *)
Lemma new_register_value_kilowatt_hours (x s e : Qc) (r : Quantity) :
  s <> 0 -> unit r = KILOWATT_HOUR ->
  new_register_value loaded (mkQuantity x KILOWATT_HOUR) (Some s) e r =
    Ok (PQuantity (mkQuantity x KILOWATT_HOUR),
        mkQuantity (value r + x) KILOWATT_HOUR).
Proof.
  intros Hs Hr. unfold new_register_value, truthy.
  change (default 0 (Some s)) with s.
  rewrite bool_decide_eq_false_2 by done.
  unfold IsConvertibleTo, Unit_IsConvertibleTo. cbn [negb unit rbind].
  rewrite (deref_Some _ _ _ loaded_WATT).
  rewrite (deref_Some _ _ _ loaded_KILOWATT_HOUR).
  cbn [rbind base].
  rewrite bool_decide_eq_false_2 by done.
  cbn [rbind].
  unfold Quantity__add__, getattr_ConvertTo.
  rewrite (ConvertTo_unfold loaded (mkQuantity x KILOWATT_HOUR) (unit r)
             _ _ loaded_KILOWATT_HOUR
             ltac:(rewrite Hr; exact loaded_KILOWATT_HOUR)).
  cbn [base factor value unit].
  rewrite decide_True by done.
  rewrite decide_False by exact kilowatt_hour_factor.
  unfold Quantity__init__. cbn [rbind value].
  rewrite Hr, Qcdiv_mult_l by exact kilowatt_hour_factor. reflexivity.
Qed.

(** Two kilowatts for an hour and two kilowatt-hours over any interval
    leave the same register, when neither interval starts at zero. *)
Lemma two_kilowatts_for_an_hour (s s' e' : Qc) (r : Quantity) :
  s <> 0 -> s' <> 0 -> unit r = KILOWATT_HOUR ->
  exists q q' r',
    new_register_value loaded (watts 2000) (Some s) (s + Qc_of_Z 3600) r
      = Ok (q, r') /\
    new_register_value loaded (kWh 2) (Some s') e' r = Ok (q', r') /\
    r' = mkQuantity (value r + Qc_of_Z 2) KILOWATT_HOUR.
Proof.
  intros Hs Hs' Hr. unfold watts, kWh, Unit__rmul__, Quantity__init__.
  rewrite new_register_value_watts, new_register_value_kilowatt_hours by done.
  eexists _, _, _. split; [|split; reflexivity].
  do 3 f_equal.
  replace (s + Qc_of_Z 3600 - s) with (Qc_of_Z 3600) by ring.
  apply Qc_is_canon. reflexivity.
Qed.

End LoadedHeap.

(** C1.  Two inputs on which a power reading is not turned into energy on
    the register.  A reading of 2 kW over the hour that starts at time zero
    returns and leaves the register at 5 kWh, where the same reading over
    the hour that starts one second later, like a reading of 2 kWh, takes it
    to 7 kWh.  A reading of 2 in a kilowatt unit, whose base is [WATT],
    raises [AttributeError]: [Quantity.__mul__] finds no product for that
    unit and returns [None]. *)
Theorem power_readings_not_converted :
  let m := example_meter false (at_time 100) in
  let o0 :=
    PostIntervalReading loaded 0 (watts 2000) None (at_time 0) (at_time 3600)
      m in
  let o1 :=
    PostIntervalReading loaded 0 (watts 2000) None (at_time 1) (at_time 3601)
      m in
  let o2 :=
    PostIntervalReading loaded 0 (kWh 2) None (at_time 1) (at_time 3601) m in
  let o3 :=
    PostIntervalReading heap_with_kilowatt 0 (Unit__rmul__ KW (Qc_of_Z 2))
      None (at_time 1) (at_time 3601) m in
  register m = kWh 5 /\
  returned o0 = Ok () /\ register (self_after o0) = kWh 5 /\
  returned o1 = Ok () /\ register (self_after o1) = kWh 7 /\
  returned o2 = Ok () /\ register (self_after o2) = kWh 7 /\
  with_kilowatt = Ok (heap_with_kilowatt, KW) /\
  Unit_IsConvertibleTo heap_with_kilowatt KW WATT = Ok true /\
  returned o3 = Raise AttributeError /\ register (self_after o3) = kWh 5.
Proof. cbv zeta. repeat split; by_compute. Qed.

(** C5.  In the heap with a kilowatt unit of base [WATT], no product is
    registered for kilowatt and second, and [Quantity.__mul__] of 2 kW by
    3600 s returns [None]; it does not convert to the base unit, where the
    product of 2000 W and 3600 s is registered and is 7200000 J.
    [Quantity.__div__] does fall back: 1 kW h divided by the second, a pair
    with no registered quotient, is the 3600000 J of the base unit divided
    by the second, 3600000 W. *)
Theorem mul_has_no_base_unit_fallback :
  let hk := heap_with_kilowatt in
  let two_kW := Unit__rmul__ KW (Qc_of_Z 2) in
  with_kilowatt = Ok (hk, KW) /\
  contains (products (unit_at hk KW)) SECOND = false /\
  Quantity__mul__ hk two_kW (PQuantity (seconds 3600)) = Ok PNone /\
  ConvertTo hk two_kW (base (unit_at hk KW)) = Ok (watts 2000) /\
  Quantity__mul__ hk (watts 2000) (PQuantity (seconds 3600))
    = Ok (PQuantity (joules 7200000)) /\
  contains (quotients (unit_at loaded KILOWATT_HOUR)) SECOND = false /\
  Quantity__div__ 2 loaded (kWh 1) (PUnit SECOND)
    = Ok (PQuantity (watts 3600000)) /\
  ConvertTo loaded (kWh 1) (base (unit_at loaded KILOWATT_HOUR))
    = Ok (joules 3600000) /\
  Quantity__div__ 1 loaded (joules 3600000) (PUnit SECOND)
    = Ok (PQuantity (watts 3600000)).
Proof. cbv zeta. repeat split; by_compute. Qed.

(** ** The state after a reading that returns *)

Ltac crunch_results :=
  repeat
    (cbv beta iota zeta delta
       [InstMeasurement__init__ DurMeasurement__init__ timestamp_arg rbind
        returned self_after posted negb];
     try match goal with
       | |- context [@bool_decide ?P ?d] => destruct (@bool_decide_reflect P d)
       | |- context [PostEvent ?s ?e] => destruct (PostEvent s e) eqn:?
       | |- context [match ?x with Ok _ => _ | Raise _ => _ end] =>
           destruct x eqn:?
       end).

Section AfterReading.

Context {S : Type} `{Poster S}.
Variable h : heap.
Variable now : Qc.

Lemma PostRegisterReading_returns (m : Meter S) q u t :
  returned (PostRegisterReading h now q u t m) = Ok () ->
  exists nr,
    ConvertTo h q KILOWATT_HOUR = Ok nr /\
    register (self_after (PostRegisterReading h now q u t m)) = nr /\
    last_read_time (self_after (PostRegisterReading h now q u t m))
      = Some (default now t).
Proof.
  run_method.
  destruct (ConvertTo h q KILOWATT_HOUR) as [nr|]; step; [|discriminate].
  intros Hret. exists nr. split; [reflexivity|]. revert Hret.
  destruct (durational m), (last_read_time m); crunch_results.
  all: by intros.
Qed.

Lemma PostIntervalReading_returns (m : Meter S) q u start_time end_time :
  let start :=
    match start_time with
    | None => last_read_time m
    | Some _ => start_time
    end in
  returned (PostIntervalReading h now q u start_time end_time m) = Ok () ->
  exists q' nr,
    new_register_value h q start (default now end_time) (register m)
      = Ok (q', nr) /\
    register (self_after (PostIntervalReading h now q u start_time end_time m))
      = nr /\
    last_read_time
      (self_after (PostIntervalReading h now q u start_time end_time m))
      = Some (default now end_time).
Proof.
  intros start. subst start. run_method.
  destruct (new_register_value h q _ _ (register m)) as [[q' nr]|]; step;
    [|discriminate].
  intros Hret. exists q', nr. split; [reflexivity|]. revert Hret.
  destruct (durational m), (last_read_time m), start_time; crunch_results.
  all: by intros.
Qed.

(** The new register is in the unit of the old one. *)
Lemma new_register_value_unit q s e r q' nr :
  new_register_value h q s e r = Ok (q', nr) -> unit nr = unit r.
Proof.
  unfold new_register_value.
  destruct (negb (truthy s)); [by intros [= _ <-]|].
  destruct (IsConvertibleTo h q WATT) as [power|]; [|done]. cbn [rbind].
  match goal with
  | |- context [rbind ?x _] => destruct x as [q1|]; [|done]
  end.
  cbn [rbind]. unfold Quantity__add__.
  destruct (getattr_ConvertTo h q1 (unit r)) as [other|]; [|done].
  cbn [rbind]. by intros [= _ <-].
Qed.

(** The register of a meter is in kilowatt-hours when the meter is built,
    and stays so through every method, whether it returns or raises. *)
Lemma Meter__init__in_kWh (s : S) v u tu d l :
  register_in_kWh (Meter__init__ s v u tu d l).
Proof. reflexivity. Qed.

Lemma Reset_in_kWh (m : Meter S) :
  register_in_kWh m -> register_in_kWh (self_after (Reset m)).
Proof. done. Qed.

Lemma PostRegisterReading_in_kWh (m : Meter S) q u t :
  register_in_kWh m ->
  register_in_kWh (self_after (PostRegisterReading h now q u t m)).
Proof.
  unfold register_in_kWh. intros Hm.
  destruct (returned (PostRegisterReading h now q u t m)) as [[]|e] eqn:Hret.
  - destruct (PostRegisterReading_returns m q u t Hret) as (nr & Hq & -> & _).
    by apply ConvertTo_Ok_inv in Hq as (? & ? & _ & _ & _ & _ & ->).
  - by rewrite (proj1 (PostRegisterReading_all_or_nothing h now q u t m e Hret)).
Qed.

Lemma PostIntervalReading_in_kWh (m : Meter S) q u s e :
  register_in_kWh m ->
  register_in_kWh (self_after (PostIntervalReading h now q u s e m)).
Proof.
  unfold register_in_kWh. intros Hm.
  destruct (returned (PostIntervalReading h now q u s e m)) as [[]|x] eqn:Hret.
  - destruct (PostIntervalReading_returns m q u s e Hret)
      as (q' & nr & Hq & -> & _).
    by rewrite (new_register_value_unit _ _ _ _ _ _ Hq).
  - by rewrite (proj1 (PostIntervalReading_all_or_nothing h now q u s e m x Hret)).
Qed.

End AfterReading.

Section ReadingsInWatts.

Context {S : Type} `{Poster S}.
Variable now : Qc.

(** Away from a start time of zero, with the module's units: a reading in
    watts over an interval from [s] adds its product with the seconds
    elapsed to the register, and a reading in kilowatt-hours adds
    itself. *)
Lemma watts_reading_advances_register (m : Meter S) (p : Qc) u start_time
    end_time (s : Qc) :
  register_in_kWh m ->
  match start_time with
  | None => last_read_time m
  | Some _ => start_time
  end = Some s ->
  s <> 0 ->
  returned (PostIntervalReading loaded now (mkQuantity p WATT) u start_time
              end_time m) = Ok () ->
  register (self_after (PostIntervalReading loaded now (mkQuantity p WATT) u
                          start_time end_time m))
  = mkQuantity (value (register m)
                + p * (default now end_time - s) / Qc_of_Z (3600 * 1000))
      KILOWATT_HOUR.
Proof.
  intros Hm Hstart Hs Hret.
  destruct (PostIntervalReading_returns loaded now m _ u start_time end_time
              Hret) as (q' & nr & Hq & -> & _).
  rewrite Hstart, (new_register_value_watts p s _ _ Hs Hm) in Hq.
  by injection Hq as _ <-.
Qed.

Lemma kilowatt_hours_reading_advances_register (m : Meter S) (x : Qc) u
    start_time end_time (s : Qc) :
  register_in_kWh m ->
  match start_time with
  | None => last_read_time m
  | Some _ => start_time
  end = Some s ->
  s <> 0 ->
  returned (PostIntervalReading loaded now (mkQuantity x KILOWATT_HOUR) u
              start_time end_time m) = Ok () ->
  register (self_after (PostIntervalReading loaded now
                          (mkQuantity x KILOWATT_HOUR) u start_time end_time
                          m))
  = mkQuantity (value (register m) + x) KILOWATT_HOUR.
Proof.
  intros Hm Hstart Hs Hret.
  destruct (PostIntervalReading_returns loaded now m _ u start_time end_time
              Hret) as (q' & nr & Hq & -> & _).
  rewrite Hstart, (new_register_value_kilowatt_hours x s _ _ Hs Hm) in Hq.
  by injection Hq as _ <-.
Qed.

End ReadingsInWatts.

(** ** Timestamps *)

Section Matcher.

Local Open Scope char_scope.


Lemma digits_spec n s d r :
  digits n s = Some (d, r) -> s = d ++ r /\ n_digits n d.
Proof.
  revert s d r. induction n as [|n IH]; intros s d r; simpl.
  - intros [= <- <-]. by repeat split.
  - destruct s as [|c s]; [done|].
    destruct (is_digit c) eqn:Hc; [|done].
    destruct (digits n s) as [[d' r']|] eqn:Hd; [|done].
    intros [= <- <-]. destruct (IH _ _ _ Hd) as (-> & Hlen & Hdig).
    repeat split; simpl; [by rewrite Hlen|].
    unfold digits_only in *. simpl. by rewrite Hc.
Qed.

Lemma many_digits_spec s d r :
  many_digits s = (d, r) -> s = d ++ r /\ digits_only d.
Proof.
  revert d r. induction s as [|c s IH]; intros d r; simpl.
  - by intros [= <- <-].
  - destruct (is_digit c) eqn:Hc.
    + destruct (many_digits s) as [d' r'].
      intros [= <- <-]. destruct (IH _ _ eq_refl) as [-> Hdig].
      split; [done|]. unfold digits_only in *. simpl. by rewrite Hc.
    + by intros [= <- <-].
Qed.

Lemma lit_spec c s r : lit c s = Some r -> s = c :: r.
Proof.
  destruct s as [|c' s]; simpl; [done|].
  destruct (Ascii.eqb_spec c' c); [|done]. by intros [= <-]; subst.
Qed.

Lemma optional_spec c s p r :
  optional c s = (p, r) -> s = p ++ r /\ (p = [] \/ p = [c]).
Proof.
  unfold optional. destruct (lit c s) as [r'|] eqn:Hl.
  - intros [= <- <-]. apply lit_spec in Hl. auto.
  - intros [= <- <-]. auto.
Qed.

(** The text the optional group of the seconds takes, with the group. *)
Lemma match_second_spec s sec r :
  match_second s = (sec, r) ->
  (sec = None /\ s = r) \/
  exists dd point ds,
    sec = Some (dd ++ point ++ ds) /\ s = ":" :: (dd ++ point ++ ds) ++ r /\
    n_digits 2 dd /\ (point = [] \/ point = ["."]) /\ digits_only ds.
Proof.
  unfold match_second.
  destruct (lit ":" s) as [s1|] eqn:H1; cbn [mbind option_bind];
    [|intros ?; simplify_eq; auto].
  destruct (digits 2 s1) as [[dd s2]|] eqn:H2; cbn [mbind option_bind];
    [|intros ?; simplify_eq; auto].
  destruct (optional "." s2) as [point s3] eqn:H3.
  destruct (many_digits s3) as [ds s4] eqn:H4.
  intros ?; simplify_eq. right.
  apply lit_spec in H1 as ->. apply digits_spec in H2 as [-> Hdd].
  apply optional_spec in H3 as [-> Hp]. apply many_digits_spec in H4 as [-> ?].
  exists dd, point, ds. split; [done|]. split; [|done].
  by simpl; rewrite <- ?app_assoc.
Qed.

Lemma match_zone_spec s z zm :
  match_zone s = Some (z, zm) ->
  exists rest, s = z ++ rest /\ zone_format z /\ zone_wf z zm.
Proof.
  unfold match_zone. destruct s as [|c s1]; [done|].
  destruct (Ascii.eqb_spec c "Z") as [->|_].
  { intros [= <- <-]. exists s1. split; [done|]. split; by left. }
  destruct (Ascii.eqb c "-" || Ascii.eqb c "+") eqn:Hsign; [|done].
  destruct (many_digits s1) as [ds s2] eqn:H1.
  apply many_digits_spec in H1 as [-> Hds].
  destruct ds as [|d ds]; [done|].
  destruct (optional ":" s2) as [colon s3] eqn:H2.
  apply optional_spec in H2 as [-> Hcolon].
  assert (Hc : c = "-" \/ c = "+").
  { apply orb_true_iff in Hsign as [E|E]; apply Ascii.eqb_eq in E; auto. }
  destruct (digits 2 s3) as [[mm s4]|] eqn:H3.
  - apply digits_spec in H3 as [-> Hmm]. intros [= <- <-].
    exists s4. split; [by simpl; rewrite <- ?app_assoc|].
    split; right; exists c, (d :: ds), colon, mm;
      by repeat (split; [auto|]); auto.
  - intros [= <- <-]. exists s3. split; [by simpl; rewrite <- ?app_assoc|].
    split; right; exists c, (d :: ds), colon, []; rewrite app_nil_r;
      by repeat (split; [auto|]); auto.
Qed.


End Matcher.

Section MatcherComplete.

Local Open Scope char_scope.

(** Removing the whitespace keeps the other characters, in order. *)
Lemma split_whitespace_concat (cur s : str) :
  concat (split_whitespace cur s)
  = rev cur ++ List.filter (fun c => negb (is_space c)) s.
Proof.
  revert cur. induction s as [|c s IH]; intros cur; cbn [split_whitespace].
  - destruct cur; [done|]. cbn [concat List.filter]. by rewrite !app_nil_r.
  - cbn [List.filter]. destruct (is_space c); cbn [negb].
    + destruct cur as [|c' cur]; [apply IH|].
      cbn [concat]. by rewrite IH.
    + rewrite IH. cbn [rev]. by rewrite <- app_assoc.
Qed.

Lemma remove_whitespace_filter (timestamp : string) :
  remove_whitespace timestamp
  = List.filter (fun c => negb (is_space c)) (list_ascii_of_string timestamp).
Proof. unfold remove_whitespace. by rewrite split_whitespace_concat. Qed.

Lemma lit_same c s : lit c (c :: s) = Some s.
Proof. cbn [lit]. by rewrite Ascii.eqb_refl. Qed.

Lemma digits_complete n d r : n_digits n d -> digits n (d ++ r) = Some (d, r).
Proof.
  intros [Hlen Hd]. revert d Hlen Hd. unfold digits_only.
  induction n as [|n IH]; intros [|c d] Hlen Hd; try done.
  cbn [forallb] in Hd. apply andb_true_iff in Hd as [Hc Hd].
  cbn [digits app]. rewrite Hc. rewrite IH; [done| |done].
  by injection Hlen.
Qed.

Lemma many_digits_stop d r :
  digits_only d -> no_digit_first r -> many_digits (d ++ r) = (d, r).
Proof.
  unfold digits_only. induction d as [|c d IH]; intros Hd Hr.
  - destruct r as [|c r]; [done|]. cbn [app many_digits]. cbn in Hr.
    by rewrite Hr.
  - cbn [forallb] in Hd. apply andb_true_iff in Hd as [Hc Hd].
    cbn [app many_digits]. by rewrite Hc, (IH Hd Hr).
Qed.







End MatcherComplete.

Section Milliseconds.

Local Open Scope char_scope.
Local Open Scope Z_scope.


Lemma decimal_from (acc : Z) (s : str) :
  foldl (fun acc c => acc * 10 + digit_value c) acc s
  = acc * 10 ^ Z.of_nat (length s) + decimal s.
Proof.
  unfold decimal. revert acc.
  induction s as [|c s IH]; intros acc; simpl; [lia|].
  rewrite IH, (IH (0 * 10 + digit_value c)).
  rewrite Nat2Z.inj_succ, Z.pow_succ_r by lia. ring.
Qed.

Lemma decimal_app (a b : str) :
  decimal (a ++ b) = decimal a * 10 ^ Z.of_nat (length b) + decimal b.
Proof. unfold decimal at 1. rewrite foldl_app. apply decimal_from. Qed.


Lemma digits_only_app (a b : str) :
  digits_only a -> digits_only b -> digits_only (a ++ b).
Proof.
  unfold digits_only. intros Ha Hb. by rewrite forallb_app, Ha, Hb.
Qed.

(** [int] reads a string of digits that is not empty. *)
Lemma int_digits (s : str) :
  s <> [] -> digits_only s -> int s = Ok (decimal s).
Proof.
  unfold digits_only, int. intros Hne Hs. destruct s; [done|]. by rewrite Hs.
Qed.

Lemma int_n_digits n (s : str) :
  n_digits (Datatypes.S n) s -> int s = Ok (decimal s).
Proof. intros [Hlen Hs]. apply int_digits; [|done]. by destruct s. Qed.

(** Splitting digits on a character that is not a digit. *)
Lemma digit_not_separator sep c :
  is_digit sep = false -> is_digit c = true -> Ascii.eqb c sep = false.
Proof. intros Hsep Hc. apply Ascii.eqb_neq. congruence. Qed.


Lemma split_on_digits sep (s : str) :
  is_digit sep = false -> digits_only s -> split_on sep s = [s].
Proof.
  unfold digits_only. intros Hsep. induction s as [|c s IH]; [done|].
  cbn [forallb split_on]. intros Hs. apply andb_true_iff in Hs as [Hc Hs].
  by rewrite (IH Hs), (digit_not_separator sep c Hsep Hc).
Qed.

Lemma split_on_first sep (a b : str) :
  is_digit sep = false -> digits_only a ->
  exists ps, split_on sep (a ++ sep :: b) = a :: ps.
Proof.
  unfold digits_only. intros Hsep. induction a as [|c a IH].
  - intros _. cbn [app split_on]. rewrite Ascii.eqb_refl. by eexists.
  - cbn [forallb split_on app]. intros Ha.
    apply andb_true_iff in Ha as [Hc Ha].
    destruct (IH Ha) as [ps ->].
    rewrite (digit_not_separator sep c Hsep Hc). by eexists.
Qed.


(** The whole seconds are read from digits. *)
Lemma int_second_digits (sec : option str) :
  second_wf sec ->
  exists s,
    item (split_on "." (str_or sec ["0"%char])) 0 = Ok s /\
    s <> [] /\ digits_only s.
Proof.
  intros [->|(dd & point & ds & -> & [Hlen Hdd] & Hpoint & Hds)].
  - by exists ["0"%char].
  - assert (Hne : dd <> []) by (by destruct dd).
    assert (Hor : str_or (Some (dd ++ point ++ ds)) ["0"%char]
                  = dd ++ point ++ ds) by (by destruct dd).
    rewrite Hor. destruct Hpoint as [-> | ->].
    + cbn [app]. rewrite split_on_digits;
        [|done|by apply digits_only_app].
      exists (dd ++ ds). split; [done|]. split; [by destruct dd|].
      by apply digits_only_app.
    + cbn [app]. destruct (split_on_first "." dd ds eq_refl Hdd) as [ps ->].
      by exists dd.
Qed.



End Milliseconds.

Section FromTimestampProperties.

Variable timegm : list Z -> result Z.

(** The string a match was found in starts with the text matched. *)
Lemma re_match_text (s : str) (g : groups) :
  re_match s = Some g -> exists rest, s = matched_text g ++ rest.
Proof.
  unfold re_match.
  destruct (digits 4 s) as [[y s1]|] eqn:Hy; cbn [mbind option_bind];
    [|done].
  destruct (lit "-" s1) as [s2|] eqn:L1; cbn [mbind option_bind]; [|done].
  destruct (digits 2 s2) as [[mo s3]|] eqn:Hmo; cbn [mbind option_bind];
    [|done].
  destruct (lit "-" s3) as [s4|] eqn:L2; cbn [mbind option_bind]; [|done].
  destruct (digits 2 s4) as [[d s5]|] eqn:Hd; cbn [mbind option_bind];
    [|done].
  destruct (lit "T" s5) as [s6|] eqn:L3; cbn [mbind option_bind]; [|done].
  destruct (digits 2 s6) as [[hh s7]|] eqn:Hh; cbn [mbind option_bind];
    [|done].
  destruct (lit ":" s7) as [s8|] eqn:L4; cbn [mbind option_bind]; [|done].
  destruct (digits 2 s8) as [[mi s9]|] eqn:Hmi; cbn [mbind option_bind];
    [|done].
  destruct (match_second s9) as [sec s10] eqn:Hsec.
  destruct (match_zone s10) as [[z zm]|] eqn:Hz; cbn [mbind option_bind];
    [|done].
  intros [= <-]. unfold matched_text.
  cbn [year month day hour minute second zone zone_minutes].
  apply digits_spec in Hy as [-> _], Hmo as [-> _], Hd as [-> _],
    Hh as [-> _], Hmi as [-> _].
  apply lit_spec in L1 as ->, L2 as ->, L3 as ->, L4 as ->.
  apply match_zone_spec in Hz as (rest & -> & _ & _).
  exists rest.
  apply match_second_spec in Hsec
    as [[-> ->]|(dd & point & ds & -> & -> & _ & _ & _)];
    repeat (rewrite <- app_assoc; cbn [app]); reflexivity.
Qed.




End FromTimestampProperties.


(** A zone of 310 digits is taken for so many hours: the time is beyond
    the range of floats and its product with 0.001 raises. *)
Lemma FromTimestamp_overflow :
  FromTimestamp timegm
    (String.append "2009-01-01T00:00:00+1"
       (string_of_list_ascii (repeat "0"%char 309)))
  = Raise OverflowError.
Proof. by_compute. Qed.


(** * Further properties *)

(** ** Conversions, sums and quotients of quantities *)

Section MoreConversion.

Local Open Scope result_scope.

Variable h : heap.


(** X2.  Subtracting a quantity is adding its negation: the two give the
    same quantity or raise the same exception. *)
Theorem sub_is_add_neg (a b : Quantity) :
  Quantity__sub__ h a (PQuantity b)
  = Quantity__add__ h a (PQuantity (Quantity__neg__ b)).
Proof.
  unfold Quantity__sub__, Quantity__add__, getattr_ConvertTo, ConvertTo,
    Unit_IsConvertibleTo, deref, Quantity__neg__, Quantity__init__.
  cbn [unit value].
  destruct (objs h !! unit b) as [t|]; [|done]. cbn [rbind].
  destruct (objs h !! unit a) as [s|]; [|done]. cbn [rbind].
  destruct (bool_decide (base s = base t)); [|done].
  unfold pydiv. destruct (decide (factor s = 0)); [done|].
  cbn [rbind value]. f_equal. f_equal. field. auto.
Qed.


(** X4.  A quantity cannot be divided by a plain number: whatever the
    quantity, the units and the depth of calls the interpreter allows,
    [Quantity.__div__] converts the quantity to its base unit and calls
    itself again, until a conversion or the interpreter raises. *)
Theorem div_by_number_never_returns (depth : nat) (q : Quantity) (x : Qc) :
  exists e, Quantity__div__ depth h q (PNum x) = Raise e.
Proof.
  revert q. induction depth as [|depth IH]; intros q; [by eexists|].
  cbn [Quantity__div__].
  destruct (deref h (unit q)) as [s|]; [|by eexists]. cbn [rbind].
  destruct (ConvertTo h q (base s)) as [b|]; [|by eexists]. cbn [rbind].
  apply IH.
Qed.

(** X5.  Dividing a quantity by a quantity in the base unit of its unit,
    when no quotient is registered for the pair, gives a plain number: the
    value of the first in the base unit over the value of the second, or
    [ZeroDivisionError] when the second is zero. *)
Theorem div_by_base_unit_quantity (depth : nat) (a b : Quantity)
    (s t : Unit) :
  objs h !! unit a = Some s ->
  objs h !! base s = Some t ->
  unit b = base s ->
  base t = base s ->
  factor t <> 0 ->
  quotients s !! base s = None ->
  quotients t !! base s = None ->
  Quantity__div__ (S (S depth)) h a (PQuantity b)
  = let! x := pydiv (value a * factor s / factor t) (value b) in Ok (PNum x).
Proof.
  intros Hs Ht Hb Hbt Hf Hqs Hqt.
  destruct (decide (unit a = base s)) as [Heq|Hne].
  - rewrite <- Heq in *. simplify_eq.
    cbn [Quantity__div__]. rewrite (deref_Some _ _ _ Hs). cbn [rbind].
    unfold contains. rewrite Hb, Hqs.
    rewrite bool_decide_eq_false_2 by (by intros [? ?]).
    rewrite decide_True by done.
    rewrite Qcdiv_mult_l by done. done.
  - change (Quantity__div__ (S (S depth)) h a (PQuantity b))
      with (let! s := deref h (unit a) in
            let retry :=
              let! b0 := ConvertTo h a (base s) in
              Quantity__div__ (S depth) h b0 (PQuantity b) in
            if contains (quotients s) (unit b) then
              let! x := pydiv (value a) (value b) in
              let! u := Unit__div__ h (unit a) (unit b) in
              Ok (PQuantity (Quantity__init__ x u))
            else if decide (unit b = unit a) then
              let! x := pydiv (value a) (value b) in
              Ok (PNum x)
            else retry).
    rewrite (deref_Some _ _ _ Hs). cbn [rbind].
    unfold contains at 1. rewrite Hb, Hqs.
    rewrite bool_decide_eq_false_2 by (by intros [? ?]).
    rewrite decide_False by done.
    rewrite (ConvertTo_unfold h a (base s) s t Hs Ht).
    rewrite decide_True by done. rewrite decide_False by done.
    cbn [rbind Quantity__div__ unit value].
    rewrite (deref_Some _ _ _ Ht). cbn [rbind].
    unfold contains. rewrite Hb, Hqt.
    rewrite bool_decide_eq_false_2 by (by intros [? ?]).
    rewrite decide_True by done. done.
Qed.

(** X6.  The other way round it never returns: a quantity in a unit that
    is its own base, divided by a quantity in another unit for which no
    quotient is registered, is converted to its own unit and divided
    again, until a conversion or the interpreter raises. *)
Theorem div_of_base_unit_quantity_never_returns (depth : nat)
    (a b : Quantity) (s : Unit) :
  objs h !! unit a = Some s ->
  base s = unit a ->
  unit b <> unit a ->
  quotients s !! unit b = None ->
  exists e, Quantity__div__ depth h a (PQuantity b) = Raise e.
Proof.
  intros Hs Hbase Hne Hq. revert a Hs Hbase Hne Hq.
  induction depth as [|depth IH]; intros a Hs Hbase Hne Hq; [by eexists|].
  cbn [Quantity__div__]. rewrite (deref_Some _ _ _ Hs). cbn [rbind].
  unfold contains. rewrite Hq.
  rewrite bool_decide_eq_false_2 by (by intros [? ?]).
  rewrite decide_False by done.
  destruct (ConvertTo h a (base s)) as [a'|] eqn:Ha; [|by eexists].
  cbn [rbind].
  apply ConvertTo_Ok_inv in Ha as (s' & t & Hs' & Ht & _ & _ & ->).
  apply IH; cbn [unit]; congruence.
Qed.

End MoreConversion.



Lemma div_by_base_unit_quantity_witness :
  Quantity__div__ 2 loaded (kWh 1) (PQuantity (joules 2))
  = Ok (PNum (Qc_of_Z 1800000)).
Proof.
  rewrite (div_by_base_unit_quantity loaded 0 (kWh 1) (joules 2)
             (unit_at loaded KILOWATT_HOUR) (unit_at loaded JOULE));
    by_compute.
Defined.

Lemma div_of_base_unit_quantity_never_returns_witness :
  exists e,
    Quantity__div__ 1000 loaded (joules 3600000) (PQuantity (kWh 1))
    = Raise e.
Proof.
  apply (div_of_base_unit_quantity_never_returns loaded 1000
           (joules 3600000) (kWh 1) (unit_at loaded JOULE)); by_compute.
Defined.

(** ** Creating units *)

Section NewUnits.

Local Open Scope result_scope.

(** One round of the loop of [Unit.__init__] changes tables only. *)
Lemma register_factorization_length self os lr :
  length (register_factorization self os lr) = length os.
Proof.
  destruct lr as [l r]. unfold register_factorization.
  by rewrite !length_alter.
Qed.

Lemma alter_table_lookup (f : Unit -> Unit) i j (os : list Unit) (o : Unit) :
  (forall x, factor (f x) = factor x /\ base (f x) = base x) ->
  alter f i os !! j = Some o ->
  exists o', os !! j = Some o' /\ factor o' = factor o /\ base o' = base o.
Proof.
  intros Hf. destruct (decide (i = j)) as [->|Hne].
  - rewrite list_lookup_alter_eq.
    destruct (os !! j) as [x|]; cbn [fmap option_fmap option_map]; [|done].
    intros [= <-]. exists x. destruct (Hf x). auto.
  - rewrite list_lookup_alter_ne by done. intros. by exists o.
Qed.

Lemma register_factorization_lookup self os lr j o :
  register_factorization self os lr !! j = Some o ->
  exists o', os !! j = Some o' /\ factor o' = factor o /\ base o' = base o.
Proof.
  destruct lr as [l r]. unfold register_factorization. cbv zeta. intros Hd.
  apply alter_table_lookup in Hd as (o4 & Hc & ? & ?); [|done].
  apply alter_table_lookup in Hc as (o3 & Hb & ? & ?); [|done].
  apply alter_table_lookup in Hb as (o2 & Ha & ? & ?); [|done].
  apply alter_table_lookup in Ha as (o1 & Hz & ? & ?); [|done].
  exists o1. split; [done|]. split; congruence.
Qed.

Lemma factorizations_length self fs : forall os,
  length (foldl (register_factorization self) os fs) = length os.
Proof.
  induction fs as [|lr fs IH]; intros os; [done|].
  cbn [foldl]. by rewrite IH, register_factorization_length.
Qed.

Lemma factorizations_lookup self fs : forall os j o,
  foldl (register_factorization self) os fs !! j = Some o ->
  exists o', os !! j = Some o' /\ factor o' = factor o /\ base o' = base o.
Proof.
  induction fs as [|lr fs IH]; intros os j o; [by exists o|].
  cbn [foldl]. intros Ha. apply IH in Ha as (o1 & Ha & ? & ?).
  apply register_factorization_lookup in Ha as (o0 & Ha & ? & ?).
  exists o0. split; [done|]. split; congruence.
Qed.

Lemma Unit__init__inv h sym f b fs h' u :
  Unit__init__ h sym f b fs = Ok (h', u) ->
  u = length (objs h) /\
  objs h' = foldl (register_factorization u)
              (objs h ++ [mkUnit sym f (default u b) ∅ ∅]) fs.
Proof.
  unfold Unit__init__.
  destruct (if decide _ then _ else _); [|done].
  cbn [rbind]. intros [= <- <-]. done.
Qed.

Lemma Unit__init__old h sym f b fs h' u j :
  Unit__init__ h sym f b fs = Ok (h', u) ->
  (j < length (objs h))%nat ->
  exists o o', objs h !! j = Some o /\ objs h' !! j = Some o' /\
    factor o' = factor o /\ base o' = base o.
Proof.
  intros Hi Hj. apply Unit__init__inv in Hi as [-> Hos].
  destruct (lookup_lt_is_Some_2 (objs h') j) as [o' Ho'].
  { rewrite Hos, factorizations_length, length_app. lia. }
  pose proof Ho' as Ho. rewrite Hos in Ho.
  apply factorizations_lookup in Ho as (o & Ho & ? & ?).
  rewrite lookup_app_l in Ho by done.
  by exists o, o'.
Qed.

(** X7.  Creating a unit, with whatever factorizations, changes no
    conversion between the units that were there before. *)
Theorem Unit__init__keeps_conversions (h h' : heap) (sym : string) (f : Qc)
    (b : option uref) (fs : list (uref * uref)) (u t : uref) (q : Quantity) :
  Unit__init__ h sym f b fs = Ok (h', u) ->
  (unit q < length (objs h))%nat ->
  (t < length (objs h))%nat ->
  ConvertTo h' q t = ConvertTo h q t.
Proof.
  intros Hi Hq Ht.
  destruct (Unit__init__old _ _ _ _ _ _ _ _ Hi Hq)
    as (s & s' & Hs & Hs' & Hfs & Hbs).
  destruct (Unit__init__old _ _ _ _ _ _ _ _ Hi Ht)
    as (o & o' & Ho & Ho' & Hfo & Hbo).
  rewrite (ConvertTo_unfold h' q t s' o' Hs' Ho').
  rewrite (ConvertTo_unfold h q t s o Hs Ho).
  by rewrite Hfs, Hbs, Hfo, Hbo.
Qed.

Lemma alter_product_is f self l r i os :
  (forall x, products x !! r = Some self -> products (f x) !! r = Some self) ->
  product_is self l r os -> product_is self l r (alter f i os).
Proof.
  intros Hf (sl & Hl & Hp). destruct (decide (i = l)) as [->|Hne].
  - exists (f sl). rewrite list_lookup_alter_eq, Hl. auto.
  - exists sl. by rewrite list_lookup_alter_ne.
Qed.

Lemma set_product_keeps self k r x :
  products x !! r = Some self ->
  products (set_product k self x) !! r = Some self.
Proof.
  intros Hx. cbn [set_product products].
  destruct (decide (k = r)) as [->|Hne].
  - by rewrite lookup_insert_eq.
  - by rewrite lookup_insert_ne.
Qed.

Lemma register_factorization_keeps self l r os lr :
  product_is self l r os ->
  product_is self l r (register_factorization self os lr).
Proof.
  destruct lr as [l' r']. unfold register_factorization. cbv zeta. intros Hp.
  apply alter_product_is; [apply set_product_keeps|].
  apply alter_product_is; [apply set_product_keeps|].
  apply alter_product_is; [done|].
  by apply alter_product_is.
Qed.

Lemma register_factorization_sets self l r os :
  (l < length os)%nat -> (r < length os)%nat ->
  product_is self l r (register_factorization self os (l, r)) /\
  product_is self r l (register_factorization self os (l, r)).
Proof.
  intros Hl Hr. unfold register_factorization. cbv zeta.
  unfold uref in *.
  remember (alter (set_quotient r l) self (alter (set_quotient l r) self os))
    as os2 eqn:Hos2.
  assert (Hlen : length os2 = length os)
    by (subst os2; by rewrite !length_alter).
  destruct (lookup_lt_is_Some_2 os2 l) as [sl Hsl]; [lia|].
  destruct (lookup_lt_is_Some_2 (alter (set_product r self) l os2) r)
    as [sr Hsr]; [rewrite length_alter; lia|].
  split.
  - apply alter_product_is; [apply set_product_keeps|].
    exists (set_product r self sl). rewrite list_lookup_alter_eq, Hsl.
    split; [done|]. cbn [set_product products]. by rewrite lookup_insert_eq.
  - exists (set_product l self sr). rewrite list_lookup_alter_eq, Hsr.
    split; [done|]. cbn [set_product products]. by rewrite lookup_insert_eq.
Qed.

Lemma factorizations_keep self l r fs : forall os,
  product_is self l r os ->
  product_is self l r (foldl (register_factorization self) os fs).
Proof.
  induction fs as [|lr fs IH]; intros os Hp; [done|].
  cbn [foldl]. by apply IH, register_factorization_keeps.
Qed.

Lemma factorizations_set self l r fs : forall os,
  In (l, r) fs ->
  (l < length os)%nat -> (r < length os)%nat ->
  product_is self l r (foldl (register_factorization self) os fs) /\
  product_is self r l (foldl (register_factorization self) os fs).
Proof.
  induction fs as [|lr fs IH]; intros os Hin Hl Hr; [done|].
  cbn [foldl]. destruct Hin as [->|Hin].
  - destruct (register_factorization_sets self l r os Hl Hr).
    split; by apply factorizations_keep.
  - apply IH; [done|by rewrite register_factorization_length..].
Qed.

Lemma factorization_gives_products_aux h h' sym f b fs u l r :
  Unit__init__ h sym f b fs = Ok (h', u) ->
  In (l, r) fs ->
  (l < length (objs h))%nat -> (r < length (objs h))%nat ->
  product_is u l r (objs h') /\ product_is u r l (objs h').
Proof.
  intros Hi Hin Hl Hr. apply Unit__init__inv in Hi as [-> Hos].
  rewrite Hos. apply factorizations_set; [done|rewrite length_app; lia..].
Qed.

(** X8.  A unit created with the factorization [(l, r)] among its
    factorizations is what [l * r] and [r * l] give afterwards, wherever
    the pair stands in the list and whatever products the two units had. *)
Theorem factorization_gives_products (h h' : heap) (sym : string) (f : Qc)
    (b : option uref) (fs : list (uref * uref)) (u l r : uref) :
  Unit__init__ h sym f b fs = Ok (h', u) ->
  In (l, r) fs ->
  (l < length (objs h))%nat -> (r < length (objs h))%nat ->
  Unit__mul__ h' l (PUnit r) = Ok (PUnit u) /\
  Unit__mul__ h' r (PUnit l) = Ok (PUnit u).
Proof.
  intros Hi Hin Hl Hr.
  destruct (factorization_gives_products_aux _ _ _ _ _ _ _ _ _ Hi Hin Hl Hr)
    as [(sl & Hsl & Hpl) (sr & Hsr & Hpr)].
  unfold Unit__mul__, deref, getitem.
  unfold uref in *. rewrite Hsl, Hsr. cbn [rbind]. by rewrite Hpl, Hpr.
Qed.



End NewUnits.

Lemma Unit__init__keeps_conversions_witness :
  ConvertTo heap_with_kilowatt (kWh 1) JOULE = ConvertTo loaded (kWh 1) JOULE.
Proof.
  apply (Unit__init__keeps_conversions loaded heap_with_kilowatt "kW"
           (Qc_of_Z 1000) (Some WATT) [] KW JOULE (kWh 1)); by_compute.
Defined.

Lemma factorization_gives_products_witness :
  Unit__mul__ heap_with_watt_second WATT (PUnit SECOND)
    = Ok (PUnit WATT_SECOND) /\
  Unit__mul__ heap_with_watt_second SECOND (PUnit WATT)
    = Ok (PUnit WATT_SECOND).
Proof.
  apply (factorization_gives_products loaded heap_with_watt_second "W s" 1
           None [(WATT, SECOND)] WATT_SECOND WATT SECOND);
    [by_compute | by left | by_compute | by_compute].
Defined.


(** ** Readings of a meter *)

Section MoreReadings.

Context {S : Type} `{Poster S}.
Variable h : heap.
Variable now : Qc.

(** X10.  On an instantaneous meter, a call of [PostRegisterReading] that
    returns has posted exactly one event: at the time of the reading, with
    the reading converted to kilowatt-hours and the uncertainty as given
    (not doubled), marked initial exactly when the meter had no time of a
    last reading.  The register is then the converted reading. *)
Theorem instantaneous_register_reading (m : Meter S) (q : Quantity)
    (u : option Quantity) (t : option Qc) :
  let o := PostRegisterReading h now q u t m in
  let T := default now t in
  durational m = false ->
  returned o = Ok () ->
  exists nr,
    ConvertTo h q KILOWATT_HOUR = Ok nr /\
    posted o =
      [InstMeasurement (GetEntityPath (variable m)) T (PQuantity nr)
         (time_uncertainty m) (PQuantity (default (uncertainty m) u))
         (bool_decide (last_read_time m = None))] /\
    register (self_after o) = nr /\
    last_read_time (self_after o) = Some T.
Proof.
  intros o T Hd. subst o. run_method. fold T.
  destruct (ConvertTo h q KILOWATT_HOUR) as [nr|]; step; [|discriminate].
  rewrite Hd.
  cbv beta iota zeta delta
    [InstMeasurement__init__ timestamp_arg rbind returned self_after posted].
  match goal with
  | |- context [PostEvent ?s ?e] => destruct (PostEvent s e) eqn:?
  end; [|discriminate].
  intros _. by exists nr.
Qed.

(** X11.  The first interval reading of a meter, when no start time is
    given.  A durational meter raises [TypeError], posts nothing and stays
    as it was, whatever the quantity and the service.  An instantaneous
    meter, when the call returns, has posted one event, at the end time,
    with the register as it was, marked initial, and its register has not
    moved. *)
Theorem first_interval_reading_without_start (m : Meter S) (q : Quantity)
    (u : option Quantity) (end_time : option Qc) :
  let o := PostIntervalReading h now q u None end_time m in
  let E := default now end_time in
  last_read_time m = None ->
  (durational m = true -> o = mkOutcome (Raise TypeError) m []) /\
  (durational m = false -> returned o = Ok () ->
   posted o =
     [InstMeasurement (GetEntityPath (variable m)) E (PQuantity (register m))
        (time_uncertainty m) (PQuantity (default (uncertainty m) u)) true] /\
   register (self_after o) = register m /\
   last_read_time (self_after o) = Some E).
Proof.
  intros o E Hl. subst o. run_method. fold E. rewrite Hl.
  change (new_register_value h q None E (register m))
    with (Ok (PQuantity q, register m) : result (pyval * Quantity)).
  step. split; intros Hd; rewrite Hd, ?Hl.
  - reflexivity.
  - cbv beta iota zeta delta
      [InstMeasurement__init__ timestamp_arg rbind returned self_after posted].
    match goal with
    | |- context [PostEvent ?s ?e] => destruct (PostEvent s e) eqn:?
    end; [|discriminate].
    by intros _.
Qed.

(** X12.  The register of a meter is in kilowatt-hours when the meter is
    built, and stays so through [Reset], [PostRegisterReading] and
    [PostIntervalReading], whatever the arguments and whether the call
    returns or raises. *)
Theorem register_stays_in_kWh (s : S) (v : entity_or_path) (unc : Quantity)
    (tu : Qc) (d : bool) (l : option Qc) (m : Meter S) (q : Quantity)
    (u : option Quantity) (t st e : option Qc) :
  register_in_kWh (Meter__init__ s v unc tu d l) /\
  (register_in_kWh m ->
   register_in_kWh (self_after (Reset m)) /\
   register_in_kWh (self_after (PostRegisterReading h now q u t m)) /\
   register_in_kWh (self_after (PostIntervalReading h now q u st e m))).
Proof.
  split; [apply Meter__init__in_kWh|].
  intros Hm. split; [|split].
  - by apply Reset_in_kWh.
  - by apply PostRegisterReading_in_kWh.
  - by apply PostIntervalReading_in_kWh.
Qed.

End MoreReadings.

Section MoreIntervalReadings.

Context {S : Type} `{Poster S}.
Variable now : Qc.

(** X13.  With the units of the module, on a durational meter whose
    register is in kilowatt-hours, an interval reading that starts at [s],
    not zero, and returns has posted exactly one durational event from [s]
    to the end time, with the uncertainty as given.  For a reading of [p]
    watts the event carries [p] times the seconds elapsed, in joules; for
    a reading in kilowatt-hours it carries the reading. *)
Theorem durational_interval_reading (m : Meter S) (q : Quantity)
    (u : option Quantity) (start_time end_time : option Qc) (s : Qc) :
  let o := PostIntervalReading loaded now q u start_time end_time m in
  let E := default now end_time in
  let dur x :=
    DurMeasurement (GetEntityPath (variable m)) s E (PQuantity x)
      (time_uncertainty m) (time_uncertainty m)
      (PQuantity (default (uncertainty m) u)) in
  durational m = true ->
  register_in_kWh m ->
  match start_time with
  | None => last_read_time m
  | Some _ => start_time
  end = Some s ->
  s <> 0 ->
  returned o = Ok () ->
  (forall p, q = mkQuantity p WATT ->
     posted o = [dur (mkQuantity (p * (E - s)) JOULE)]) /\
  (forall x, q = mkQuantity x KILOWATT_HOUR -> posted o = [dur q]).
Proof.
  intros o E dur Hd Hm Hstart Hs Hret.
  split; intros x ->; revert Hret; subst o dur; run_method; fold E;
    rewrite Hstart.
  - rewrite (new_register_value_watts x s E (register m) Hs Hm).
    step. rewrite Hd. crunch_results; by intros.
  - rewrite (new_register_value_kilowatt_hours x s E (register m) Hs Hm).
    step. rewrite Hd. crunch_results; by intros.
Qed.

(** X14.  With the units of the module, on a meter of either kind whose
    register is in kilowatt-hours, an interval reading that starts at [s],
    not zero, and returns: a reading of [p] watts adds [p] times the
    seconds elapsed, over 3 600 000, to the register; a reading of [x]
    kilowatt-hours adds [x]; and the end time becomes the time of the last
    reading. *)
Theorem interval_reading_advances_register (m : Meter S) (q : Quantity)
    (u : option Quantity) (start_time end_time : option Qc) (s : Qc) :
  let o := PostIntervalReading loaded now q u start_time end_time m in
  let E := default now end_time in
  register_in_kWh m ->
  match start_time with
  | None => last_read_time m
  | Some _ => start_time
  end = Some s ->
  s <> 0 ->
  returned o = Ok () ->
  (forall p, q = mkQuantity p WATT ->
     register (self_after o)
     = mkQuantity (value (register m) + p * (E - s) / Qc_of_Z (3600 * 1000))
         KILOWATT_HOUR) /\
  (forall x, q = mkQuantity x KILOWATT_HOUR ->
     register (self_after o)
     = mkQuantity (value (register m) + x) KILOWATT_HOUR) /\
  last_read_time (self_after o) = Some E.
Proof.
  intros o E Hm Hstart Hs Hret. subst o E.
  destruct (PostIntervalReading_returns loaded now m q u start_time end_time
              Hret) as (q' & nr & Hq & -> & ->).
  rewrite Hstart in Hq.
  split; [|split; [|done]]; intros x ->.
  - rewrite (new_register_value_watts x s _ _ Hs Hm) in Hq.
    by injection Hq as _ <-.
  - rewrite (new_register_value_kilowatt_hours x s _ _ Hs Hm) in Hq.
    by injection Hq as _ <-.
Qed.

End MoreIntervalReadings.

(** ** Meters on a batch adapter *)

Section Queue.

Local Open Scope result_scope.

Variable h : heap.
Variable now : Qc.

Lemma queues_ret {A} (a : A) : queues (ret a).
Proof. intros m. cbn. by rewrite app_nil_r. Qed.

Lemma queues_lift {A} (r : result A) : queues (lift r).
Proof. intros m. cbn. by rewrite app_nil_r. Qed.

Lemma queues_getattr {A} (f : Meter BatchAdapter -> A) : queues (getattr f).
Proof. intros m. cbn. by rewrite app_nil_r. Qed.

Lemma queues_setattr (f : Meter BatchAdapter -> Meter BatchAdapter) :
  (forall m, service (f m) = service m) -> queues (setattr f).
Proof. intros Hf m. cbn. by rewrite Hf, app_nil_r. Qed.

Lemma queues_service_PostEvent (e : Event) : queues (service_PostEvent e).
Proof. by intros m. Qed.

Lemma queues_bind {A B} (c : method BatchAdapter A)
    (k : A -> method BatchAdapter B) :
  queues c -> (forall a, queues (k a)) -> queues (bind c k).
Proof.
  intros Hc Hk m. unfold bind. specialize (Hc m).
  destruct (c m) as [[a|e] m1 p]; cbn in *; [|done].
  specialize (Hk a m1).
  destruct (k a m1) as [r m2 p']; cbn in *.
  by rewrite Hk, Hc, app_assoc.
Qed.

Ltac queues_step :=
  first
    [ apply queues_ret | apply queues_lift | apply queues_getattr
    | apply queues_setattr; intros []; reflexivity
    | apply queues_service_PostEvent
    | apply queues_bind; [|intros ?]
    | match goal with
      | |- queues (match ?x with _ => _ end) => destruct x
      | |- queues (if ?x then _ else _) => destruct x
      end ].

Lemma queues_PostRegisterReading q u t :
  queues (PostRegisterReading h now q u t).
Proof. unfold PostRegisterReading, PostDur, PostInst. repeat queues_step. Qed.

Lemma queues_PostIntervalReading q u s e :
  queues (PostIntervalReading h now q u s e).
Proof. unfold PostIntervalReading, PostDur, PostInst. repeat queues_step. Qed.

(** X15.  On a meter whose service is a [BatchAdapter], after a reading,
    whether it returned or raised, the queue of the adapter holds the
    events it held before, then the events the call posted, in order:
    nothing is dropped, reordered or queued twice. *)
Theorem batch_adapter_queues_posted_events (m : Meter BatchAdapter)
    (q : Quantity) (u : option Quantity) (t s e : option Qc) :
  events (service (self_after (PostRegisterReading h now q u t m)))
    = events (service m) ++ posted (PostRegisterReading h now q u t m) /\
  events (service (self_after (PostIntervalReading h now q u s e m)))
    = events (service m) ++ posted (PostIntervalReading h now q u s e m).
Proof.
  split.
  - apply queues_PostRegisterReading.
  - apply queues_PostIntervalReading.
Qed.

(** X16.  On a meter whose service is a [BatchAdapter] and whose register
    is in kilowatt-hours, [PostRegisterReading] raises only what the
    conversion of the reading to kilowatt-hours raises, and returns when
    the conversion does, durational or not. *)
Theorem batch_adapter_register_reading_returns (m : Meter BatchAdapter)
    (q : Quantity) (u : option Quantity) (t : option Qc) :
  register_in_kWh m ->
  returned (PostRegisterReading h now q u t m)
  = let! _ := ConvertTo h q KILOWATT_HOUR in Ok ().
Proof.
  intros Hm. run_method.
  destruct (ConvertTo h q KILOWATT_HOUR) as [nr|] eqn:Hq; step; [|done].
  destruct (durational m), (last_read_time m) as [l|]; try reflexivity.
  unfold Quantity__sub__, getattr_ConvertTo.
  destruct (register_in_kilowatt_hours h q nr (register m) Hq Hm) as [_ ->].
  reflexivity.
Qed.

End Queue.

Lemma instantaneous_register_reading_witness :
  exists nr,
    ConvertTo loaded (joules 7200000) KILOWATT_HOUR = Ok nr /\
    posted (PostRegisterReading loaded 0 (joules 7200000) None (at_time 60)
              (example_meter false None)) =
      [InstMeasurement "/user/1/example.com/variable/v" (Qc_of_Z 60)
         (PQuantity nr) 1 (PQuantity (kWh 1)) true] /\
    register (self_after (PostRegisterReading loaded 0 (joules 7200000) None
                            (at_time 60) (example_meter false None))) = nr /\
    last_read_time
      (self_after (PostRegisterReading loaded 0 (joules 7200000) None
                     (at_time 60) (example_meter false None)))
      = Some (Qc_of_Z 60).
Proof.
  exact (@instantaneous_register_reading _ BatchAdapter_Poster loaded 0
           (example_meter false None) (joules 7200000) None (at_time 60)
           eq_refl ltac:(vm_compute; reflexivity)).
Defined.

Lemma first_interval_reading_without_start_witness :
  PostIntervalReading loaded 0 (kWh 2) None None (at_time 60)
    (example_meter true None)
  = mkOutcome (Raise TypeError) (example_meter true None) [].
Proof.
  exact (proj1 (@first_interval_reading_without_start _ BatchAdapter_Poster
           loaded 0 (example_meter true None) (kWh 2) None (at_time 60)
           eq_refl) eq_refl).
Defined.

Lemma register_stays_in_kWh_witness :
  register_in_kWh (self_after (Reset (example_meter true None))) /\
  register_in_kWh
    (self_after (PostRegisterReading loaded 0 (seconds 1) None None
                   (example_meter true None))) /\
  register_in_kWh
    (self_after (PostIntervalReading loaded 0 (seconds 1) None (at_time 1)
                   None (example_meter true None))).
Proof.
  exact (proj2 (@register_stays_in_kWh _ BatchAdapter_Poster loaded 0
           (mkBatchAdapter []) (Path "") (kWh 1) 1 true None
           (example_meter true None) (seconds 1) None None (at_time 1) None)
           eq_refl).
Defined.

Lemma durational_interval_reading_witness :
  posted (PostIntervalReading loaded 0 (watts 2000) None None (at_time 3700)
            (example_meter true (at_time 100))) =
    [DurMeasurement "/user/1/example.com/variable/v" (Qc_of_Z 100)
       (Qc_of_Z 3700)
       (PQuantity (mkQuantity (Qc_of_Z 2000 * (Qc_of_Z 3700 - Qc_of_Z 100))
                     JOULE))
       1 1 (PQuantity (kWh 1))].
Proof.
  exact (proj1 (@durational_interval_reading _ BatchAdapter_Poster 0
           (example_meter true (at_time 100)) (watts 2000) None None
           (at_time 3700) (Qc_of_Z 100) eq_refl eq_refl eq_refl
           ltac:(by_compute) ltac:(vm_compute; reflexivity))
         (Qc_of_Z 2000) eq_refl).
Defined.

Lemma interval_reading_advances_register_witness :
  register (self_after (PostIntervalReading loaded 0 (watts 2000) None None
                          (at_time 3700) (example_meter false (at_time 100))))
  = mkQuantity (Qc_of_Z 5
                + Qc_of_Z 2000 * (Qc_of_Z 3700 - Qc_of_Z 100)
                  / Qc_of_Z (3600 * 1000)) KILOWATT_HOUR.
Proof.
  exact (proj1 (@interval_reading_advances_register _ BatchAdapter_Poster 0
           (example_meter false (at_time 100)) (watts 2000) None None
           (at_time 3700) (Qc_of_Z 100) eq_refl eq_refl
           ltac:(by_compute) ltac:(vm_compute; reflexivity))
         (Qc_of_Z 2000) eq_refl).
Defined.

Lemma batch_adapter_register_reading_returns_witness :
  returned (PostRegisterReading loaded 0 (seconds 1) None (at_time 60)
              (example_meter true (at_time 0)))
  = Raise AssertionError.
Proof.
  rewrite (batch_adapter_register_reading_returns loaded 0
             (example_meter true (at_time 0)) (seconds 1) None (at_time 60)
             eq_refl).
  by_compute.
Defined.

(** ** Writing timestamps and reading them back *)
Section Formatting.

Local Open Scope char_scope.
Local Open Scope Z_scope.

Lemma digit_char_spec (d : Z) :
  0 <= d <= 9 ->
  is_digit (digit_char d) = true /\ digit_value (digit_char d) = d.
Proof.
  intros Hd.
  assert (Hcases : d = 0 \/ d = 1 \/ d = 2 \/ d = 3 \/ d = 4 \/ d = 5 \/
                   d = 6 \/ d = 7 \/ d = 8 \/ d = 9) by lia.
  repeat (destruct Hcases as [->|Hcases]; [by vm_compute|]).
  subst d. by vm_compute.
Qed.

Lemma decimal_snoc (s : str) (c : ascii) :
  decimal (s ++ [c]) = decimal s * 10 + digit_value c.
Proof. unfold decimal. by rewrite foldl_app. Qed.

Lemma decimal_digits_spec (fuel : nat) : forall n : Z,
  0 <= n < 10 ^ Z.of_nat fuel ->
  digits_only (decimal_digits fuel n) /\
  decimal (decimal_digits fuel n) = n /\
  forall k : nat, n < 10 ^ Z.of_nat k -> (1 <= k)%nat ->
    (length (decimal_digits fuel n) <= k)%nat.
Proof.
  induction fuel as [|fuel IH]; intros n Hn.
  { cbn in Hn. assert (n = 0) as -> by lia.
    split; [done|]. split; [done|]. intros k _ _. cbn. lia. }
  cbn [decimal_digits].
  destruct (Z.ltb_spec n 10) as [Hlt|Hge].
  - rewrite Z.mod_small by lia. cbn [app].
    destruct (digit_char_spec n ltac:(lia)) as [Hd Hv].
    split; [|split].
    + unfold digits_only. cbn [forallb]. by rewrite Hd.
    + unfold decimal. cbn [foldl]. lia.
    + intros k _ Hk. cbn [length]. lia.
  - assert (Hdiv : 0 <= n / 10 < 10 ^ Z.of_nat fuel).
    { split; [apply Z.div_pos; lia|].
      apply Z.div_lt_upper_bound; [lia|].
      rewrite Nat2Z.inj_succ, Z.pow_succ_r in Hn by lia. lia. }
    destruct (IH (n / 10) Hdiv) as (Hd & Hv & Hl).
    destruct (digit_char_spec (n mod 10)) as [Hd0 Hv0].
    { pose proof (Z.mod_pos_bound n 10). lia. }
    split; [|split].
    + apply digits_only_app; [done|].
      unfold digits_only. cbn [forallb]. by rewrite Hd0.
    + rewrite decimal_snoc, Hv, Hv0.
      pose proof (Z.div_mod n 10). lia.
    + intros k Hk Hk1. rewrite length_app. cbn [length].
      destruct k as [|k]; [lia|]. destruct k as [|k].
      { change (10 ^ Z.of_nat 1) with 10 in Hk. lia. }
      assert ((length (decimal_digits fuel (n / 10)) <= Datatypes.S k)%nat);
        [|lia].
      apply Hl; [|lia].
      apply Z.div_lt_upper_bound; [lia|].
      rewrite (Nat2Z.inj_succ (Datatypes.S k)), Z.pow_succ_r in Hk by lia.
      lia.
Qed.

Lemma str_of_nat_spec (n : Z) (k : nat) :
  0 <= n < 10 ^ Z.of_nat k -> (1 <= k)%nat ->
  digits_only (str_of_nat n) /\ decimal (str_of_nat n) = n /\
  (length (str_of_nat n) <= k)%nat.
Proof.
  intros Hn Hk. unfold str_of_nat.
  destruct (decimal_digits_spec (Datatypes.S (Z.to_nat (Z.log2 n))) n)
    as (Hd & Hv & Hl).
  { split; [lia|].
    rewrite Nat2Z.inj_succ, Z2Nat.id by apply Z.log2_nonneg.
    destruct (Z.eq_dec n 0) as [->|Hn0]; [vm_compute; reflexivity|].
    pose proof (Z.log2_spec n ltac:(lia)) as [_ Hlog].
    eapply Z.lt_le_trans; [exact Hlog|].
    apply Z.pow_le_mono_l. pose proof (Z.log2_nonneg n). lia. }
  split; [done|]. split; [done|]. apply Hl; [apply Hn|done].
Qed.

Lemma repeat_zero_digits (m : nat) :
  digits_only (repeat "0" m) /\ decimal (repeat "0" m) = 0.
Proof.
  induction m as [|m [IHd IHv]]; [done|].
  split.
  - unfold digits_only in *. cbn [repeat forallb]. by rewrite IHd.
  - change (repeat "0" (Datatypes.S m)) with (["0"] ++ repeat "0" m).
    rewrite decimal_app, IHv. by vm_compute.
Qed.

Lemma format_d_spec (w : nat) (n : Z) :
  0 <= n < 10 ^ Z.of_nat w -> (1 <= w)%nat ->
  n_digits w (format_d w n) /\ decimal (format_d w n) = n.
Proof.
  intros Hn Hw. unfold format_d.
  destruct (Z.ltb_spec n 0) as [?|_]; [lia|].
  rewrite Z.abs_eq by lia.
  destruct (str_of_nat_spec n w Hn Hw) as (Hd & Hv & Hl).
  destruct (repeat_zero_digits (w - length (str_of_nat n))) as [Hzd Hzv].
  split; [split|].
  - rewrite length_app, repeat_length. lia.
  - by apply digits_only_app.
  - rewrite decimal_app, Hzv, Hv. lia.
Qed.


Lemma decimal_digits_nonempty (fuel : nat) (n : Z) :
  decimal_digits (Datatypes.S fuel) n <> [].
Proof. cbn [decimal_digits]. by destruct (if (n <? 10) then _ else _). Qed.

(** Whatever the width, the digits of a number not negative. *)
Lemma format_d_digits (w : nat) (n : Z) :
  0 <= n ->
  digits_only (format_d w n) /\ decimal (format_d w n) = n /\
  format_d w n <> [].
Proof.
  intros Hn. unfold format_d.
  destruct (Z.ltb_spec n 0) as [?|_]; [lia|].
  rewrite Z.abs_eq by lia.
  destruct (str_of_nat_spec n (Datatypes.S (Z.to_nat n))) as (Hd & Hv & _);
    [|lia|].
  { split; [done|]. rewrite Nat2Z.inj_succ, Z2Nat.id by done.
    pose proof (Z.pow_gt_lin_r 10 n ltac:(lia) Hn).
    rewrite Z.pow_succ_r by done. lia. }
  destruct (repeat_zero_digits (w - length (str_of_nat n))) as [Hzd Hzv].
  split; [by apply digits_only_app|]. split.
  - rewrite decimal_app, Hzv, Hv. lia.
  - intros Happ. apply app_eq_nil in Happ as [_ Hnil].
    by apply (decimal_digits_nonempty _ _ Hnil).
Qed.

End Formatting.
Section Canonical.

Local Open Scope char_scope.
Local Open Scope result_scope.

Variable timegm : list Z -> result Z.

Lemma split_on_app sep (a b : str) :
  is_digit sep = false -> digits_only a ->
  split_on sep (a ++ sep :: b) = a :: split_on sep b.
Proof.
  unfold digits_only. intros Hsep. induction a as [|c a IH].
  - intros _. cbn [app split_on]. by rewrite Ascii.eqb_refl.
  - cbn [forallb split_on app]. intros Ha.
    apply andb_true_iff in Ha as [Hc Ha].
    by rewrite (IH Ha), (digit_not_separator sep c Hsep Hc).
Qed.

(** The groups of a timestamp written in full, with three digits of
    milliseconds. *)
Lemma re_match_full (Y M D h m s ms z : str) (zg : str) (zmg : option str) :
  n_digits 4 Y -> n_digits 2 M -> n_digits 2 D -> n_digits 2 h ->
  n_digits 2 m -> n_digits 2 s -> digits_only ms ->
  no_digit_first z ->
  match_zone z = Some (zg, zmg) ->
  re_match (Y ++ "-" :: M ++ "-" :: D ++ "T" :: h ++ ":" :: m ++ ":" :: s
              ++ "." :: ms ++ z)
  = Some (mkGroups Y M D h m (Some (s ++ "." :: ms)) zg zmg).
Proof.
  intros HY HM HD Hh Hm Hs Hms Hz Hzone. unfold re_match.
  rewrite (digits_complete 4 Y _ HY). cbn [mbind option_bind].
  rewrite lit_same. cbn [mbind option_bind].
  rewrite (digits_complete 2 M _ HM). cbn [mbind option_bind].
  rewrite lit_same. cbn [mbind option_bind].
  rewrite (digits_complete 2 D _ HD). cbn [mbind option_bind].
  rewrite lit_same. cbn [mbind option_bind].
  rewrite (digits_complete 2 h _ Hh). cbn [mbind option_bind].
  rewrite lit_same. cbn [mbind option_bind].
  rewrite (digits_complete 2 m _ Hm). cbn [mbind option_bind].
  unfold match_second. rewrite lit_same. cbn [mbind option_bind].
  rewrite (digits_complete 2 s _ Hs). cbn [mbind option_bind].
  unfold optional. rewrite lit_same.
  rewrite (many_digits_stop ms z Hms Hz).
  rewrite Hzone. cbn [mbind option_bind]. reflexivity.
Qed.

Lemma FromTimestamp_full (timestamp : string) (Y M D h m s ms z zg : str)
    (zmg : option str) :
  remove_whitespace timestamp
    = Y ++ "-" :: M ++ "-" :: D ++ "T" :: h ++ ":" :: m ++ ":" :: s
        ++ "." :: ms ++ z ->
  n_digits 4 Y -> n_digits 2 M -> n_digits 2 D -> n_digits 2 h ->
  n_digits 2 m -> n_digits 2 s -> n_digits 3 ms ->
  no_digit_first z ->
  match_zone z = Some (zg, zmg) ->
  FromTimestamp timegm timestamp =
    let! zone_offset := zone_offset_of zg zmg in
    let! seconds :=
      timegm [decimal Y; decimal M; decimal D; decimal h; decimal m;
              decimal s] in
    let! number :=
      float_of_long ((seconds - zone_offset) * 1000 + decimal ms) in
    Ok (number * milli).
Proof.
  intros Hts HY HM HD Hh Hm Hs Hms Hz Hzone.
  unfold FromTimestamp. rewrite Hts.
  rewrite (re_match_full Y M D h m s ms z zg zmg HY HM HD Hh Hm Hs
             (proj2 Hms) Hz Hzone).
  assert (Hsne : exists c s', s = c :: s').
  { destruct Hs as [Hlen _]. destruct s; [done|]. by eexists _, _. }
  destruct Hsne as (c & s' & Hcs).
  assert (Hor : str_or (Some (s ++ "." :: ms)) ["0"] = s ++ "." :: ms).
  { by rewrite Hcs. }
  rewrite Hor, (split_on_app "." s ms eq_refl (proj2 Hs)).
  cbn [item lookup list_lookup rbind].
  unfold milliseconds_of.
  replace (truthy_str (Some (s ++ "." :: ms))) with true by (by rewrite Hcs).
  cbn [default from_option id andb].
  assert (Hin : contains_char "." (s ++ "." :: ms) = true).
  { unfold contains_char. rewrite existsb_app. cbn [existsb].
    rewrite Ascii.eqb_refl. by rewrite orb_true_r. }
  rewrite Hin, (split_on_app "." s ms eq_refl (proj2 Hs)).
  rewrite (split_on_digits "." ms eq_refl (proj2 Hms)).
  cbn [item lookup list_lookup rbind].
  assert (Htake : take 3 (ms ++ ["0"; "0"; "0"]) = ms).
  { rewrite take_app_le by (rewrite (proj1 Hms); lia).
    apply take_ge. rewrite (proj1 Hms). lia. }
  rewrite Htake, (int_n_digits 2 ms Hms). cbn [rbind map_int].
  rewrite (int_n_digits 3 Y HY), (int_n_digits 1 M HM),
    (int_n_digits 1 D HD), (int_n_digits 1 h Hh), (int_n_digits 1 m Hm),
    (int_n_digits 1 s Hs).
  cbn [rbind]. reflexivity.
Qed.

End Canonical.
Section Truncation.

Lemma int_of_number_floor (x : Qc) : 0 <= x -> int_of_number x = Qfloor x.
Proof.
  intros Hx. unfold int_of_number, Qfloor. destruct x as [[p q] Hc].
  cbn [this Qnum Qden]. apply Z.quot_div_nonneg; [|lia].
  unfold Qcle, Qle in Hx. cbn [this Qnum Qden] in Hx.
  change (Qnum (this 0)) with 0%Z in Hx.
  change (QDen (this 0)) with 1%Z in Hx. lia.
Qed.

Lemma int_of_number_bounds (x : Qc) :
  0 <= x ->
  (inject_Z (int_of_number x) <= x)%Q /\
  (x < inject_Z (int_of_number x + 1))%Q.
Proof.
  intros Hx. rewrite (int_of_number_floor x Hx).
  split; [apply Qfloor_le|apply Qlt_floor].
Qed.

Lemma milliseconds_range (t : Qc) :
  0 <= t ->
  (0 <= int_of_number (t * Qc_of_Z 1000) - int_of_number t * 1000 < 1000)%Z.
Proof.
  intros Ht.
  assert (Ht' : 0 <= t * Qc_of_Z 1000).
  { replace 0 with (0 * Qc_of_Z 1000) by ring.
    apply Qcmult_le_compat_r; [done|]. by_compute. }
  destruct (int_of_number_bounds t Ht) as [Hlo Hhi].
  destruct (int_of_number_bounds _ Ht') as [Hlo' Hhi'].
  assert (Hq : (this (t * Qc_of_Z 1000) == this t * inject_Z 1000)%Q).
  { cbn [Qcmult Q2Qc this]. rewrite Qred_correct. reflexivity. }
  rewrite Hq in Hlo', Hhi'.
  set (f := int_of_number t) in *.
  set (g := int_of_number (t * Qc_of_Z 1000)) in *.
  assert (H1 : (inject_Z (f * 1000) <= this t * inject_Z 1000)%Q).
  { rewrite inject_Z_mult. apply Qmult_le_compat_r; [done|]. done. }
  assert (H2 : (this t * inject_Z 1000 < inject_Z ((f + 1) * 1000))%Q).
  { rewrite inject_Z_mult. apply Qmult_lt_compat_r; [done|]. done. }
  assert (H3 : (inject_Z (f * 1000) < inject_Z (g + 1))%Q).
  { eapply Qle_lt_trans; [exact H1|exact Hhi']. }
  assert (H4 : (inject_Z g < inject_Z ((f + 1) * 1000))%Q).
  { eapply Qle_lt_trans; [exact Hlo'|exact H2]. }
  rewrite <- Zlt_Qlt in H3, H4. lia.
Qed.


Lemma this_Qc_of_Z (k : Z) : (this (Qc_of_Z k) == inject_Z k)%Q.
Proof. exact (Qeq_refl (inject_Z k)). Qed.

Lemma int_of_number_spec (x : Qc) :
  0 <= x ->
  Qc_of_Z (int_of_number x) <= x /\ x < Qc_of_Z (int_of_number x + 1).
Proof.
  intros Hx. destruct (int_of_number_bounds x Hx) as [Hlo Hhi].
  unfold Qcle, Qclt. by rewrite !this_Qc_of_Z.
Qed.

Lemma int_of_number_unique (x : Qc) (k : Z) :
  Qc_of_Z k <= x -> x < Qc_of_Z (k + 1) -> (0 <= k)%Z ->
  int_of_number x = k.
Proof.
  intros Hlo Hhi Hk.
  assert (Hx : 0 <= x).
  { eapply Qcle_trans; [|exact Hlo]. rewrite <- Z2Qc_inj_0.
    apply (proj1 (Z2Qc_inj_le 0 k)). lia. }
  destruct (int_of_number_spec x Hx) as [Hlo' Hhi'].
  assert (H1 : Qc_of_Z k < Qc_of_Z (int_of_number x + 1)).
  { eapply Qcle_lt_trans; [exact Hlo|exact Hhi']. }
  assert (H2 : Qc_of_Z (int_of_number x) < Qc_of_Z (k + 1)).
  { eapply Qcle_lt_trans; [exact Hlo'|exact Hhi]. }
  apply (proj2 (Z2Qc_inj_lt _ _)) in H1, H2. lia.
Qed.

Lemma int_of_number_Z (k : Z) : (0 <= k)%Z -> int_of_number (Qc_of_Z k) = k.
Proof.
  intros Hk. apply int_of_number_unique; [apply Qcle_refl| |done].
  apply (proj1 (Z2Qc_inj_lt _ _)). lia.
Qed.

Lemma int_of_number_add (x : Qc) (n : Z) :
  0 <= x -> 0 <= x + Qc_of_Z n ->
  int_of_number (x + Qc_of_Z n) = (int_of_number x + n)%Z.
Proof.
  intros Hx Hxn. destruct (int_of_number_spec x Hx) as [Hlo Hhi].
  assert (Hhi' : x + Qc_of_Z n < Qc_of_Z (int_of_number x + n + 1)).
  { replace (int_of_number x + n + 1)%Z with (int_of_number x + 1 + n)%Z
      by lia.
    rewrite Z2Qc_inj_add. by apply (proj1 (Qcplus_lt_mono_r _ _ _)). }
  apply int_of_number_unique.
  - rewrite Z2Qc_inj_add. by apply (proj1 (Qcplus_le_mono_r _ _ _)).
  - exact Hhi'.
  - assert (H0 : Qc_of_Z 0 < Qc_of_Z (int_of_number x + n + 1)).
    { rewrite Z2Qc_inj_0. eapply Qcle_lt_trans; [exact Hxn|exact Hhi']. }
    apply (proj2 (Z2Qc_inj_lt _ _)) in H0. lia.
Qed.

Lemma int_of_number_div (a b : Z) :
  (0 <= a)%Z -> (0 < b)%Z ->
  int_of_number (Qc_of_Z a / Qc_of_Z b) = (a / b)%Z.
Proof.
  intros Ha Hb.
  assert (Hq : (this (Qc_of_Z a / Qc_of_Z b)%Qc == a # Z.to_pos b)%Q).
  { unfold Qcdiv, Qcmult, Qcinv. cbn [Q2Qc this].
    rewrite !Qred_correct, Qmake_Qdiv.
    by rewrite Z2Pos.id. }
  rewrite int_of_number_floor.
  - rewrite (Qfloor_comp _ _ Hq). cbn [Qfloor]. by rewrite Z2Pos.id.
  - unfold Qcle. rewrite Hq. change (this 0) with (0 # 1)%Q.
    unfold Qle. cbn [Qnum Qden]. lia.
Qed.

Lemma Qfloor_div (a b : Z) :
  (0 < b)%Z -> Qfloor (Qc_of_Z a / Qc_of_Z b) = (a / b)%Z.
Proof.
  intros Hb.
  assert (Hq : (this (Qc_of_Z a) / this (Qc_of_Z b) == a # Z.to_pos b)%Q).
  { cbn [Qc_of_Z this]. rewrite Qmake_Qdiv. by rewrite Z2Pos.id. }
  rewrite (Qfloor_comp _ _ Hq). cbn [Qfloor]. by rewrite Z2Pos.id.
Qed.

End Truncation.
Section RoundTrip.

Local Open Scope char_scope.
Local Open Scope result_scope.

Variable gmtime : Qc -> result (list Z).
Variable timegm : list Z -> result Z.

Lemma digit_not_space c : is_digit c = true -> is_space c = false.
Proof.
  unfold is_digit, is_space. intros Hc.
  apply andb_true_iff in Hc as [Hlo Hhi].
  apply Nat.leb_le in Hlo, Hhi.
  apply orb_false_iff. split.
  - apply Nat.eqb_neq. lia.
  - apply andb_false_iff. right. apply Nat.leb_gt. lia.
Qed.

Lemma no_space_digits (s : str) : digits_only s -> no_space s.
Proof.
  unfold digits_only, no_space. induction s as [|c s IH]; [done|].
  cbn [forallb]. intros Hs. apply andb_true_iff in Hs as [Hc Hs].
  by rewrite (digit_not_space c Hc), (IH Hs).
Qed.

Lemma no_space_app (a b : str) : no_space a -> no_space b -> no_space (a ++ b).
Proof. unfold no_space. intros Ha Hb. by rewrite forallb_app, Ha, Hb. Qed.

Lemma no_space_cons c (s : str) :
  is_space c = false -> no_space s -> no_space (c :: s).
Proof. unfold no_space. cbn [forallb]. by intros -> ->. Qed.

Lemma remove_whitespace_no_space (s : str) :
  no_space s -> remove_whitespace (string_of_list_ascii s) = s.
Proof.
  intros Hs. rewrite remove_whitespace_filter.
  rewrite list_ascii_of_string_of_list_ascii.
  unfold no_space in Hs. induction s as [|c s IH]; [done|].
  cbn [forallb] in Hs. apply andb_true_iff in Hs as [Hc Hs].
  cbn [List.filter]. rewrite Hc. by rewrite (IH Hs).
Qed.

(** X17.  [FromTimestamp] undoes [ToTimestamp], to the millisecond: for a
    time [t] not negative whose fields, as [time.gmtime] gives them, fit
    the widths of the format, and which [calendar.timegm] takes back to the
    whole seconds of [t], [ToTimestamp] returns a timestamp and
    [FromTimestamp] reads it as [t] cut to whole milliseconds (in exact
    arithmetic), the number of milliseconds being converted to a float:
    within the range of floats it returns that time. *)
Theorem FromTimestamp_ToTimestamp (t : Qc)
    (year month day hour minute second : Z) (rest : list Z) :
  0 <= t ->
  gmtime t = Ok (year :: month :: day :: hour :: minute :: second :: rest) ->
  (0 <= year < 10000)%Z -> (0 <= month < 100)%Z -> (0 <= day < 100)%Z ->
  (0 <= hour < 100)%Z -> (0 <= minute < 100)%Z -> (0 <= second < 100)%Z ->
  timegm [year; month; day; hour; minute; second] = Ok (int_of_number t) ->
  exists timestamp,
    ToTimestamp gmtime t = Ok timestamp /\
    FromTimestamp timegm timestamp
      = let! number := float_of_long (int_of_number (t * Qc_of_Z 1000)) in
        Ok (number * milli).
Proof.
  intros Ht Hg HY HM HD Hh Hm Hs Htimegm.
  unfold ToTimestamp. rewrite Hg. cbn [rbind take].
  eexists. split; [reflexivity|].
  set (ms := (int_of_number (t * Qc_of_Z 1000) - int_of_number t * 1000)%Z).
  pose proof (milliseconds_range t Ht) as Hms. fold ms in Hms.
  destruct (format_d_spec 4 year HY ltac:(lia)) as [HfY HvY].
  destruct (format_d_spec 2 month HM ltac:(lia)) as [HfM HvM].
  destruct (format_d_spec 2 day HD ltac:(lia)) as [HfD HvD].
  destruct (format_d_spec 2 hour Hh ltac:(lia)) as [Hfh Hvh].
  destruct (format_d_spec 2 minute Hm ltac:(lia)) as [Hfm Hvm].
  destruct (format_d_spec 2 second Hs ltac:(lia)) as [Hfs Hvs].
  destruct (format_d_spec 3 ms Hms ltac:(lia)) as [Hfms Hvms].
  rewrite (FromTimestamp_full timegm _ (format_d 4 year) (format_d 2 month)
             (format_d 2 day) (format_d 2 hour) (format_d 2 minute)
             (format_d 2 second) (format_d 3 ms) ["Z"] ["Z"] None);
    try done.
  - rewrite HvY, HvM, HvD, Hvh, Hvm, Hvs, Hvms, Htimegm.
    change (zone_offset_of ["Z"] None) with (Ok 0%Z : result Z).
    cbn [rbind]. do 2 f_equal. unfold ms. lia.
  - apply remove_whitespace_no_space.
    pose proof (fun w s (Hd : n_digits w s) => no_space_digits s (proj2 Hd))
      as Hns.
    repeat first
      [ apply no_space_app; [by eapply Hns|]
      | apply no_space_cons; [reflexivity|] ].
    reflexivity.
Qed.


Lemma replace_char_app old new (a b : str) :
  replace_char old new (a ++ b)
  = replace_char old new a ++ replace_char old new b.
Proof. unfold replace_char. apply flat_map_app. Qed.

Lemma replace_char_digits old new (s : str) :
  is_digit old = false -> digits_only s -> replace_char old new s = s.
Proof.
  unfold digits_only, replace_char. intros Hold.
  induction s as [|c s IH]; [done|].
  cbn [forallb flat_map]. intros Hs. apply andb_true_iff in Hs as [Hc Hs].
  by rewrite (digit_not_separator old c Hold Hc), (IH Hs).
Qed.

Lemma replace_char_cons old new c (s : str) :
  Ascii.eqb c old = false ->
  replace_char old new (c :: s) = c :: replace_char old new s.
Proof. unfold replace_char. cbn [flat_map]. by intros ->. Qed.

(** A zone written as a sign, hours, a colon and two digits of minutes. *)
Lemma match_zone_signed (sign : ascii) (hh mm : str) :
  sign = "-" \/ sign = "+" ->
  digits_only hh -> hh <> [] -> n_digits 2 mm ->
  match_zone (sign :: hh ++ ":" :: mm)
    = Some (sign :: hh ++ [":"] ++ mm, Some mm) /\
  zone_offset_of (sign :: hh ++ [":"] ++ mm) (Some mm)
    = Ok (if Ascii.eqb sign "-"
          then (- (decimal hh * 3600 + decimal mm * 60))%Z
          else (decimal hh * 3600 + decimal mm * 60)%Z).
Proof.
  intros Hsign Hhh Hne Hmm. split.
  - unfold match_zone.
    replace (Ascii.eqb sign "Z") with false by (by destruct Hsign as [->| ->]).
    replace (Ascii.eqb sign "-" || Ascii.eqb sign "+") with true
      by (by destruct Hsign as [->| ->]).
    rewrite (many_digits_stop hh (":" :: mm) Hhh eq_refl).
    destruct hh as [|d hh]; [done|].
    unfold optional. rewrite lit_same.
    rewrite <- (app_nil_r mm) at 1.
    rewrite (digits_complete 2 mm [] Hmm). reflexivity.
  - unfold zone_offset_of. cbn [item lookup list_lookup rbind].
    replace (Ascii.eqb sign "Z") with false by (by destruct Hsign as [->| ->]).
    change (drop 1 (sign :: hh ++ [":"] ++ mm)) with (hh ++ ":" :: mm).
    rewrite (split_on_app ":" hh mm eq_refl Hhh).
    cbn [item lookup list_lookup rbind].
    rewrite (int_digits hh Hne Hhh). cbn [rbind].
    destruct mm as [|m1 mm'] eqn:Emm; [by destruct Hmm|].
    cbn [int_or_0]. rewrite <- Emm in *.
    rewrite (int_n_digits 1 mm Hmm). reflexivity.
Qed.

(** X18.  [FromTimestamp] undoes [ToTimestampWithZone] as well, when the
    offset is a whole number of minutes: the hours and minutes written in
    the zone are taken off again, and the time read is [t] cut to whole
    milliseconds, whatever the offset, its sign and the number of digits of
    its hours; as for [ToTimestamp], the number of milliseconds is
    converted to a float. *)
Theorem FromTimestamp_ToTimestampWithZone (t offset_hours : Qc)
    (zone_minutes : Z)
    (year month day hour minute second : Z) (rest : list Z) :
  let offset_time := t + offset_hours * Qc_of_Z 3600 in
  0 <= t ->
  0 <= offset_time ->
  offset_hours * Qc_of_Z 60 = Qc_of_Z zone_minutes ->
  gmtime offset_time
    = Ok (year :: month :: day :: hour :: minute :: second :: rest) ->
  (0 <= year < 10000)%Z -> (0 <= month < 100)%Z -> (0 <= day < 100)%Z ->
  (0 <= hour < 100)%Z -> (0 <= minute < 100)%Z -> (0 <= second < 100)%Z ->
  timegm [year; month; day; hour; minute; second]
    = Ok (int_of_number offset_time) ->
  exists timestamp,
    ToTimestampWithZone gmtime t offset_hours = Ok timestamp /\
    FromTimestamp timegm timestamp
      = let! number := float_of_long (int_of_number (t * Qc_of_Z 1000)) in
        Ok (number * milli).
Proof.
  intros T Ht HT HM Hg HY HMo HD Hh Hm Hs Htimegm.
  unfold ToTimestampWithZone, ToTimestamp. fold T. rewrite Hg.
  cbn [rbind take]. eexists. split; [reflexivity|].
  rewrite list_ascii_of_string_of_list_ascii.
  set (ms := (int_of_number (T * Qc_of_Z 1000) - int_of_number T * 1000)%Z).
  pose proof (milliseconds_range T HT) as Hms. fold ms in Hms.
  destruct (format_d_spec 4 year HY ltac:(lia)) as [HfY HvY].
  destruct (format_d_spec 2 month HMo ltac:(lia)) as [HfM HvM].
  destruct (format_d_spec 2 day HD ltac:(lia)) as [HfD HvD].
  destruct (format_d_spec 2 hour Hh ltac:(lia)) as [Hfh Hvh].
  destruct (format_d_spec 2 minute Hm ltac:(lia)) as [Hfm Hvm].
  destruct (format_d_spec 2 second Hs ltac:(lia)) as [Hfs Hvs].
  destruct (format_d_spec 3 ms Hms ltac:(lia)) as [Hfms Hvms].
  (* The zone. *)
  set (sign := if bool_decide (offset_hours < 0) then "-" else "+").
  assert (Habs : abs offset_hours * Qc_of_Z 60 = Qc_of_Z (Z.abs zone_minutes)
                 /\ (if Ascii.eqb sign "-" then (zone_minutes <= 0)%Z
                     else (0 <= zone_minutes)%Z)).
  { unfold abs, sign.
    destruct (bool_decide_reflect (offset_hours < 0)) as [Hneg|Hpos].
    - assert (Hlt : Qc_of_Z zone_minutes < Qc_of_Z 0).
      { rewrite <- HM, Z2Qc_inj_0.
        replace 0 with (0 * Qc_of_Z 60) by ring.
        apply Qcmult_lt_compat_r; [by_compute|done]. }
      apply (proj2 (Z2Qc_inj_lt _ _)) in Hlt.
      rewrite Z.abs_neq by lia. rewrite Z2Qc_inj_opp, <- HM.
      split; [ring|]. cbn. lia.
    - assert (Hle : Qc_of_Z 0 <= Qc_of_Z zone_minutes).
      { rewrite <- HM, Z2Qc_inj_0.
        replace 0 with (0 * Qc_of_Z 60) by ring.
        apply Qcmult_le_compat_r; [|by_compute].
        by apply Qcnot_lt_le. }
      apply (proj2 (Z2Qc_inj_le _ _)) in Hle.
      rewrite Z.abs_eq by lia. split; [done|]. cbn. lia. }
  destruct Habs as [Habs Hsgn]. rewrite Habs.
  rewrite (int_of_number_div (Z.abs zone_minutes) 60 ltac:(lia) ltac:(lia)).
  assert (Hmod : pymod (Qc_of_Z (Z.abs zone_minutes)) (Qc_of_Z 60)
                 = Qc_of_Z (Z.abs zone_minutes mod 60)).
  { unfold pymod. rewrite (Qfloor_div _ 60 ltac:(lia)).
    rewrite <- Z2Qc_inj_mul, <- Z2Qc_inj_sub. f_equal.
    pose proof (Z.div_mod (Z.abs zone_minutes) 60). lia. }
  rewrite Hmod.
  pose proof (Z.mod_pos_bound (Z.abs zone_minutes) 60 ltac:(lia)) as Hmm.
  rewrite (int_of_number_Z _ (proj1 Hmm)).
  set (hh := (Z.abs zone_minutes / 60)%Z) in *.
  set (mm := (Z.abs zone_minutes mod 60)%Z) in *.
  assert (Hhh : (0 <= hh)%Z) by (apply Z.div_pos; lia).
  destruct (format_d_digits 2 hh Hhh) as (Hfhh & Hvhh & Hnehh).
  destruct (format_d_spec 2 mm ltac:(cbn; lia) ltac:(lia)) as [Hfmm Hvmm].
  assert (Hsign : sign = "-" \/ sign = "+").
  { unfold sign. destruct (bool_decide _); auto. }
  destruct (match_zone_signed sign (format_d 2 hh) (format_d 2 mm) Hsign
              Hfhh Hnehh Hfmm) as [Hzone Hoffset].
  assert (Hrep :
    replace_char "Z" (sign :: format_d 2 hh ++ ":" :: format_d 2 mm)
      (format_d 4 year ++ "-" :: format_d 2 month ++ "-"
       :: format_d 2 day ++ "T" :: format_d 2 hour ++ ":"
       :: format_d 2 minute ++ ":" :: format_d 2 second ++ "."
       :: format_d 3 ms ++ ["Z"])
    = format_d 4 year ++ "-" :: format_d 2 month ++ "-"
      :: format_d 2 day ++ "T" :: format_d 2 hour ++ ":"
      :: format_d 2 minute ++ ":" :: format_d 2 second ++ "."
      :: format_d 3 ms ++ sign :: format_d 2 hh ++ ":" :: format_d 2 mm).
  { pose proof (fun w s (Hd : n_digits w s) =>
                  replace_char_digits "Z"
                    (sign :: format_d 2 hh ++ ":" :: format_d 2 mm) s eq_refl
                    (proj2 Hd)) as Hdig.
    rewrite replace_char_app, (Hdig _ _ HfY), replace_char_cons by done.
    rewrite replace_char_app, (Hdig _ _ HfM), replace_char_cons by done.
    rewrite replace_char_app, (Hdig _ _ HfD), replace_char_cons by done.
    rewrite replace_char_app, (Hdig _ _ Hfh), replace_char_cons by done.
    rewrite replace_char_app, (Hdig _ _ Hfm), replace_char_cons by done.
    rewrite replace_char_app, (Hdig _ _ Hfs), replace_char_cons by done.
    rewrite replace_char_app, (Hdig _ _ Hfms).
    unfold replace_char at 1. cbn [flat_map].
    change (Ascii.eqb "Z" "Z") with true. cbv iota. by rewrite app_nil_r. }
  rewrite Hrep.
  rewrite (FromTimestamp_full timegm _ (format_d 4 year) (format_d 2 month)
             (format_d 2 day) (format_d 2 hour) (format_d 2 minute)
             (format_d 2 second) (format_d 3 ms)
             (sign :: format_d 2 hh ++ ":" :: format_d 2 mm)
             (sign :: format_d 2 hh ++ [":"] ++ format_d 2 mm)
             (Some (format_d 2 mm)));
    [| |done..| |exact Hzone].
  - rewrite Hoffset, HvY, HvM, HvD, Hvh, Hvm, Hvs, Hvms, Htimegm, Hvhh, Hvmm.
    cbn [rbind]. do 2 f_equal.
    assert (HT1000 : T * Qc_of_Z 1000
                     = t * Qc_of_Z 1000 + Qc_of_Z (zone_minutes * 60000)).
    { unfold T. rewrite Z2Qc_inj_mul, <- HM.
      replace (Qc_of_Z 3600) with (Qc_of_Z 60 * Qc_of_Z 60) by by_compute.
      replace (Qc_of_Z 60000) with (Qc_of_Z 60 * Qc_of_Z 1000) by by_compute.
      ring. }
    assert (Ht1000 : 0 <= t * Qc_of_Z 1000).
    { replace 0 with (0 * Qc_of_Z 1000) by ring.
      apply Qcmult_le_compat_r; [done|by_compute]. }
    assert (HT1000' : 0 <= T * Qc_of_Z 1000).
    { replace 0 with (0 * Qc_of_Z 1000) by ring.
      apply Qcmult_le_compat_r; [done|by_compute]. }
    unfold ms. rewrite HT1000 in *.
    rewrite (int_of_number_add _ _ Ht1000 HT1000').
    pose proof (Z.div_mod (Z.abs zone_minutes) 60 ltac:(lia)) as Hdm.
    fold hh mm in Hdm.
    destruct (Ascii.eqb sign "-"); lia.
  - apply remove_whitespace_no_space.
    pose proof (fun w s (Hd : n_digits w s) => no_space_digits s (proj2 Hd))
      as Hns.
    repeat first
      [ apply no_space_app; [by eapply Hns|]
      | apply no_space_cons; [reflexivity|] ].
    apply no_space_cons; [by destruct Hsign as [->| ->]|].
    apply no_space_app; [by apply no_space_digits|].
    apply no_space_cons; [reflexivity|]. by eapply Hns.
  - cbn [no_digit_first]. by destruct Hsign as [->| ->].
Qed.

End RoundTrip.

Lemma FromTimestamp_ToTimestamp_witness :
  exists timestamp,
    ToTimestamp gmtime_2009 (Q2Qc (2461536001 # 2)) = Ok timestamp /\
    FromTimestamp timegm timestamp
      = Ok (Qc_of_Z (int_of_number (Q2Qc (2461536001 # 2) * Qc_of_Z 1000))
            * milli) /\
    float_of_long (int_of_number (Q2Qc (2461536001 # 2) * Qc_of_Z 1000))
      = Ok (Qc_of_Z (int_of_number (Q2Qc (2461536001 # 2) * Qc_of_Z 1000))).
Proof.
  destruct (FromTimestamp_ToTimestamp gmtime_2009 timegm
              (Q2Qc (2461536001 # 2)) 2009 1 1 0 0 0 [3; 1; 0]%Z)
    as (timestamp & Hto & Hfrom);
    [first [by_compute | lia | vm_compute; reflexivity]..|].
  assert (Hfloat :
    float_of_long (int_of_number (Q2Qc (2461536001 # 2) * Qc_of_Z 1000))
    = Ok (Qc_of_Z (int_of_number (Q2Qc (2461536001 # 2) * Qc_of_Z 1000))))
    by by_compute.
  exists timestamp. split; [exact Hto|]. split; [|exact Hfloat].
  rewrite Hfrom, Hfloat. reflexivity.
Defined.

Lemma FromTimestamp_ToTimestampWithZone_witness :
  exists timestamp,
    ToTimestampWithZone gmtime_2009 (Q2Qc (2461496401 # 2)) (Q2Qc (11 # 2))
      = Ok timestamp /\
    FromTimestamp timegm timestamp
      = Ok (Qc_of_Z (int_of_number (Q2Qc (2461496401 # 2) * Qc_of_Z 1000))
            * milli) /\
    float_of_long (int_of_number (Q2Qc (2461496401 # 2) * Qc_of_Z 1000))
      = Ok (Qc_of_Z (int_of_number (Q2Qc (2461496401 # 2) * Qc_of_Z 1000))).
Proof.
  destruct (FromTimestamp_ToTimestampWithZone gmtime_2009 timegm
              (Q2Qc (2461496401 # 2)) (Q2Qc (11 # 2)) 330
              2009 1 1 0 0 0 [3; 1; 0]%Z)
    as (timestamp & Hto & Hfrom);
    [first [by_compute | lia | vm_compute; reflexivity]..|].
  assert (Hfloat :
    float_of_long (int_of_number (Q2Qc (2461496401 # 2) * Qc_of_Z 1000))
    = Ok (Qc_of_Z (int_of_number (Q2Qc (2461496401 # 2) * Qc_of_Z 1000))))
    by by_compute.
  exists timestamp. split; [exact Hto|]. split; [|exact Hfloat].
  rewrite Hfrom, Hfloat. reflexivity.
Defined.

(** ** What [FromTimestamp] lets through *)

Section Leniency.

Local Open Scope char_scope.
Local Open Scope result_scope.

Variable timegm : list Z -> result Z.

(** X19.  [FromTimestamp] reads a timestamp without its whitespace: two
    strings with the same characters apart from whitespace, wherever the
    whitespace stands, give the same time or the same exception. *)
Theorem FromTimestamp_ignores_whitespace (t1 t2 : string) :
  List.filter (fun c => negb (is_space c)) (list_ascii_of_string t1)
  = List.filter (fun c => negb (is_space c)) (list_ascii_of_string t2) ->
  FromTimestamp timegm t1 = FromTimestamp timegm t2.
Proof.
  intros Heq. unfold FromTimestamp.
  by rewrite !remove_whitespace_filter, Heq.
Qed.

Lemma digits_app n : forall (s d s' r : str),
  digits n s = Some (d, s') -> digits n (s ++ r) = Some (d, s' ++ r).
Proof.
  induction n as [|n IH]; intros s d s' r.
  - cbn [digits]. by intros [= <- <-].
  - cbn [digits]. destruct s as [|c s]; [done|]. cbn [app].
    destruct (is_digit c); [|done].
    destruct (digits n s) as [[d0 r0]|] eqn:E; [|done].
    intros [= <- <-]. by rewrite (IH _ _ _ r E).
Qed.

Lemma lit_app c (s s' r : str) :
  lit c s = Some s' -> lit c (s ++ r) = Some (s' ++ r).
Proof.
  destruct s as [|c' s]; [done|]. cbn [lit app].
  destruct (Ascii.eqb c' c); [|done]. by intros [= <-].
Qed.

Lemma many_digits_app : forall (s d s' r : str),
  many_digits s = (d, s') -> s' <> [] ->
  many_digits (s ++ r) = (d, s' ++ r).
Proof.
  induction s as [|c s IH]; intros d s' r.
  - cbn [many_digits]. by intros [= <- <-].
  - cbn [many_digits app]. destruct (is_digit c) eqn:Hc.
    + destruct (many_digits s) as [d0 r0] eqn:E.
      intros [= <- <-] Hne. by rewrite (IH _ _ r eq_refl Hne).
    + by intros [= <- <-] _.
Qed.

Lemma match_zone_Z (s : str) zm :
  match_zone s = Some (["Z"], zm) -> exists s', s = "Z" :: s' /\ zm = None.
Proof.
  unfold match_zone. destruct s as [|c s1]; [done|].
  destruct (Ascii.eqb_spec c "Z") as [->|Hc].
  - intros [= <-]. by eexists.
  - destruct (Ascii.eqb c "-" || Ascii.eqb c "+"); [|done].
    destruct (many_digits s1) as [ds s2]. destruct ds as [|d ds]; [done|].
    destruct (optional ":" s2) as [colon s3].
    destruct (digits 2 s3) as [[mm ?]|]; intros [= -> ?]; done.
Qed.

Lemma match_second_app (s s' r : str) sec :
  match_second s = (sec, s') -> (exists t, s' = "Z" :: t) ->
  match_second (s ++ r) = (sec, s' ++ r).
Proof.
  unfold match_second. intros Hm [t ->].
  destruct (lit ":" s) as [s1|] eqn:E1; cbn [mbind option_bind] in *.
  - rewrite (lit_app _ _ _ r E1). cbn [mbind option_bind].
    destruct (digits 2 s1) as [[dd s2]|] eqn:E2; cbn [mbind option_bind] in *.
    + rewrite (digits_app _ _ _ _ r E2). cbn [mbind option_bind].
      unfold optional in *.
      destruct (lit "." s2) as [s3|] eqn:E3.
      * rewrite (lit_app _ _ _ r E3).
        destruct (many_digits s3) as [ds s4] eqn:E4.
        injection Hm as <- ->.
        by rewrite (many_digits_app _ _ _ r E4).
      * assert (Hl : lit "." (s2 ++ r) = None).
        { destruct s2 as [|c s2].
          - destruct (many_digits []) eqn:E4. cbn in E4.
            injection E4 as <- <-. by injection Hm.
          - cbn [lit app] in *. by destruct (Ascii.eqb c "."). }
        rewrite Hl.
        destruct (many_digits s2) as [ds s4] eqn:E4.
        injection Hm as <- ->.
        by rewrite (many_digits_app _ _ _ r E4).
    + injection Hm as <- ->. apply lit_spec in E1. done.
  - injection Hm as <- ->. cbn [app lit]. reflexivity.
Qed.

Lemma re_match_app (s r : str) (g : groups) :
  re_match s = Some g -> zone g = ["Z"] -> re_match (s ++ r) = Some g.
Proof.
  unfold re_match. intros Hm Hz.
  destruct (digits 4 s) as [[y s1]|] eqn:E1; [|done].
  rewrite (digits_app _ _ _ _ r E1). cbn [mbind option_bind] in *.
  destruct (lit "-" s1) as [s2|] eqn:E2; [|done].
  rewrite (lit_app _ _ _ r E2). cbn [mbind option_bind] in *.
  destruct (digits 2 s2) as [[mo s3]|] eqn:E3; [|done].
  rewrite (digits_app _ _ _ _ r E3). cbn [mbind option_bind] in *.
  destruct (lit "-" s3) as [s4|] eqn:E4; [|done].
  rewrite (lit_app _ _ _ r E4). cbn [mbind option_bind] in *.
  destruct (digits 2 s4) as [[d s5]|] eqn:E5; [|done].
  rewrite (digits_app _ _ _ _ r E5). cbn [mbind option_bind] in *.
  destruct (lit "T" s5) as [s6|] eqn:E6; [|done].
  rewrite (lit_app _ _ _ r E6). cbn [mbind option_bind] in *.
  destruct (digits 2 s6) as [[hh s7]|] eqn:E7; [|done].
  rewrite (digits_app _ _ _ _ r E7). cbn [mbind option_bind] in *.
  destruct (lit ":" s7) as [s8|] eqn:E8; [|done].
  rewrite (lit_app _ _ _ r E8). cbn [mbind option_bind] in *.
  destruct (digits 2 s8) as [[mi s9]|] eqn:E9; [|done].
  rewrite (digits_app _ _ _ _ r E9). cbn [mbind option_bind] in *.
  destruct (match_second s9) as [sec s10] eqn:E10.
  destruct (match_zone s10) as [[z zm]|] eqn:E11; [|done].
  cbn [mbind option_bind] in *. injection Hm as <-. cbn [zone] in Hz.
  subst z. destruct (match_zone_Z _ _ E11) as (t & -> & ->).
  rewrite (match_second_app _ _ r _ E10) by by eexists.
  cbn [app match_zone]. reflexivity.
Qed.

Lemma list_ascii_of_string_app (a b : string) :
  list_ascii_of_string (String.append a b)
  = list_ascii_of_string a ++ list_ascii_of_string b.
Proof.
  induction a as [|c a IH]; [done|].
  change (c :: list_ascii_of_string (String.append a b)
          = c :: (list_ascii_of_string a ++ list_ascii_of_string b)).
  by rewrite IH.
Qed.

(** X20.  Once a timestamp has matched with the zone [Z], whatever text
    follows it is ignored: [FromTimestamp] returns for the longer string
    what it returns for the timestamp. *)
Theorem FromTimestamp_ignores_text_after_Z (timestamp extra : string)
    (g : groups) :
  re_match (remove_whitespace timestamp) = Some g ->
  zone g = ["Z"] ->
  FromTimestamp timegm (String.append timestamp extra)
  = FromTimestamp timegm timestamp.
Proof.
  intros Hm Hz. unfold FromTimestamp.
  assert (Happ : remove_whitespace (String.append timestamp extra)
                 = remove_whitespace timestamp ++ remove_whitespace extra).
  { rewrite !remove_whitespace_filter, list_ascii_of_string_app.
    apply List.filter_app. }
  by rewrite Happ, (re_match_app _ _ g Hm Hz), Hm.
Qed.

End Leniency.

Section ZoneWithoutColon.

Local Open Scope char_scope.
Local Open Scope result_scope.

Variable timegm : list Z -> result Z.

Lemma match_zone_digits (sign : ascii) (ds : str) :
  sign = "-" \/ sign = "+" -> digits_only ds -> ds <> [] ->
  match_zone (sign :: ds) = Some (sign :: ds, None) /\
  zone_offset_of (sign :: ds) None
    = Ok (if Ascii.eqb sign "-" then (- (decimal ds * 3600))%Z
          else (decimal ds * 3600)%Z).
Proof.
  intros Hsign Hds Hne. split.
  - unfold match_zone.
    replace (Ascii.eqb sign "Z") with false by (by destruct Hsign as [->| ->]).
    replace (Ascii.eqb sign "-" || Ascii.eqb sign "+") with true
      by (by destruct Hsign as [->| ->]).
    rewrite <- (app_nil_r ds) at 1.
    rewrite (many_digits_stop ds [] Hds I).
    destruct ds as [|d ds]; [done|].
    cbn [optional lit digits]. by rewrite !app_nil_r.
  - unfold zone_offset_of. cbn [item lookup list_lookup rbind].
    replace (Ascii.eqb sign "Z") with false by (by destruct Hsign as [->| ->]).
    change (drop 1 (sign :: ds)) with ds.
    rewrite (split_on_digits ":" ds eq_refl Hds).
    cbn [item lookup list_lookup rbind].
    rewrite (int_digits ds Hne Hds). cbn [rbind int_or_0].
    f_equal. destruct (Ascii.eqb sign "-"); lia.
Qed.

(** X21.  A zone written as a sign and digits with no colon is read as
    that many hours, however many digits there are: the four digits of
    [+0530] are 530 hours, not five hours and thirty minutes.  The time in
    milliseconds, less these hours, is then converted to a float. *)
Theorem zone_without_colon_is_hours (timestamp : string)
    (Y M D h m s ms ds : str) (sign : ascii) :
  remove_whitespace timestamp
    = Y ++ "-" :: M ++ "-" :: D ++ "T" :: h ++ ":" :: m ++ ":" :: s
        ++ "." :: ms ++ sign :: ds ->
  n_digits 4 Y -> n_digits 2 M -> n_digits 2 D -> n_digits 2 h ->
  n_digits 2 m -> n_digits 2 s -> n_digits 3 ms ->
  sign = "-" \/ sign = "+" -> digits_only ds -> ds <> [] ->
  FromTimestamp timegm timestamp =
    let! seconds :=
      timegm [decimal Y; decimal M; decimal D; decimal h; decimal m;
              decimal s] in
    let zone_offset :=
      if Ascii.eqb sign "-" then (- (decimal ds * 3600))%Z
      else (decimal ds * 3600)%Z in
    let! number :=
      float_of_long ((seconds - zone_offset) * 1000 + decimal ms) in
    Ok (number * milli).
Proof.
  intros Hts HY HM HD Hh Hm Hs Hms Hsign Hds Hne.
  destruct (match_zone_digits sign ds Hsign Hds Hne) as [Hzone Hoffset].
  rewrite (FromTimestamp_full timegm timestamp Y M D h m s ms (sign :: ds)
             (sign :: ds) None Hts HY HM HD Hh Hm Hs Hms);
    [|cbn [no_digit_first]; by destruct Hsign as [->| ->]|exact Hzone].
  by rewrite Hoffset.
Qed.

End ZoneWithoutColon.

Lemma FromTimestamp_ignores_whitespace_witness :
  FromTimestamp timegm "2009-01-01 T 00:00:00 Z"
  = FromTimestamp timegm "2009-01-01T00:00:00Z".
Proof.
  apply (FromTimestamp_ignores_whitespace timegm "2009-01-01 T 00:00:00 Z"
           "2009-01-01T00:00:00Z").
  vm_compute. reflexivity.
Defined.

Lemma FromTimestamp_ignores_text_after_Z_witness :
  FromTimestamp timegm (String.append "2009-01-01T00:00:00Z" "+01:00 or so")
  = FromTimestamp timegm "2009-01-01T00:00:00Z".
Proof.
  apply (FromTimestamp_ignores_text_after_Z timegm "2009-01-01T00:00:00Z"
           "+01:00 or so"
           (mkGroups (list_ascii_of_string "2009") (list_ascii_of_string "01")
              (list_ascii_of_string "01") (list_ascii_of_string "00")
              (list_ascii_of_string "00")
              (Some (list_ascii_of_string "00")) ["Z"%char] None));
    vm_compute; reflexivity.
Defined.

Lemma zone_without_colon_is_hours_witness :
  FromTimestamp timegm "2009-01-01T00:00:00.000+0530"
  = Ok (Qc_of_Z ((1230768000 - 530 * 3600) * 1000 + 0) * milli).
Proof.
  rewrite (zone_without_colon_is_hours timegm "2009-01-01T00:00:00.000+0530"
             (list_ascii_of_string "2009") (list_ascii_of_string "01")
             (list_ascii_of_string "01") (list_ascii_of_string "00")
             (list_ascii_of_string "00") (list_ascii_of_string "00")
             (list_ascii_of_string "000") (list_ascii_of_string "0530")
             "+"%char);
    first [by_compute | by right | done | vm_compute; reflexivity].
Defined.

(** ** Escaping, paths and batches *)

Section Escaping.

Local Open Scope char_scope.

Lemma replace_char_one old new c :
  replace_char old new [c] = if Ascii.eqb c old then new else [c].
Proof.
  unfold replace_char. cbn [flat_map]. by rewrite app_nil_r.
Qed.

(** The three replacements of [HtmlEscape], one after the other, come to
    replacing each character once. *)
Lemma HtmlEscape_flat_map (text : str) :
  HtmlEscape text = flat_map escape_char text.
Proof.
  induction text as [|c text IH]; [reflexivity|].
  cbn [flat_map]. rewrite <- IH. unfold HtmlEscape.
  change (c :: text) with ([c] ++ text).
  rewrite !replace_char_app. f_equal.
  rewrite replace_char_one. unfold escape_char.
  destruct (Ascii.eqb_spec c "&") as [->|Hamp]; [reflexivity|].
  rewrite replace_char_one.
  destruct (Ascii.eqb_spec c "<") as [->|Hlt]; [reflexivity|].
  rewrite replace_char_one.
  by destruct (Ascii.eqb_spec c quote) as [->|Hq].
Qed.

Lemma escape_char_cases (c : ascii) :
  (c = "&" /\ escape_char c = list_ascii_of_string "&amp;") \/
  (c = "<" /\ escape_char c = list_ascii_of_string "&lt;") \/
  (c = quote /\ escape_char c = list_ascii_of_string "&quot;") \/
  (c <> "&" /\ c <> "<" /\ c <> quote /\ escape_char c = [c]).
Proof.
  unfold escape_char.
  destruct (Ascii.eqb_spec c "&") as [->|Hamp]; [by left|].
  destruct (Ascii.eqb_spec c "<") as [->|Hlt]; [by right; left|].
  destruct (Ascii.eqb_spec c quote) as [->|Hq]; [by right; right; left|].
  by right; right; right.
Qed.

(** X22.  What [HtmlEscape] returns holds no [<] and no double quote,
    whatever the text: each is written as an entity, and the ampersand of
    an entity is not escaped a second time. *)
Theorem HtmlEscape_leaves_no_markup (text : str) :
  ~ In "<" (HtmlEscape text) /\ ~ In quote (HtmlEscape text).
Proof.
  rewrite HtmlEscape_flat_map.
  split; intros Hin; apply in_flat_map in Hin as (c & _ & Hc);
    destruct (escape_char_cases c)
      as [[-> Hx]|[[-> Hx]|[[-> Hx]|(Ha & Hl & Hq & Hx)]]];
    rewrite Hx in Hc; unfold quote in *;
    repeat (destruct Hc as [Hc|Hc]; [try discriminate Hc; congruence|]);
    destruct Hc.
Qed.

(** X23.  [HtmlEscape] loses nothing: two texts with the same escaped
    form are the same text. *)
Theorem HtmlEscape_injective (a b : str) :
  HtmlEscape a = HtmlEscape b -> a = b.
Proof.
  rewrite !HtmlEscape_flat_map. revert b.
  induction a as [|c a IH]; intros [|d b]; cbn [flat_map].
  - done.
  - destruct (escape_char_cases d)
      as [[-> Hx]|[[-> Hx]|[[-> Hx]|(Ha & Hl & Hq & Hx)]]];
      rewrite Hx; discriminate.
  - destruct (escape_char_cases c)
      as [[-> Hx]|[[-> Hx]|[[-> Hx]|(Ha & Hl & Hq & Hx)]]];
      rewrite Hx; discriminate.
  - destruct (escape_char_cases c)
      as [[-> Hx]|[[-> Hx]|[[-> Hx]|(Ha & Hl & Hq & Hx)]]];
    destruct (escape_char_cases d)
      as [[-> Hy]|[[-> Hy]|[[-> Hy]|(Ha' & Hl' & Hq' & Hy)]]];
    rewrite ?Hx, ?Hy; cbn [list_ascii_of_string app]; intros Heq;
    unfold quote in *;
    try (injection Heq as Heq; f_equal; by apply IH);
    try (injection Heq as -> Heq; f_equal; by apply IH);
    try (by injection Heq; intros; subst);
    try discriminate Heq.
Qed.

End Escaping.

Section Paths.

Local Open Scope char_scope.

Lemma split_on_no_sep sep (a b : str) :
  ~ In sep a -> split_on sep (a ++ sep :: b) = a :: split_on sep b.
Proof.
  induction a as [|c a IH]; intros Hin.
  - cbn [app split_on]. by rewrite Ascii.eqb_refl.
  - cbn [app split_on].
    destruct (Ascii.eqb_spec c sep) as [->|Hc]; [by destruct Hin; left|].
    rewrite IH; [done|]. intros Ha. apply Hin. by right.
Qed.

Lemma split_on_none sep (a : str) : ~ In sep a -> split_on sep a = [a].
Proof.
  induction a as [|c a IH]; intros Hin; [done|].
  cbn [split_on].
  destruct (Ascii.eqb_spec c sep) as [->|Hc]; [by destruct Hin; left|].
  rewrite IH; [done|]. intros Ha. apply Hin. by right.
Qed.

Lemma split_on_join sep (cs : list str) :
  cs <> [] -> Forall (fun c => ~ In sep c) cs ->
  split_on sep (join [sep] cs) = cs.
Proof.
  induction cs as [|c cs IH]; [done|]. intros _ Hcs.
  apply Forall_cons in Hcs as [Hc Hcs].
  destruct cs as [|c' cs].
  - cbn [join]. by apply split_on_none.
  - change (join [sep] (c :: c' :: cs))
      with (c ++ sep :: join [sep] (c' :: cs)).
    rewrite (split_on_no_sep sep c _ Hc). by rewrite IH.
Qed.

Lemma lstrip_other sep (s : str) :
  match s with [] => True | c :: _ => c <> sep end -> lstrip sep s = s.
Proof.
  destruct s as [|c s]; [done|]. intros Hc. cbn [lstrip].
  by destruct (Ascii.eqb_spec c sep).
Qed.

(** X24.  A path made of a slash and components joined by slashes, the
    first component not empty and none holding a slash, has these
    components; and so has its Atom ID, the prefix of the service being
    taken off again. *)
Theorem GetPathComponents_of_AtomId (c : str) (cs : list str) :
  c <> [] ->
  Forall (fun c => ~ In "/" c) (c :: cs) ->
  let path := "/" :: join ["/"] (c :: cs) in
  GetPathComponents path = c :: cs /\
  GetPathComponents (GetAtomId (Path (string_of_list_ascii path))) = c :: cs.
Proof.
  intros Hc Hcs path.
  assert (Hstrip : split_on "/" (lstrip "/" path) = c :: cs).
  { unfold path. cbn [lstrip]. change (Ascii.eqb "/" "/") with true.
    cbv iota. rewrite lstrip_other.
    - by apply split_on_join.
    - apply Forall_cons in Hcs as [Hc0 _].
      destruct c as [|x c]; [done|].
      assert (Hx : x <> "/") by (intros ->; apply Hc0; by left).
      by destruct cs. }
  split.
  - unfold GetPathComponents.
    replace (startswith DEFAULT_URI_PREFIX path) with false; [done|].
    symmetry. apply bool_decide_eq_false. unfold path. by vm_compute.
  - unfold GetPathComponents, GetAtomId. cbn [GetEntityPath].
    rewrite list_ascii_of_string_of_list_ascii.
    unfold startswith. rewrite take_app_length.
    rewrite bool_decide_eq_true_2 by done.
    by rewrite drop_app_length.
Qed.

End Paths.

Section Batches.

Local Open Scope result_scope.

Variable S : Type.
Variable ToXml : Event -> result str.
Variable PostXml : S -> str -> str -> result S.

(** The loop never runs out of rounds. *)
Lemma BatchPostEvents_while_fuel (fuel : nat) : forall fuel' self events,
  (length events <= fuel)%nat -> (length events <= fuel')%nat ->
  BatchPostEvents_while S ToXml PostXml fuel self events
  = BatchPostEvents_while S ToXml PostXml fuel' self events.
Proof.
  induction fuel as [|fuel IH]; intros fuel' self events Hf Hf'.
  - destruct events; [by destruct fuel'|cbn in Hf; lia].
  - destruct events as [|e events]; [by destruct fuel'|].
    destruct fuel' as [|fuel']; [cbn in Hf'; lia|].
    cbn [BatchPostEvents_while].
    destruct (post_batch S ToXml PostXml self _) as [self'|]; [|done].
    cbn [rbind].
    apply IH; rewrite length_drop; cbn [length] in *;
      unfold MAX_BATCH_POST_COUNT; lia.
Qed.

Lemma BatchPostEvents_unfold (self : S) (events : list Event) :
  events <> [] ->
  BatchPostEvents S ToXml PostXml self events =
    let! self :=
      post_batch S ToXml PostXml self (take MAX_BATCH_POST_COUNT events) in
    BatchPostEvents S ToXml PostXml self (drop MAX_BATCH_POST_COUNT events).
Proof.
  intros Hne. unfold BatchPostEvents.
  destruct events as [|e events]; [done|].
  cbn [length BatchPostEvents_while].
  destruct (post_batch S ToXml PostXml self _) as [self'|]; [|done].
  cbn [rbind].
  apply BatchPostEvents_while_fuel; [|done].
  rewrite length_drop. cbn [length]. unfold MAX_BATCH_POST_COUNT. lia.
Qed.

(** X25.  [BatchPostEvents] sends no request for an empty list, and a
    single request, with the entries of all the events in one feed, for a
    list of at most 100 events. *)
Theorem BatchPostEvents_single_request (self : S) (events : list Event) :
  (length events <= MAX_BATCH_POST_COUNT)%nat ->
  BatchPostEvents S ToXml PostXml self events =
    match events with
    | [] => Ok self
    | _ => post_batch S ToXml PostXml self events
    end.
Proof.
  intros Hlen. destruct events as [|e events]; [reflexivity|].
  rewrite BatchPostEvents_unfold by done.
  rewrite take_ge, drop_ge by done.
  by destruct (post_batch S ToXml PostXml self _).
Qed.

(** X26.  [BatchPostEvents] sends the events in order, by hundreds: when
    the first part of a list holds a multiple of 100 events, uploading the
    list is uploading the first part, then the rest, and an exception of
    the first part keeps the rest from being sent. *)
Theorem BatchPostEvents_by_hundreds (k : nat) : forall (self : S)
    (first rest : list Event),
  length first = (k * MAX_BATCH_POST_COUNT)%nat ->
  BatchPostEvents S ToXml PostXml self (first ++ rest) =
    let! self := BatchPostEvents S ToXml PostXml self first in
    BatchPostEvents S ToXml PostXml self rest.
Proof.
  induction k as [|k IH]; intros self first rest Hlen.
  - destruct first; [reflexivity|done].
  - assert (Hne : first <> []) by (intros ->; cbn in Hlen; lia).
    rewrite (BatchPostEvents_unfold self first Hne).
    rewrite BatchPostEvents_unfold by (destruct first; done).
    assert (Hge : (MAX_BATCH_POST_COUNT <= length first)%nat) by lia.
    rewrite take_app_le, drop_app_le by done.
    destruct (post_batch S ToXml PostXml self _) as [self'|]; [|done].
    cbn [rbind].
    apply IH. rewrite length_drop. lia.
Qed.

(** X27.  A [Flush] that returns leaves the queue empty, and flushing
    again sends no request. *)
Theorem Flush_leaves_nothing_to_send (service service' : S)
    (self self' : BatchAdapter) :
  Flush S ToXml PostXml service self = Ok (service', self') ->
  events self' = [] /\
  Flush S ToXml PostXml service' self' = Ok (service', self').
Proof.
  unfold Flush.
  destruct (BatchPostEvents S ToXml PostXml service (events self)) as [s|];
    [|done].
  cbn [rbind]. by intros [= <- <-].
Qed.

End Batches.

Section Measures.

Local Open Scope result_scope.

Variable variable : string.
Variable time_uncertainty uncertainty : Qc.

Lemma measures_loop_spec (rows : list row) : forall (r0 : row) acc,
  measures_loop variable time_uncertainty uncertainty (Some (date r0)) rows acc
  = Ok (acc
        ++ zip_with (measure_between variable time_uncertainty uncertainty)
             (r0 :: rows) rows).
Proof.
  induction rows as [|r rows IH]; intros r0 acc.
  - cbn. by rewrite app_nil_r.
  - cbn [measures_loop DurMeasurement__init__ timestamp_arg rbind
         GetEntityPath].
    rewrite IH. cbn [zip_with]. by rewrite <- app_assoc.
Qed.

(** X28.  The events the main program uploads: none for fewer than two
    rows; otherwise one event for each row after the first, from the date
    of the row before to the date of the row, with the reading of the row
    in kilowatt-hours.  The reading of the first row is not uploaded. *)
Theorem measures_between_rows (rows : list row) :
  measures variable time_uncertainty uncertainty rows
  = Ok (zip_with (measure_between variable time_uncertainty uncertainty)
          rows (drop 1 rows)).
Proof.
  unfold measures. destruct rows as [|r0 rows]; [reflexivity|].
  cbn [measures_loop]. by rewrite measures_loop_spec.
Qed.

End Measures.


Lemma HtmlEscape_injective_witness :
  list_ascii_of_string "a<b" = list_ascii_of_string "a<b".
Proof.
  apply (HtmlEscape_injective (list_ascii_of_string "a<b")
           (list_ascii_of_string "a<b")).
  reflexivity.
Defined.

Lemma GetPathComponents_of_AtomId_witness :
  GetPathComponents (list_ascii_of_string "/user/1/variable/v")
    = [list_ascii_of_string "user"; list_ascii_of_string "1";
       list_ascii_of_string "variable"; list_ascii_of_string "v"] /\
  GetPathComponents (GetAtomId (Path "/user/1/variable/v"))
    = [list_ascii_of_string "user"; list_ascii_of_string "1";
       list_ascii_of_string "variable"; list_ascii_of_string "v"].
Proof.
  apply (GetPathComponents_of_AtomId (list_ascii_of_string "user")
           [list_ascii_of_string "1"; list_ascii_of_string "variable";
            list_ascii_of_string "v"]); [done|].
  repeat constructor; by_compute.
Defined.

Lemma BatchPostEvents_single_request_witness :
  BatchPostEvents (list str) recorded_ToXml recorded_PostXml []
    (replicate 3 (DurMeasurement "/v" 0 1 PNone 1 1 PNone))
  = post_batch (list str) recorded_ToXml recorded_PostXml []
      (replicate 3 (DurMeasurement "/v" 0 1 PNone 1 1 PNone)).
Proof.
  apply (BatchPostEvents_single_request (list str) recorded_ToXml
           recorded_PostXml []
           (replicate 3 (DurMeasurement "/v" 0 1 PNone 1 1 PNone))).
  vm_compute. lia.
Defined.

Lemma BatchPostEvents_by_hundreds_witness :
  BatchPostEvents (list str) recorded_ToXml recorded_PostXml []
    (replicate 200 (DurMeasurement "/v" 0 1 PNone 1 1 PNone)
     ++ replicate 3 (DurMeasurement "/v" 0 1 PNone 1 1 PNone))
  = rbind (BatchPostEvents (list str) recorded_ToXml recorded_PostXml []
             (replicate 200 (DurMeasurement "/v" 0 1 PNone 1 1 PNone)))
      (fun self =>
         BatchPostEvents (list str) recorded_ToXml recorded_PostXml self
           (replicate 3 (DurMeasurement "/v" 0 1 PNone 1 1 PNone))).
Proof.
  apply (BatchPostEvents_by_hundreds (list str) recorded_ToXml
           recorded_PostXml 2 []
           (replicate 200 (DurMeasurement "/v" 0 1 PNone 1 1 PNone))
           (replicate 3 (DurMeasurement "/v" 0 1 PNone 1 1 PNone))).
  vm_compute. reflexivity.
Defined.

Lemma Flush_leaves_nothing_to_send_witness :
  events (mkBatchAdapter []) = [] /\
  Flush (list str) recorded_ToXml recorded_PostXml
    [list_ascii_of_string "<feed"
     ++ XMLNS_ATTRIBUTES ++ list_ascii_of_string "></feed>"]
    (mkBatchAdapter [])
  = Ok ([list_ascii_of_string "<feed"
         ++ XMLNS_ATTRIBUTES ++ list_ascii_of_string "></feed>"],
        mkBatchAdapter []).
Proof.
  apply (Flush_leaves_nothing_to_send (list str) recorded_ToXml
           recorded_PostXml []
           [list_ascii_of_string "<feed"
            ++ XMLNS_ATTRIBUTES ++ list_ascii_of_string "></feed>"]
           (mkBatchAdapter [DurMeasurement "/v" 0 1 PNone 1 1 PNone])
           (mkBatchAdapter [])).
  vm_compute. reflexivity.
Defined.
